(** * tornwrap: request-handler wrapper and structured logger

    A shallow embedding of [tornwrap/logger.py] and [tornwrap/handler.py],
    together with the methods of the framework's [web.RequestHandler] that
    the handler calls through [super] ([finish], [write], [flush],
    [log_exception], [set_status], [set_header]).

    Python [str] values are byte strings (the code base is Python 2: the
    serialised log records are ASCII), modelled by [string]; dictionaries
    with string keys are [gmap string _]; the attributes of the handler
    object and the process-wide loggers are threaded through a small
    state-and-exception monad. Library calls whose code lives outside the
    repository and the framework's handler class ([json.dumps], [uuid4],
    [rollbar.report_exc_info], the template engine, [hashlib.sha1], ...)
    are the fields of the class [Externals], over which every statement is
    quantified. *)

From Stdlib Require Import ZArith String Ascii List Bool Lia.
From stdpp Require Import base option gmap strings list pretty.

Set Warnings "-register-all".
Open Scope string_scope.
Open Scope Z_scope.

(** ** Python values *)

(** The values that travel through payloads and log records. The code
    tells a list from any other sequence and a dict from any other mapping
    by exact type ([type(chunk) is list], [type(chunk) is dict]), while the
    framework and [json] go by [isinstance]; hence the tuple and the
    instance of a proper subclass of [dict] (an [OrderedDict], a database
    row). [VObject] is an instance of any other class: it is truthy, has
    none of the attributes the code reads, and [json] cannot serialise
    it. *)
Inductive value :=
| VNone
| VBool (b : bool)
| VInt (z : Z)
| VStr (s : string)
| VList (l : list value)
| VTuple (l : list value)
| VDict (d : gmap string value)
| VDictSubclass (d : gmap string value)
| VObject (repr : string).

(** [bool(v)]: Python truthiness. *)
Definition truthy (v : value) : bool :=
  match v with
  | VNone => false
  | VBool b => b
  | VInt z => negb (z =? 0)
  | VStr s => negb (String.eqb s "")
  | VList l | VTuple l => match l with [] => false | _ => true end
  | VDict d | VDictSubclass d => negb (bool_decide (d = ∅))
  | VObject _ => true
  end.

(** What [json.dumps] serialises when it is given no [default=]: everything
    but the objects of other classes, wherever they sit. *)
Fixpoint json_serialisable (v : value) : bool :=
  match v with
  | VObject _ => false
  | VList l | VTuple l => forallb json_serialisable l
  | VDict d | VDictSubclass d =>
      map_fold (fun _ x acc => json_serialisable x && acc) true d
  | _ => true
  end.

(** ** Exceptions *)

Inductive builtin_class :=
| IOError | AttributeError | KeyError | TypeError | ValueError
| RuntimeError | NameError | AssertionError | OtherClass.

(** An exception value together with its class. The handler tells classes
    apart both by identity ([typ is C]) and by [isinstance]; the only proper
    subclasses that matter for that difference are those of the framework's
    [HTTPError]: its own [MissingArgumentError] and the subclasses an
    application may declare ([HTTPErrorSubclass]). The [context] of a
    validation error is its list of field names. *)
Inductive exception :=
| MissingArgumentError (arg_name : string)
| ValidationError (message : string) (context : list string)
| DataError (text : string)
| HTTPError (status_code : Z) (log_message : option string)
| HTTPErrorSubclass (status_code : Z) (log_message : option string)
| Builtin (cls : builtin_class) (text : string).

Inductive Result (A : Type) :=
| Ok (a : A)
| Raise (e : exception).
Arguments Ok {A} a.
Arguments Raise {A} e.

(** ** The request, the handler object and the process-wide state *)

Record Request := {
  headers : gmap string string;  (* keyed by the normalised header name *)
  method : string;
  uri : string;
  remote_ip : string;
  request_time_ms : string;      (* "%.0f" % (1000.0 * request_time()) *)
  request_time_ms2 : string      (* "%.2f" % (1000.0 * request_time()) *)
}.

(** The severities of [logging], named after the methods of a logger. *)
Inductive level := Debug | Info | Warn | Error | Fatal.

(** The loggers that are written to: [_log] of [logger.py], and the
    framework's [tornado.access], [tornado.application] and
    [tornado.general], whose records propagate to the root logger that
    [logger.py] configures. *)
Inductive logger_name := OwnLog | AccessLog | ApplicationLog | GeneralLog.

(** A logging call: the message, and the [exc_info=] it was given, whose
    stack trace a log handler prints below the message. *)
Record LogRecord := {
  logger : logger_name;
  lvl : level;
  text : string;
  exc_info : option exception
}.

(** What the handler hands to [request.connection]: the start line and the
    headers with a first chunk ([write_headers]), or a further chunk
    ([write]). *)
Inductive transmission :=
| Response (status : Z) (reason : string) (response_headers : gmap string string)
    (chunk : string)
| Chunk (chunk : string).

(** The [log_function] setting of the application: absent, or
    [logger.handler] of this repository. An application that installs a
    log function of its own is outside the model. *)
Inductive log_function_setting := Unset | LoggerHandler.

Record Handler := {
  request : Request;
  rollbar_access_token : option string; (* settings.get('rollbar_access_token') *)
  debug : bool;                         (* application.settings.get('debug', False) *)
  log_function : log_function_setting;  (* settings.get('log_function') *)
  extra : gmap string value;            (* getattr(application, 'extra', {}) *)
  path_kwargs : gmap string (option string);
  resource : option string;             (* None: the attribute is not defined *)
  current_user : option value;          (* None: hasattr(self, 'current_user') is false *)
  _id : option string;
  _headers : gmap string string;
  _status_code : Z;
  _reason : string;
  tracebacks : option (list (list string));
  _rollbar_token : option (option string);
  error : option (gmap string value);
  _write_buffer : list string;
  _headers_written : bool;
  _finished : bool;
  connection : list transmission        (* oldest first *)
}.

Record World := {
  records : list LogRecord;             (* the logging calls, oldest first *)
  reports : list (exception * value);   (* calls of rollbar.report_exc_info *)
  base_log_exception : list exception;  (* calls of super().log_exception *)
  uuid_count : nat                      (* uuid4() calls so far *)
}.

(** Library code outside the repository. *)
Class Externals := {
  dumps : bool -> option nat -> value -> string;
    (* json.dumps(obj, sort_keys=, indent=, default=json_defaults) *)
  format_exception : exception -> list string;   (* traceback.format_exception *)
  pygments_highlight : option (string -> string);
    (* highlight(text, JsonLexer(), TerminalFormatter()); None: pygments
       cannot be imported *)
  uuid4 : nat -> string;                         (* str(uuid4()), by call number *)
  report_exc_info : exception -> value -> Result (option string);
  template_render : string -> gmap string value -> Result string;
                                                 (* web.RequestHandler.render_string *)
  int_of_str : string -> option Z;               (* int(s) on a str; None: ValueError *)
  responses : Z -> string;                       (* httputil.responses.get(code, "Unknown") *)
  getenv_DEBUG : option string;                  (* os.getenv('DEBUG') *)
  sha1_hexdigest : string -> string;             (* hashlib.sha1(data).hexdigest() *)
  etag_match : string -> string -> bool;
    (* whether one of the entity tags of an If-None-Match header (second
       argument) matches the response's Etag (first argument) *)
  repr_request : Request -> string               (* repr(self.request) *)
}.

(** ** A state-and-exception monad

    A Python exception unwinds the call but keeps every side effect made so
    far, so a raised result still carries the handler and the world. *)
Definition M (A : Type) : Type := Handler -> World -> Result A * Handler * World.

Definition ret {A} (a : A) : M A := fun h w => (Ok a, h, w).

Definition raise {A} (e : exception) : M A := fun h w => (Raise e, h, w).

Definition bind {A B} (m : M A) (f : A -> M B) : M B :=
  fun h w =>
    match m h w with
    | (Ok a, h', w') => f a h' w'
    | (Raise e, h', w') => (Raise e, h', w')
    end.

(** [try: m  except: handler] with a bare [except]. *)
Definition try_except {A} (m : M A) (handler : exception -> M A) : M A :=
  fun h w =>
    match m h w with
    | (Ok a, h', w') => (Ok a, h', w')
    | (Raise e, h', w') => handler e h' w'
    end.

(** The three components of an outcome. *)
Definition result_of {A} (x : Result A * Handler * World) : Result A := fst (fst x).
Definition handler_of {A} (x : Result A * Handler * World) : Handler := snd (fst x).
Definition world_of {A} (x : Result A * Handler * World) : World := snd x.

(** A library call that returns or raises without touching the state. *)
Definition lift {A} (r : Result A) : M A := fun h w => (r, h, w).

Definition get : M Handler := fun h w => (Ok h, h, w).
Definition modify (f : Handler -> Handler) : M unit := fun h w => (Ok tt, f h, w).
Definition modify_world (f : World -> World) : M unit := fun h w => (Ok tt, h, f w).

Declare Scope py_scope.
Delimit Scope py_scope with py.
Notation "x <- c1 ;; c2" := (bind c1 (fun x => c2))
  (at level 100, c1 at next level, right associativity) : py_scope.
Notation "c1 ;; c2" := (bind c1 (fun _ => c2))
  (at level 100, right associativity) : py_scope.
Open Scope py_scope.

(** Attribute assignment on [self]. *)
Definition set__id (v : option string) (h : Handler) : Handler :=
  {| request := request h; rollbar_access_token := rollbar_access_token h;
     debug := debug h; log_function := log_function h; extra := extra h;
     path_kwargs := path_kwargs h;
     resource := resource h; current_user := current_user h;
     _id := v; _headers := _headers h; _status_code := _status_code h;
     _reason := _reason h; tracebacks := tracebacks h;
     _rollbar_token := _rollbar_token h; error := error h;
     _write_buffer := _write_buffer h; _headers_written := _headers_written h;
     _finished := _finished h; connection := connection h |}.

Definition set__headers (v : gmap string string) (h : Handler) : Handler :=
  {| request := request h; rollbar_access_token := rollbar_access_token h;
     debug := debug h; log_function := log_function h; extra := extra h;
     path_kwargs := path_kwargs h;
     resource := resource h; current_user := current_user h;
     _id := _id h; _headers := v; _status_code := _status_code h;
     _reason := _reason h; tracebacks := tracebacks h;
     _rollbar_token := _rollbar_token h; error := error h;
     _write_buffer := _write_buffer h; _headers_written := _headers_written h;
     _finished := _finished h; connection := connection h |}.

Definition set__status (code : Z) (reason : string) (h : Handler) : Handler :=
  {| request := request h; rollbar_access_token := rollbar_access_token h;
     debug := debug h; log_function := log_function h; extra := extra h;
     path_kwargs := path_kwargs h;
     resource := resource h; current_user := current_user h;
     _id := _id h; _headers := _headers h; _status_code := code;
     _reason := reason; tracebacks := tracebacks h;
     _rollbar_token := _rollbar_token h; error := error h;
     _write_buffer := _write_buffer h; _headers_written := _headers_written h;
     _finished := _finished h; connection := connection h |}.

Definition set_tracebacks (v : option (list (list string))) (h : Handler) : Handler :=
  {| request := request h; rollbar_access_token := rollbar_access_token h;
     debug := debug h; log_function := log_function h; extra := extra h;
     path_kwargs := path_kwargs h;
     resource := resource h; current_user := current_user h;
     _id := _id h; _headers := _headers h; _status_code := _status_code h;
     _reason := _reason h; tracebacks := v;
     _rollbar_token := _rollbar_token h; error := error h;
     _write_buffer := _write_buffer h; _headers_written := _headers_written h;
     _finished := _finished h; connection := connection h |}.

Definition set__rollbar_token (v : option (option string)) (h : Handler) : Handler :=
  {| request := request h; rollbar_access_token := rollbar_access_token h;
     debug := debug h; log_function := log_function h; extra := extra h;
     path_kwargs := path_kwargs h;
     resource := resource h; current_user := current_user h;
     _id := _id h; _headers := _headers h; _status_code := _status_code h;
     _reason := _reason h; tracebacks := tracebacks h;
     _rollbar_token := v; error := error h;
     _write_buffer := _write_buffer h; _headers_written := _headers_written h;
     _finished := _finished h; connection := connection h |}.

Definition set_error (v : option (gmap string value)) (h : Handler) : Handler :=
  {| request := request h; rollbar_access_token := rollbar_access_token h;
     debug := debug h; log_function := log_function h; extra := extra h;
     path_kwargs := path_kwargs h;
     resource := resource h; current_user := current_user h;
     _id := _id h; _headers := _headers h; _status_code := _status_code h;
     _reason := _reason h; tracebacks := tracebacks h;
     _rollbar_token := _rollbar_token h; error := v;
     _write_buffer := _write_buffer h; _headers_written := _headers_written h;
     _finished := _finished h; connection := connection h |}.

Definition set__write_buffer (v : list string) (h : Handler) : Handler :=
  {| request := request h; rollbar_access_token := rollbar_access_token h;
     debug := debug h; log_function := log_function h; extra := extra h;
     path_kwargs := path_kwargs h;
     resource := resource h; current_user := current_user h;
     _id := _id h; _headers := _headers h; _status_code := _status_code h;
     _reason := _reason h; tracebacks := tracebacks h;
     _rollbar_token := _rollbar_token h; error := error h;
     _write_buffer := v; _headers_written := _headers_written h;
     _finished := _finished h; connection := connection h |}.

Definition set__headers_written (v : bool) (h : Handler) : Handler :=
  {| request := request h; rollbar_access_token := rollbar_access_token h;
     debug := debug h; log_function := log_function h; extra := extra h;
     path_kwargs := path_kwargs h;
     resource := resource h; current_user := current_user h;
     _id := _id h; _headers := _headers h; _status_code := _status_code h;
     _reason := _reason h; tracebacks := tracebacks h;
     _rollbar_token := _rollbar_token h; error := error h;
     _write_buffer := _write_buffer h; _headers_written := v;
     _finished := _finished h; connection := connection h |}.

Definition set__finished (v : bool) (h : Handler) : Handler :=
  {| request := request h; rollbar_access_token := rollbar_access_token h;
     debug := debug h; log_function := log_function h; extra := extra h;
     path_kwargs := path_kwargs h;
     resource := resource h; current_user := current_user h;
     _id := _id h; _headers := _headers h; _status_code := _status_code h;
     _reason := _reason h; tracebacks := tracebacks h;
     _rollbar_token := _rollbar_token h; error := error h;
     _write_buffer := _write_buffer h; _headers_written := _headers_written h;
     _finished := v; connection := connection h |}.

(** One more call on [request.connection]. *)
Definition transmit (t : transmission) (h : Handler) : Handler :=
  {| request := request h; rollbar_access_token := rollbar_access_token h;
     debug := debug h; log_function := log_function h; extra := extra h;
     path_kwargs := path_kwargs h;
     resource := resource h; current_user := current_user h;
     _id := _id h; _headers := _headers h; _status_code := _status_code h;
     _reason := _reason h; tracebacks := tracebacks h;
     _rollbar_token := _rollbar_token h; error := error h;
     _write_buffer := _write_buffer h; _headers_written := _headers_written h;
     _finished := _finished h; connection := (connection h ++ [t])%list |}.

(** Effects on the process-wide state. *)
Definition emit (r : LogRecord) (w : World) : World :=
  {| records := records w ++ [r]; reports := reports w;
     base_log_exception := base_log_exception w; uuid_count := uuid_count w |}.

Definition add_report (e : exception) (payload : value) (w : World) : World :=
  {| records := records w; reports := reports w ++ [(e, payload)];
     base_log_exception := base_log_exception w; uuid_count := uuid_count w |}.

Definition add_base_log_exception (e : exception) (w : World) : World :=
  {| records := records w; reports := reports w;
     base_log_exception := base_log_exception w ++ [e];
     uuid_count := uuid_count w |}.

Definition next_uuid (w : World) : World :=
  {| records := records w; reports := reports w;
     base_log_exception := base_log_exception w;
     uuid_count := S (uuid_count w) |}.

(** [d.setdefault(k, v)] as the dictionary it leaves behind. *)
Definition setdefault {V} (k : string) (v : V) (d : gmap string V) : gmap string V :=
  match d !! k with
  | Some _ => d
  | None => <[k := v]> d
  end.

Definition has_key {V} (k : string) (m : gmap string V) : bool :=
  bool_decide (is_Some (m !! k)).

(** A [str]-or-None attribute as a value. *)
Definition value_of_kwarg (v : option string) : value :=
  match v with
  | Some s => VStr s
  | None => VNone
  end.

(** ** String helpers *)

(** The double quote and the line feed. *)
Definition DQ : string := String (ascii_of_nat 34) "".
Definition LF : string := String (ascii_of_nat 10) "".

Definition lower_char (c : ascii) : ascii :=
  let n := nat_of_ascii c in
  if ((65 <=? n) && (n <=? 90))%nat then ascii_of_nat (n + 32) else c.

Definition upper_char (c : ascii) : ascii :=
  let n := nat_of_ascii c in
  if ((97 <=? n) && (n <=? 122))%nat then ascii_of_nat (n - 32) else c.

Fixpoint map_string (f : ascii -> ascii) (s : string) : string :=
  match s with
  | EmptyString => EmptyString
  | String c s' => String (f c) (map_string f s')
  end.

(** [s.lower()] and [s.upper()] *)
Definition lower (s : string) : string := map_string lower_char s.
Definition upper (s : string) : string := map_string upper_char s.

(** [needle in hay] *)
Fixpoint contains (needle hay : string) : bool :=
  String.prefix needle hay
  || match hay with
     | EmptyString => false
     | String _ hay' => contains needle hay'
     end.

(** [s.replace(c, '')] for a one-character [c] *)
Fixpoint remove_char (c : ascii) (s : string) : string :=
  match s with
  | EmptyString => EmptyString
  | String a s' =>
      if Ascii.eqb a c then remove_char c s' else String a (remove_char c s')
  end.

(** [s.replace("</", "<\\/")] *)
Fixpoint escape_slash (s : string) : string :=
  match s with
  | EmptyString => EmptyString
  | String a s' =>
      match s' with
      | String b s'' =>
          if Ascii.eqb a "<"%char && Ascii.eqb b "/"%char
          then String "<"%char (String "\"%char (String "/"%char (escape_slash s'')))
          else String a (escape_slash s')
      | EmptyString => String a EmptyString
      end
  end.

(** * logger.py *)

Module Logger.

(** ** The subset of Python's [re] used by [FILTER_SECRETS]

    Python's engine is a backtracking matcher: alternatives are tried left
    to right, quantifiers are greedy and give characters back one at a time.
    The matcher below is written in continuation-passing style so that a
    failure of what follows re-enters the pending choices in exactly that
    order. *)

Inductive regex :=
| Lit (l : list ascii)              (* a literal run of characters *)
| ClassStar (p : ascii -> bool)     (* [...]* , greedy *)
| ClassPlus (p : ascii -> bool)     (* [...]+ , greedy *)
| Seq (r1 r2 : regex)
| Alt (r1 r2 : regex)
| Group (name : string) (r : regex). (* (?P<name>...) *)

Definition captures := list (string * list ascii).

Fixpoint strip_prefix (l s : list ascii) : option (list ascii) :=
  match l, s with
  | [], _ => Some s
  | a :: l', b :: s' => if Ascii.eqb a b then strip_prefix l' s' else None
  | _ :: _, [] => None
  end.

(** Greedy repetition of a character class: take as many characters as
    possible, and on failure of the continuation give them back one by one. *)
Fixpoint star_greedy {R} (p : ascii -> bool) (s : list ascii)
    (k : list ascii -> option R) : option R :=
  match s with
  | c :: s' =>
      if p c then
        match star_greedy p s' k with
        | Some r => Some r
        | None => k s
        end
      else k s
  | [] => k []
  end.

Fixpoint rmatch {R} (r : regex) (s : list ascii) (caps : captures)
    (k : list ascii -> captures -> option R) : option R :=
  match r with
  | Lit l =>
      match strip_prefix l s with
      | Some s' => k s' caps
      | None => None
      end
  | ClassStar p => star_greedy p s (fun s' => k s' caps)
  | ClassPlus p =>
      match s with
      | c :: s' => if p c then star_greedy p s' (fun s'' => k s'' caps) else None
      | [] => None
      end
  | Seq r1 r2 => rmatch r1 s caps (fun s' caps' => rmatch r2 s' caps' k)
  | Alt r1 r2 =>
      match rmatch r1 s caps k with
      | Some x => Some x
      | None => rmatch r2 s caps k
      end
  | Group name r1 =>
      rmatch r1 s caps
        (fun s' caps' =>
           k s' ((name, take (length s - length s') s) :: caps'))
  end.

(** [match_at r s]: the match of [r] anchored at the start of [s], as the
    captured groups and the unconsumed rest. *)
Definition match_at (r : regex) (s : list ascii)
  : option (captures * list ascii) :=
  rmatch r s [] (fun s' caps => Some (caps, s')).

Fixpoint group (name : string) (caps : captures) : list ascii :=
  match caps with
  | [] => []
  | (n, v) :: caps' => if String.eqb n name then v else group name caps'
  end.

(** Replacement templates: [\g<name>] references and literal text. *)
Inductive template_item :=
| GroupRef (name : string)
| Text (l : list ascii).

Fixpoint expand (t : list template_item) (caps : captures) : list ascii :=
  match t with
  | [] => []
  | GroupRef n :: t' => group n caps ++ expand t' caps
  | Text l :: t' => l ++ expand t' caps
  end.

(** [pattern.sub(repl, data)]: scan left to right; at the leftmost position
    where the pattern matches, emit the expanded template and resume after
    the match; a position with no match is copied. The fuel bounds the
    number of positions visited; [sub] supplies enough of it. An empty match
    (which [FILTER_SECRETS] cannot produce) emits the template and copies one
    character. *)
Fixpoint sub_go (fuel : nat) (r : regex) (repl : list template_item)
    (s : list ascii) : list ascii :=
  match fuel with
  | O => s
  | S fuel' =>
      match match_at r s with
      | Some (caps, rest) =>
          if (length rest <? length s)%nat
          then expand repl caps ++ sub_go fuel' r repl rest
          else
            match s with
            | [] => expand repl caps
            | c :: s' => expand repl caps ++ c :: sub_go fuel' r repl s'
            end
      | None =>
          match s with
          | [] => []
          | c :: s' => c :: sub_go fuel' r repl s'
          end
      end
  end.

Definition sub (r : regex) (repl : list template_item) (s : list ascii)
  : list ascii :=
  sub_go (S (length s)) r repl s.

(** ** Character classes *)

Definition in_range (lo hi : nat) (c : ascii) : bool :=
  let n := nat_of_ascii c in ((lo <=? n) && (n <=? hi))%nat.

(** [\w] on byte strings: [[a-zA-Z0-9_]]. *)
Definition is_word (c : ascii) : bool :=
  in_range 97 122 c || in_range 65 90 c || in_range 48 57 c
  || Ascii.eqb c "_"%char.

(** [\s] on byte strings: space, [\t], [\n], [\v], [\f], [\r]. *)
Definition is_space (c : ascii) : bool :=
  Ascii.eqb c " "%char || in_range 9 13 c.

(** [[^\&\s]] *)
Definition not_amp_space (c : ascii) : bool :=
  negb (Ascii.eqb c "&"%char) && negb (is_space c).

Definition chars (s : string) : list ascii := list_ascii_of_string s.

(** ** FILTER_SECRETS and scrub *)

(** [re.compile(r'(?P<key>\w*secret|token|auth|password\w*\=)(?P<secret>[^\&\s]+)')]:
    the alternation inside [key] has four branches, and only the last of
    them carries the [\=]. *)
Definition FILTER_SECRETS : regex :=
  Seq
    (Group "key"
       (Alt (Seq (ClassStar is_word) (Lit (chars "secret")))
       (Alt (Lit (chars "token"))
       (Alt (Lit (chars "auth"))
            (Seq (Lit (chars "password"))
                 (Seq (ClassStar is_word) (Lit (chars "="))))))))
    (Group "secret" (ClassPlus not_amp_space)).

(** The replacement [r'\g<key>=secret']. *)
Definition SECRET_TEMPLATE : list template_item :=
  [GroupRef "key"; Text (chars "=secret")].

Definition scrub_chars (data : list ascii) : list ascii :=
  sub FILTER_SECRETS SECRET_TEMPLATE data.

(** [def scrub(data): return FILTER_SECRETS.sub(r'\g<key>=secret', data)] *)
Definition scrub (data : string) : string :=
  string_of_list_ascii (scrub_chars (chars data)).

(** ** Emitting records *)

Section Logging.
Context `{Externals}.

(** [DEBUG = (str(os.getenv('DEBUG', 'FALSE')).upper() == 'TRUE')] *)
Definition DEBUG : bool :=
  String.eqb (upper (default "FALSE" getenv_DEBUG)) "TRUE".

(** A call of [_log.info], [_log.error], ... *)
Definition write_record (l : level) (t : string) : M unit :=
  modify_world (emit {| logger := OwnLog; lvl := l; text := t; exc_info := None |}).

(** [dumps(obj)] with no [default=]: a TypeError on what [json] cannot
    serialise (the message names the object). *)
Definition plain_dumps (v : value) : Result string :=
  if json_serialisable v then Ok (dumps false None v)
  else Raise (Builtin TypeError "is not JSON serializable").

(** The record [traceback] writes for [exc_info] with the extra fields
    [kwargs]: the keyword arguments, then the key
    ['traceback'] bound to the formatted exception, serialised by [dumps]
    and written with [_log.error]. *)
Definition traceback_record (exc_info : exception) (kwargs : gmap string value)
  : LogRecord :=
  {| logger := OwnLog;
     lvl := Error;
     text := dumps false None
               (VDict (<["traceback" := VList (VStr <$> format_exception exc_info)]>
                         kwargs));
     exc_info := None |}.

(** [logger.traceback]. A caller that passes no
    [exc_info] gets [sys.exc_info()], the exception being handled, which the
    model passes explicitly. The copy of the traceback that DEBUG mode prints
    on standard output is not part of the log and is left out. *)
Definition traceback (exc_info : exception) (kwargs : gmap string value)
  : M unit :=
  modify_world (emit (traceback_record exc_info kwargs)).

(** Lines 76-87 of [logger.log], called with one positional dictionary and
    no keyword (the only call shape in the repository), so that [_debug] is
    False. In DEBUG mode the arguments of [highlight] are evaluated first,
    and [json_lexer] is bound only if pygments could be imported: line 24
    binds [highlight], [python_lexer] and [formatter], not [json_lexer]. *)
Definition log_lines (arg : gmap string value) : M unit :=
  if DEBUG then
    match pygments_highlight with
    | Some highlight =>
        write_record Info (highlight (dumps true (Some 2%nat) (VDict arg)))
    | None => raise (Builtin NameError "global name 'json_lexer' is not defined")
    end
  else write_record Info (scrub (dumps true None (VDict arg))).

(** [logger.log]: whatever the lines above raise is logged by
    [traceback()]. *)
Definition log (arg : gmap string value) : M unit :=
  try_except (log_lines arg) (fun e => traceback e ∅).

End Logging.

End Logger.

(** * logger.py: the parts of the per-request record *)

Module RequestLog.

Section RequestLog.
Context `{Externals}.

Definition ESC : string := String (ascii_of_nat 27) "".

(** ["\033[9Xm%(method)s %(status)s\033[0m " % _basics] *)
Definition coloured (colour : string) (h : Handler) : string :=
  ESC +:+ "[" +:+ colour +:+ "m" +:+ method (request h) +:+ " "
  +:+ pretty (_status_code h) +:+ ESC +:+ "[0m ".

(** The prefix [add], empty unless [os.getenv('DEBUG') == 'TRUE']. *)
Definition add (h : Handler) : string :=
  if bool_decide (getenv_DEBUG = Some "TRUE") then
    if 500 <=? _status_code h then coloured "91" h
    else if 400 <=? _status_code h then coloured "93" h
    else coloured "92" h
  else "".

(** [_basics] before the handler's own payload is merged in. *)
Definition basics (h : Handler) : gmap string value :=
  let b : gmap string value :=
    <["ms" := VStr (request_time_ms (request h))]>
      (<["reason" := VStr (_reason h)]>
         (<["uri" := VStr (uri (request h))]>
            (<["method" := VStr (method (request h))]>
               {["status" := VInt (_status_code h)]}))) in
  match _rollbar_token h with
  | Some token => <["rollbar" := value_of_kwarg token]> b
  | None => b
  end.

Definition severity (status : Z) : level :=
  if 499 <? status then Fatal
  else if 399 <? status then Warn
  else Info.

End RequestLog.

End RequestLog.

(** * handler.py *)

Module RequestHandler.

Section Handler.
Context `{Externals}.

Definition attribute_error {A} (name : string) : M A :=
  raise (Builtin AttributeError name).

Definition type_error {A} (what : string) : M A :=
  raise (Builtin TypeError what).

(** Truthiness of a value that is a string or None. *)
Definition str_truthy (x : option string) : bool :=
  match x with
  | Some s => negb (String.eqb s "")
  | None => false
  end.

(** [x or y] on such a value: None and the empty string are falsy. *)
Definition str_or (x : option string) (y : string) : string :=
  if str_truthy x then default y x else y.

(** [export]: the 'export' path parameter or, when that is falsy (missing,
    None or empty), 'html' if the Accept header mentions text/html and
    'json' otherwise; dots removed. *)
Definition export (h : Handler) : string :=
  remove_char "."%char
    (str_or (mjoin (path_kwargs h !! "export"))
       (if contains "text/html" (default "" (headers (request h) !! "Accept"))
        then "html" else "json")).

(** [id]: cached in [_id] on first access. The default of [headers.get] is
    an argument, so [uuid4()] is called whether or not the header exists. *)
Definition id : M string :=
  fun h w =>
    match _id h with
    | Some v => (Ok v, h, w)
    | None =>
        let v := default (uuid4 (uuid_count w))
                   (headers (request h) !! "X-Request-Id") in
        (Ok v, set__id (Some v) h, next_uuid w)
    end.

Definition user_or_none (h : Handler) : value := default VNone (current_user h).

Definition get_rollbar_payload : M value :=
  h <- get;;
  i <- id;;
  ret (VDict (<["id" := VStr i]> {["user" := user_or_none h]})).

Definition get_log_payload : M value :=
  h <- get;;
  i <- id;;
  ret (VDict (<["id" := VStr i]> {["user" := user_or_none h]})).

(** [logger.handler(handler)] ([logger.py], lines 120-150) for a handler of
    this class; the flag says whether the handler is also a static-file or
    redirect handler. The payload of [get_log_payload] binds [user] and
    [id] only, so the status read back from [_basics] is the handler's.
    [dumps] is called without [default=]. *)
Definition logger_handler (static_or_redirect : bool) : M unit :=
  if static_or_redirect then ret tt
  else
    h <- get;;
    payload <- get_log_payload;;
    let merged :=
      match payload with
      | VDict d => if truthy payload then d ∪ RequestLog.basics h
                   else RequestLog.basics h
      | _ => RequestLog.basics h
      end in
    serialised <- lift (Logger.plain_dumps (VDict merged));;
    Logger.write_record (RequestLog.severity (_status_code h))
      (RequestLog.add h +:+ Logger.scrub serialised).

(** [del self._headers["Server"]] raises KeyError when the header is not
    there. *)
Definition set_default_headers : M unit :=
  h <- get;;
  match _headers h !! "Server" with
  | None => raise (Builtin KeyError "Server")
  | Some _ =>
      modify (fun h => set__headers (delete "Server" (_headers h)) h);;
      i <- id;;
      modify (fun h => set__headers (<["X-Request-Id" := i]> (_headers h)) h)
  end.

(** [self.log(title, **kwargs)]: [logger.log(kwargs)], any failure being
    logged as a traceback. *)
Definition log (kwargs : gmap string value) : M unit :=
  try_except (Logger.log kwargs) (fun e => Logger.traceback e ∅).

Definition save_traceback (exc_info : exception) : M unit :=
  modify (fun h =>
    set_tracebacks
      (Some (default [] (tracebacks h) ++ [format_exception exc_info])%list) h).

(** ** The framework's methods *)

Definition get_status : M Z := h <- get;; ret (_status_code h).

Definition set_status (status_code : Z) : M unit :=
  modify (set__status status_code (responses status_code)).

Definition set_header (name v : string) : M unit :=
  modify (fun h => set__headers (<[name := v]> (_headers h)) h).

Definition clear_header (name : string) : M unit :=
  modify (fun h => set__headers (delete name (_headers h)) h).

(** [escape.json_encode(value)]: [json.dumps(value).replace("</", "<\\/")] *)
Definition json_encode (v : value) : Result string :=
  match Logger.plain_dumps v with
  | Ok s => Ok (escape_slash s)
  | Raise e => Raise e
  end.

(** [write(chunk)]: a string goes to the output buffer as it is, a
    dictionary as JSON, with its Content-Type; anything else is refused. *)
Definition write (chunk : value) : M unit :=
  h <- get;;
  if _finished h then raise (Builtin RuntimeError "Cannot write() after finish()")
  else
    match chunk with
    | VStr s => modify (fun h => set__write_buffer (_write_buffer h ++ [s])%list h)
    | VDict _ | VDictSubclass _ =>
        s <- lift (json_encode chunk);;
        set_header "Content-Type" "application/json; charset=UTF-8";;
        modify (fun h => set__write_buffer (_write_buffer h ++ [s])%list h)
    | VList _ =>
        type_error
          ("write() only accepts bytes, unicode, and dict objects"
           +:+ ". Lists not accepted for security reasons; see "
           +:+ "http://www.tornadoweb.org/en/stable/web.html#tornado.web.RequestHandler.write")
    | _ => type_error "write() only accepts bytes, unicode, and dict objects"
    end.

(** [compute_etag()]: the SHA-1 of the output buffer, in double quotes. *)
Definition compute_etag (h : Handler) : string :=
  DQ +:+ sha1_hexdigest (String.concat "" (_write_buffer h)) +:+ DQ.

Definition set_etag_header : M unit :=
  h <- get;;
  set_header "Etag" (compute_etag h).

(** [check_etag_header()]: without an If-None-Match request header there is
    no entity tag to match. *)
Definition check_etag_header (h : Handler) : bool :=
  match headers (request h) !! "If-None-Match" with
  | Some tags => etag_match (default "" (_headers h !! "Etag")) tags
  | None => false
  end.

(** The statuses of a response without a body: 204, 304 and 1xx. *)
Definition bodiless (status_code : Z) : bool :=
  (status_code =? 204) || (status_code =? 304)
  || ((100 <=? status_code) && (status_code <? 200)).

Definition _clear_representation_headers : M unit :=
  clear_header "Content-Encoding";;
  clear_header "Content-Language";;
  clear_header "Content-Type".

(** [sum(len(part) for part in self._write_buffer)] *)
Definition content_length (buffer : list string) : nat :=
  foldr (fun part n => (String.length part + n)%nat) 0%nat buffer.

Definition is_HEAD (h : Handler) : bool := String.eqb (method (request h)) "HEAD".

(** [flush(include_footers=True)] of an application without output
    transforms and cookies: the buffer is joined and emptied; the first
    flush sends the start line and the headers with it; a HEAD request gets
    no body. *)
Definition flush : M unit :=
  h <- get;;
  let chunk := String.concat "" (_write_buffer h) in
  modify (set__write_buffer []);;
  if _headers_written h then
    if is_HEAD h then ret tt else modify (transmit (Chunk chunk))
  else
    modify (set__headers_written true);;
    modify (fun h =>
      transmit (Response (_status_code h) (_reason h) (_headers h)
                  (if is_HEAD h then "" else chunk)) h).

(** [_request_summary()] *)
Definition request_summary (r : Request) : string :=
  method r +:+ " " +:+ uri r +:+ " (" +:+ remote_ip r +:+ ")".

(** The line of the framework's access log:
    [log_method("%d %s %.2fms", status, summary, request_time)]. *)
Definition access_record (h : Handler) : LogRecord :=
  {| logger := AccessLog;
     lvl := if _status_code h <? 400 then Info
            else if _status_code h <? 500 then Warn
            else Error;
     text := pretty (_status_code h) +:+ " " +:+ request_summary (request h)
             +:+ " " +:+ request_time_ms2 (request h) +:+ "ms";
     exc_info := None |}.

(** [self._log()], that is [application.log_request(self)]: the
    [log_function] setting when there is one, the access log otherwise. *)
Definition log_request : M unit :=
  h <- get;;
  match log_function h with
  | LoggerHandler => logger_handler false
  | Unset => modify_world (emit (access_record h))
  end.

(** Lines of the framework's [finish] that run while no header has been
    sent: a 200 answer to a GET or HEAD gets an Etag and, when the request's
    If-None-Match matches it, becomes an empty 304; a response without a
    body must have an empty buffer and loses its representation headers;
    any other response gets its Content-Length. *)
Definition finish_headers : M unit :=
  h <- get;;
  (if (_status_code h =? 200)
      && (String.eqb (method (request h)) "GET" || is_HEAD h)
      && negb (has_key "Etag" (_headers h))
   then
     set_etag_header;;
     h <- get;;
     if check_etag_header h
     then modify (set__write_buffer []);; set_status 304
     else ret tt
   else ret tt);;
  h <- get;;
  if bodiless (_status_code h) then
    match _write_buffer h with
    | [] => _clear_representation_headers
    | _ :: _ =>
        raise (Builtin AssertionError
                 ("Cannot send body with " +:+ pretty (_status_code h)))
    end
  else if has_key "Content-Length" (_headers h) then ret tt
  else set_header "Content-Length" (pretty (content_length (_write_buffer h))).

(** The framework's [finish(chunk)]: refuses a second call, writes the
    chunk unless it is None, completes the headers, flushes, logs the
    request and only then marks the response finished. [on_finish], which
    this class does not define, is the framework's empty method. *)
Definition base_finish (chunk : value) : M unit :=
  h <- get;;
  if _finished h then raise (Builtin RuntimeError "finish() called twice")
  else
    match chunk with
    | VNone => ret tt
    | _ => write chunk
    end;;
    h <- get;;
    (if _headers_written h then ret tt else finish_headers);;
    flush;;
    log_request;;
    modify (set__finished true).

(** The dictionary handed to the template engine. *)
Definition template_data (h : Handler) (kwargs : gmap string value)
  : gmap string value :=
  <["debug" := VBool (debug h)]>
    (kwargs ∪ ((value_of_kwarg <$> path_kwargs h) ∪ (extra h ∪
       (<["owner" := VNone]> (<["repo" := VNone]> {["file_name" := VNone]}))))).

(** [self.render_string(template, **kwargs)]. A keyword that collides with a
    parameter of the method, or of the framework's method it forwards to
    together with [dumps=dumps], is a TypeError at the call. *)
Definition render_string (template : string) (kwargs : gmap string value)
  : M string :=
  if has_key "template" kwargs || has_key "self" kwargs
  then type_error "render_string() got multiple values for keyword argument"
  else
    h <- get;;
    let data := template_data h kwargs in
    if has_key "dumps" data || has_key "template_name" data || has_key "self" data
    then type_error "render_string() got multiple values for keyword argument"
    else lift (template_render template data).

(** [int(v)] *)
Definition py_int (v : value) : Result Z :=
  match v with
  | VInt z => Ok z
  | VBool b => Ok (if b then 1 else 0)
  | VStr s =>
      match int_of_str s with
      | Some z => Ok z
      | None => Raise (Builtin ValueError "invalid literal for int()")
      end
  | _ => Raise (Builtin TypeError "int() argument must be a string or a number")
  end.

(** ** finish *)

(** [type(chunk) is list]: a list, and nothing else, becomes
    [{self.resource: chunk, "meta": {"total": len(chunk)}}]. *)
Definition wrap_list (chunk : value) : M value :=
  match chunk with
  | VList l =>
      h <- get;;
      match resource h with
      | None => attribute_error "resource"
      | Some r =>
          ret (VDict (<["meta" := VDict {["total" := VInt (Z.of_nat (length l))]}]>
                        {[r := VList l]}))
      end
  | _ => ret chunk
  end.

(** [self.get_status() or 200] *)
Definition status_or_200 (h : Handler) : Z :=
  if _status_code h =? 0 then 200 else _status_code h.

(** Lines 115-117 once [chunk['meta']] is known to be the mapping [meta],
    a dict or an instance of a subclass ([as_value] rebuilds it). *)
Definition inject_into (as_value : gmap string value -> value)
    (meta chunk : gmap string value) : M (gmap string value) :=
  h <- get;;
  let meta1 := setdefault "status" (VInt (status_or_200 h)) meta in
  status <- lift (py_int (default VNone (meta1 !! "status")));;
  set_status status;;
  i <- id;;
  ret (<["meta" := as_value (<["request" := VStr i]> meta1)]> chunk).

(** [chunk.setdefault('meta', {}).setdefault("status", self.get_status() or 200)],
    [self.set_status(int(chunk['meta']['status']))] and
    [chunk['meta']['request'] = self.id]. *)
Definition inject_meta (chunk : gmap string value) : M (gmap string value) :=
  match default (VDict ∅) (chunk !! "meta") with
  | VDict meta => inject_into VDict meta chunk
  | VDictSubclass meta => inject_into VDictSubclass meta chunk
  | _ => attribute_error "setdefault"
  end.

(** The template chosen by convention. *)
Definition one_or_many (h : Handler) : string :=
  if str_truthy (mjoin (path_kwargs h !! "id"))
     && bool_decide (mjoin (path_kwargs h !! "more") = None)
  then "one" else "many".

Definition template_path (export : string) : M string :=
  h <- get;;
  if (_status_code h =? 200) || (_status_code h =? 201) then
    match resource h with
    | None => attribute_error "resource"
    | Some r =>
        ret (export +:+ "/" +:+ r +:+ "_" +:+ lower (method (request h))
             +:+ "_" +:+ one_or_many h +:+ "." +:+ export)
    end
  else
    ret (export +:+ "/errors/" +:+ pretty (_status_code h) +:+ "." +:+ export).

Definition is_IOError (e : exception) : bool :=
  match e with
  | Builtin IOError _ => true
  | _ => false
  end.

(** [try: chunk = self.render_string(doc, **chunk)]
    [except IOError: chunk = "template not found at %s" % doc] *)
Definition render_or_fallback (doc : string) (chunk : gmap string value)
  : M value :=
  try_except
    (s <- render_string doc chunk;; ret (VStr s))
    (fun e =>
       if is_IOError e then ret (VStr ("template not found at " +:+ doc))
       else raise e).

Definition render (chunk : gmap string value) : M value :=
  h <- get;;
  let export := export h in
  if String.eqb export "txt" || String.eqb export "html" then
    set_header "Content-Type"
      ("text/" +:+ (if String.eqb export "txt" then "plain" else "html"));;
    doc <- template_path export;;
    render_or_fallback doc chunk
  else ret (VDict chunk).

(** Lines 111-133: what [finish] makes of the payload before it hands it
    to the framework. [type(chunk) is dict] holds of a dict only. *)
Definition shape (chunk : value) : M value :=
  chunk <- wrap_list chunk;;
  match chunk with
  | VDict d => d <- inject_meta d;; render d
  | _ => ret chunk
  end.

Definition finish (chunk : value) : M value :=
  chunk <- shape chunk;;
  base_finish chunk;;
  ret chunk.

(** ** write_error *)

(** Lines 149-179: the error dictionary, with the side effects made while
    it is built. *)
Definition error_data (status_code : Z) (reason : option string)
    (exc_info : option exception) : M (gmap string value) :=
  h <- get;;
  let data : gmap string value :=
    <["for_robot" := VStr "unknown"]>
      {["for_human" := VStr (str_or reason (str_or (Some (_reason h)) "unknown"))]} in
  r <- match exc_info with
       | None => ret (status_code, data)
       | Some e =>
           save_traceback e;;
           match e with
           | ValidationError message context =>
               ret (400,
                    <["for_robot" := VStr message]>
                      (<["context" := VList (VStr <$> context)]>
                         (<["for_human" :=
                              VStr ("Please review the following fields: "
                                    +:+ String.concat ", " context)]> data)))
           | DataError text =>
               modify (set_error (Some {["sql" := VStr text]}));;
               ret (status_code, <["for_robot" := VStr "rejected sql query"]> data)
           | MissingArgumentError arg_name =>
               ret (status_code,
                    <["for_robot" := VStr ("Missing argument " +:+ arg_name)]> data)
           | HTTPError code log_message
           | HTTPErrorSubclass code log_message =>
               (if code =? 401
                then set_header "WWW-Authenticate" "Basic realm=Restricted"
                else ret tt);;
               ret (status_code, <["for_robot" := value_of_kwarg log_message]> data)
           | Builtin _ text =>
               ret (status_code, <["for_robot" := VStr text]> data)
           end
       end;;
  set_status (fst r);;
  h <- get;;
  match _rollbar_token h with
  | Some token =>
      if str_truthy token then
        set_header "X-Rollbar-Token" (default "" token);;
        ret (<["rollbar" := VStr (default "" token)]> (snd r))
      else ret (snd r)
  | None => ret (snd r)
  end.

(** [def write_error(self, status_code, reason=None, exc_info=None)] *)
Definition write_error (status_code : Z) (reason : option string)
    (exc_info : option exception) : M unit :=
  data <- error_data status_code reason exc_info;;
  finish (VDict {["error" := VDict data]});;
  ret tt.

(** The keyword arguments that the calls of [write_error] in this class
    write out. *)
Record write_error_keywords := {
  kw_type : option string;
  kw_reason : option string;
  kw_exc_info : option exception
}.

(** A call [self.write_error(status_code, **keywords)]. The method has the
    parameters [reason] and [exc_info] and no catch-all, so a [type] keyword
    is rejected before the body runs. *)
Definition call_write_error (status_code : Z) (kw : write_error_keywords)
  : M unit :=
  match kw_type kw with
  | Some _ => type_error "write_error() got an unexpected keyword argument 'type'"
  | None => write_error status_code (kw_reason kw) (kw_exc_info kw)
  end.

(** ** log_exception *)

(** [str(value)] of a MissingArgumentError, by the framework's
    [HTTPError.__str__]. *)
Definition str_missing (arg_name : string) : string :=
  "HTTP 400: " +:+ responses 400 +:+ " (Missing argument " +:+ arg_name +:+ ")".

(** [typ is HTTPError and value.status_code < 500] *)
Definition client_http_error (value : exception) : bool :=
  match value with
  | HTTPError code _ => code <? 500
  | _ => false
  end.

(** [typ is not HTTPError or (typ is HTTPError and value.status_code >= 500)] *)
Definition wants_traceback (value : exception) : bool :=
  match value with
  | HTTPError code _ => 500 <=? code
  | _ => true
  end.

(** [self.settings.get('rollbar_access_token')] as a condition *)
Definition token_configured (h : Handler) : bool :=
  str_truthy (rollbar_access_token h).

(** The status and the log message of an instance of the framework's
    [HTTPError], of whatever subclass; None for any other exception. *)
Definition as_HTTPError (value : exception) : option (Z * option string) :=
  match value with
  | MissingArgumentError arg_name => Some (400, Some ("Missing argument " +:+ arg_name))
  | HTTPError code log_message | HTTPErrorSubclass code log_message =>
      Some (code, log_message)
  | _ => None
  end.

(** What the framework's [log_exception] writes: for an HTTPError with a
    log message, a warning on [tornado.general]
    ([gen_log.warning("%d %s: %s", ...)]); for an HTTPError without one,
    nothing; for any other exception, an error on [tornado.application]
    that carries the stack trace
    ([app_log.error("Uncaught exception %s\n%r", ..., exc_info=...)]). *)
Definition base_log_records (value : exception) (r : Request) : list LogRecord :=
  match as_HTTPError value with
  | Some (code, log_message) =>
      if str_truthy log_message then
        [{| logger := GeneralLog; lvl := Warn;
            text := pretty code +:+ " " +:+ request_summary r +:+ ": "
                    +:+ default "" log_message;
            exc_info := None |}]
      else []
  | None =>
      [{| logger := ApplicationLog; lvl := Error;
          text := "Uncaught exception " +:+ request_summary r +:+ LF
                  +:+ repr_request r;
          exc_info := Some value |}]
  end.

(** [super(RequestHandler, self).log_exception(typ, value, tb)] *)
Definition super_log_exception (value : exception) : M unit :=
  modify_world (add_base_log_exception value);;
  h <- get;;
  modify_world (fun w =>
    foldl (fun w r => emit r w) w (base_log_records value (request h))).

(** Lines 95-100. *)
Definition report (value : exception) : M unit :=
  try_except
    (payload <- get_rollbar_payload;;
     modify_world (add_report value payload);;
     token <- lift (report_exc_info value payload);;
     modify (set__rollbar_token (Some token)))
    (fun e => Logger.traceback e ∅).

Definition log_exception (value : exception) : M unit :=
  try_except
    (match value with
     | MissingArgumentError arg_name =>
         log {["missing" := VStr (str_missing arg_name)]};;
         call_write_error 400
           {| kw_type := Some "MissingArgumentError";
              kw_reason := Some ("Missing required argument `" +:+ arg_name +:+ "`");
              kw_exc_info := Some value |}
     | ValidationError message _ =>
         log {["message" := VStr message]};;
         call_write_error 400
           {| kw_type := Some "ValidationError";
              kw_reason := Some message;
              kw_exc_info := Some value |}
     | _ =>
         (if wants_traceback value then Logger.traceback value ∅ else ret tt);;
         h <- get;;
         (if token_configured h && negb (client_http_error value)
          then report value else ret tt);;
         super_log_exception value
     end)
    (fun _ => super_log_exception value).

End Handler.

End RequestHandler.

(** * The life of one request

    Between its creation and its last log line a handler only changes
    through the methods above, called by the framework or by the
    application in any order. *)

Module Lifecycle.

Inductive operation :=
| Call_id
| Call_set_default_headers
| Call_get_log_payload
| Call_get_rollbar_payload
| Call_log (kwargs : gmap string value)
| Call_set_status (status_code : Z)
| Call_set_header (name v : string)
| Call_finish (chunk : value)
| Call_write_error (status_code : Z) (reason : option string)
    (exc_info : option exception)
| Call_log_exception (value : exception)
| Call_request_log (static_or_redirect : bool).

Section Run.
Context `{Externals}.

Definition discard {A} (m : M A) : M unit := _ <- m;; ret tt.

Definition run (op : operation) : M unit :=
  match op with
  | Call_id => discard RequestHandler.id
  | Call_set_default_headers => RequestHandler.set_default_headers
  | Call_get_log_payload => discard RequestHandler.get_log_payload
  | Call_get_rollbar_payload => discard RequestHandler.get_rollbar_payload
  | Call_log kwargs => RequestHandler.log kwargs
  | Call_set_status status_code => RequestHandler.set_status status_code
  | Call_set_header name v => RequestHandler.set_header name v
  | Call_finish chunk => discard (RequestHandler.finish chunk)
  | Call_write_error status_code reason exc_info =>
      RequestHandler.write_error status_code reason exc_info
  | Call_log_exception value => RequestHandler.log_exception value
  | Call_request_log static_or_redirect =>
      RequestHandler.logger_handler static_or_redirect
  end.

(** [later s s']: [s'] is reached from [s] by some sequence of calls,
    whether they return or raise. *)
Inductive later : Handler * World -> Handler * World -> Prop :=
| later_now s : later s s
| later_call s op s' :
    later s s' ->
    later s (handler_of (run op (fst s') (snd s')),
             world_of (run op (fst s') (snd s'))).

End Run.

End Lifecycle.

(** * Sample requests

    Concrete library behaviour, handlers and process states on which the
    statements below are exercised. *)

Module Samples.

Definition reason_phrase (code : Z) : string :=
  if code =? 200 then "OK"
  else if code =? 204 then "No Content"
  else if code =? 304 then "Not Modified"
  else if code =? 400 then "Bad Request"
  else if code =? 404 then "Not Found"
  else if code =? 500 then "Internal Server Error"
  else "Unknown".

(** A deployment with no template on disk and without pygments, where
    every report succeeds. *)
Definition libs : Externals := {|
  dumps := fun _ _ _ => "{}";
  format_exception := fun _ => ["Traceback (most recent call last):"];
  pygments_highlight := None;
  uuid4 := fun n => "uuid-" +:+ pretty n;
  report_exc_info := fun _ _ => Ok (Some "9f0c");
  template_render := fun _ _ => Raise (Builtin IOError "No such file or directory");
  int_of_str := fun _ => None;
  responses := reason_phrase;
  getenv_DEBUG := None;
  sha1_hexdigest := fun _ => "da39a3ee";
  etag_match := fun computed tags => String.eqb computed tags;
  repr_request := fun r => "HTTPServerRequest(uri='" +:+ uri r +:+ "')"
|}.

Definition get_arg : Request :=
  {| headers := ∅; method := "GET"; uri := "/arg"; remote_ip := "127.0.0.1";
     request_time_ms := "3"; request_time_ms2 := "3.14" |}.

(** A handler as the framework hands it over: status 200, nothing written,
    no log function installed. *)
Definition fresh (r : Request) (kwargs : gmap string (option string)) : Handler :=
  {| request := r; rollbar_access_token := None; debug := false;
     log_function := Unset; extra := ∅;
     path_kwargs := kwargs; resource := Some "customers"; current_user := None;
     _id := None; _headers := {["Server" := "TornadoServer"]};
     _status_code := 200; _reason := "OK"; tracebacks := None;
     _rollbar_token := None; error := None; _write_buffer := [];
     _headers_written := false; _finished := false; connection := [] |}.

Definition with_token (h : Handler) : Handler :=
  {| request := request h; rollbar_access_token := Some "access";
     debug := debug h; log_function := log_function h; extra := extra h;
     path_kwargs := path_kwargs h;
     resource := resource h; current_user := current_user h;
     _id := _id h; _headers := _headers h; _status_code := _status_code h;
     _reason := _reason h; tracebacks := tracebacks h;
     _rollbar_token := _rollbar_token h; error := error h;
     _write_buffer := _write_buffer h; _headers_written := _headers_written h;
     _finished := _finished h; connection := connection h |}.

Definition quiet : World :=
  {| records := []; reports := []; base_log_exception := []; uuid_count := 0 |}.

End Samples.

(** * Properties *)

(** ** The negotiated format *)

Module ExportSamples.

(** A route whose [export] group matched the empty string. *)
Definition empty_export : Handler :=
  Samples.fresh Samples.get_arg {["export" := Some ""]}.

Definition dotted_export : Handler :=
  Samples.fresh Samples.get_arg {["export" := Some ".txt"]}.

Definition browser : Handler :=
  Samples.fresh
    {| headers := {["Accept" := "text/html,application/xhtml+xml"]};
       method := "GET"; uri := "/"; remote_ip := "127.0.0.1";
       request_time_ms := "1"; request_time_ms2 := "1.20" |} ∅.

End ExportSamples.

(** C8, as stated, fails when the path parameter is present but empty: the
    parameter without its dots is the empty string, the negotiated format
    is 'json'. *)
Lemma export_empty_parameter :
  path_kwargs ExportSamples.empty_export !! "export" = Some (Some "")
  /\ RequestHandler.export ExportSamples.empty_export = "json"
  /\ RequestHandler.export ExportSamples.empty_export <> remove_char "."%char "".
Proof. vm_compute. repeat split; discriminate. Qed.

(** C8, amended: the negotiated format is the 'export' path parameter with
    its dots removed when that parameter has a non-empty value; when it is
    missing, None or empty, the format is 'html' if the Accept header
    contains 'text/html' and 'json' otherwise. *)
Theorem export_negotiated (h : Handler) :
  let accept := default "" (headers (request h) !! "Accept") in
  let param := mjoin (path_kwargs h !! "export") in
  (forall p, param = Some p -> p <> "" ->
     RequestHandler.export h = remove_char "."%char p)
  /\ (param = None \/ param = Some "" ->
      contains "text/html" accept = true -> RequestHandler.export h = "html")
  /\ (param = None \/ param = Some "" ->
      contains "text/html" accept = false -> RequestHandler.export h = "json").
Proof.
  intros accept param. unfold RequestHandler.export. fold param. fold accept.
  repeat split.
  - intros p Hp Hne. rewrite Hp. unfold RequestHandler.str_or. simpl.
    destruct (String.eqb_spec p ""); [contradiction | reflexivity].
  - intros [Hp | Hp] Ha; rewrite Hp, Ha; reflexivity.
  - intros [Hp | Hp] Ha; rewrite Hp, Ha; reflexivity.
Qed.

Lemma export_negotiated_witness :
  RequestHandler.export ExportSamples.dotted_export = "txt"
  /\ RequestHandler.export ExportSamples.browser = "html"
  /\ RequestHandler.export ExportSamples.empty_export = "json".
Proof.
  split; [| split].
  - apply (proj1 (export_negotiated ExportSamples.dotted_export) ".txt");
      [reflexivity | discriminate].
  - apply (proj1 (proj2 (export_negotiated ExportSamples.browser)));
      [left; reflexivity | reflexivity].
  - apply (proj2 (proj2 (export_negotiated ExportSamples.empty_export)));
      [right; reflexivity | reflexivity].
Defined.

(** ** The exception hook on client errors *)

Section ClientErrors.
Context `{Externals}.

(** The record that [self.log] leaves for a keyword dictionary: an info
    line, or, in DEBUG mode without pygments, the traceback record of the
    NameError that [logger.log] catches. *)
Definition logged (kwargs : gmap string value) : LogRecord :=
  if Logger.DEBUG then
    match pygments_highlight with
    | Some highlight =>
        {| logger := OwnLog; lvl := Info;
           text := highlight (dumps true (Some 2%nat) (VDict kwargs));
           exc_info := None |}
    | None =>
        Logger.traceback_record
          (Builtin NameError "global name 'json_lexer' is not defined") ∅
    end
  else
    {| logger := OwnLog; lvl := Info;
       text := Logger.scrub (dumps true None (VDict kwargs));
       exc_info := None |}.

Lemma logger_log_emits (kwargs : gmap string value) (h : Handler) (w : World) :
  Logger.log kwargs h w = (Ok tt, h, emit (logged kwargs) w).
Proof.
  unfold Logger.log, Logger.log_lines, logged, try_except.
  destruct Logger.DEBUG; [| reflexivity].
  destruct pygments_highlight; reflexivity.
Qed.

Lemma log_emits (kwargs : gmap string value) (h : Handler) (w : World) :
  RequestHandler.log kwargs h w = (Ok tt, h, emit (logged kwargs) w).
Proof.
  unfold RequestHandler.log, try_except. rewrite logger_log_emits. reflexivity.
Qed.

(** The world after the framework's [log_exception]: the call, and the
    records it writes. *)
Definition base_logged (value : exception) (r : Request) (w : World) : World :=
  foldl (fun w r => emit r w) (add_base_log_exception value w)
    (RequestHandler.base_log_records value r).

Lemma super_log_exception_outcome (value : exception) (h : Handler) (w : World) :
  RequestHandler.super_log_exception value h w
  = (Ok tt, h, base_logged value (request h) w).
Proof. reflexivity. Qed.

Lemma base_logged_records (value : exception) (r : Request) (w : World) :
  records (base_logged value r w)
  = (records w ++ RequestHandler.base_log_records value r)%list
  /\ reports (base_logged value r w) = reports w
  /\ base_log_exception (base_logged value r w)
     = (base_log_exception w ++ [value])%list.
Proof.
  unfold base_logged.
  assert (Hfold : forall l w0,
    records (foldl (fun w r => emit r w) w0 l) = (records w0 ++ l)%list
    /\ reports (foldl (fun w r => emit r w) w0 l) = reports w0
    /\ base_log_exception (foldl (fun w r => emit r w) w0 l) = base_log_exception w0).
  { induction l as [| x l IH]; intros w0; simpl.
    - rewrite app_nil_r. repeat split.
    - destruct (IH (emit x w0)) as (Hr & Hp & Hb). rewrite Hr, Hp, Hb. simpl.
      rewrite <- app_assoc. repeat split. }
  destruct (Hfold (RequestHandler.base_log_records value r)
              (add_base_log_exception value w)) as (Hr & Hp & Hb).
  rewrite Hr, Hp, Hb. repeat split.
Qed.

(** The [type] keyword stops every call of [write_error] that carries it. *)
Lemma call_write_error_type_keyword (status_code : Z) (name : string)
    (reason : option string) (exc_info : option exception)
    (h : Handler) (w : World) :
  RequestHandler.call_write_error status_code
    {| RequestHandler.kw_type := Some name;
       RequestHandler.kw_reason := reason;
       RequestHandler.kw_exc_info := exc_info |} h w
  = (Raise (Builtin TypeError
              "write_error() got an unexpected keyword argument 'type'"), h, w).
Proof. reflexivity. Qed.

Lemma log_exception_missing (arg_name : string) (h : Handler) (w : World) :
  RequestHandler.log_exception (MissingArgumentError arg_name) h w
  = (Ok tt, h,
     base_logged (MissingArgumentError arg_name) (request h)
       (emit (logged {["missing" := VStr (RequestHandler.str_missing arg_name)]}) w)).
Proof.
  unfold RequestHandler.log_exception, try_except, bind at 1.
  rewrite log_emits. reflexivity.
Qed.

Lemma log_exception_invalid (message : string) (context : list string)
    (h : Handler) (w : World) :
  RequestHandler.log_exception (ValidationError message context) h w
  = (Ok tt, h,
     base_logged (ValidationError message context) (request h)
       (emit (logged {["message" := VStr message]}) w)).
Proof.
  unfold RequestHandler.log_exception, try_except, bind at 1.
  rewrite log_emits. reflexivity.
Qed.

(** C1 on the code: for a missing argument the hook logs one line, the call
    of [write_error] is rejected for its [type] keyword, the bare [except]
    swallows that, and the hook ends in the framework's own
    [log_exception]. The handler is untouched: no status is set, no error
    payload is built and nothing is written. The same holds for a
    validation error. *)
Theorem log_exception_client_error_writes_nothing
    (arg_name message : string) (context : list string)
    (h : Handler) (w : World) :
  RequestHandler.log_exception (MissingArgumentError arg_name) h w
  = (Ok tt, h,
     base_logged (MissingArgumentError arg_name) (request h)
       (emit (logged {["missing" := VStr (RequestHandler.str_missing arg_name)]}) w))
  /\ RequestHandler.log_exception (ValidationError message context) h w
     = (Ok tt, h,
        base_logged (ValidationError message context) (request h)
          (emit (logged {["message" := VStr message]}) w)).
Proof. split; [apply log_exception_missing | apply log_exception_invalid]. Qed.

(** When the framework then calls [write_error] itself it passes no
    [reason], and the human-facing text is the reason phrase of the status
    line, not the message of line 83. *)
Lemma error_data_without_reason (status_code : Z) (arg_name : string)
    (h : Handler) (w : World) :
  _rollbar_token h = None ->
  _reason h <> "" ->
  exists h', RequestHandler.error_data status_code None
                (Some (MissingArgumentError arg_name)) h w
             = (Ok (<["for_robot" := VStr ("Missing argument " +:+ arg_name)]>
                      {["for_human" := VStr (_reason h)]}), h', w).
Proof.
  intros Htok Hreason. unfold RequestHandler.error_data, bind, get. simpl.
  rewrite Htok. eexists. unfold ret. f_equal. f_equal. f_equal.
  unfold RequestHandler.str_or. simpl.
  destruct (String.eqb_spec (_reason h) ""); [contradiction |].
  simpl. apply insert_insert_eq.
Qed.

End ClientErrors.

(** The request of the repository's own test: GET /arg without the
    [required] argument. Nothing is sent by the hook and the status is still
    200. *)
Example log_exception_missing_required :
  let '(r, h, w) :=
    RequestHandler.log_exception (H := Samples.libs)
      (MissingArgumentError "required")
      (Samples.fresh Samples.get_arg ∅) Samples.quiet in
  r = Ok tt /\ _finished h = false /\ connection h = [] /\ _status_code h = 200
  /\ base_log_exception w = [MissingArgumentError "required"].
Proof. vm_compute. repeat split. Qed.

(** ** What the methods leave alone *)

(** The response headers that the framework's [finish] and the rendering
    of [finish] set or clear themselves. *)
Definition response_header_names : list string :=
  ["Content-Type"; "Etag"; "Content-Length"; "Content-Encoding"; "Content-Language"].

Section Preservation.
Context `{Externals}.

(** [preserves P m]: a property of the handler that holds before [m] holds
    after it, however [m] ends. *)
Definition preserves {A} (P : Handler -> Prop) (m : M A) : Prop :=
  forall h w, P h -> P (handler_of (m h w)).

Variable P : Handler -> Prop.

Lemma preserves_ret {A} (a : A) : preserves P (ret a).
Proof. intros h w HP. exact HP. Qed.

Lemma preserves_raise {A} (e : exception) : preserves P (raise (A := A) e).
Proof. intros h w HP. exact HP. Qed.

Lemma preserves_lift {A} (r : Result A) : preserves P (lift r).
Proof. intros h w HP. exact HP. Qed.

Lemma preserves_get : preserves P get.
Proof. intros h w HP. exact HP. Qed.

Lemma preserves_modify_world (f : World -> World) : preserves P (modify_world f).
Proof. intros h w HP. exact HP. Qed.

Lemma preserves_modify (f : Handler -> Handler) :
  (forall h, P h -> P (f h)) -> preserves P (modify f).
Proof. intros Hf h w HP. apply Hf, HP. Qed.

Lemma preserves_bind {A B} (m : M A) (f : A -> M B) :
  preserves P m -> (forall a, preserves P (f a)) -> preserves P (bind m f).
Proof.
  intros Hm Hf h w HP. unfold bind. specialize (Hm h w HP).
  destruct (m h w) as [[[a | e] h'] w']; simpl in *.
  - apply Hf, Hm.
  - exact Hm.
Qed.

Lemma preserves_try_except {A} (m : M A) (handler : exception -> M A) :
  preserves P m -> (forall e, preserves P (handler e)) ->
  preserves P (try_except m handler).
Proof.
  intros Hm Hf h w HP. unfold try_except. specialize (Hm h w HP).
  destruct (m h w) as [[[a | e] h'] w']; simpl in *.
  - exact Hm.
  - apply Hf, Hm.
Qed.

(** The assignments the methods make. *)
Hypothesis P_id : preserves P RequestHandler.id.
Hypothesis P_status : forall code reason h, P h -> P (set__status code reason h).
Hypothesis P_response_headers :
  forall name headers h,
    In name response_header_names ->
    (forall k, k <> name -> headers !! k = _headers h !! k) ->
    P h -> P (set__headers headers h).
Hypothesis P_headers : forall headers h, P h -> P (set__headers headers h).
Hypothesis P_tracebacks : forall v h, P h -> P (set_tracebacks v h).
Hypothesis P_rollbar_token : forall v h, P h -> P (set__rollbar_token v h).
Hypothesis P_error : forall v h, P h -> P (set_error v h).
Hypothesis P_write_buffer : forall v h, P h -> P (set__write_buffer v h).
Hypothesis P_headers_written : forall v h, P h -> P (set__headers_written v h).
Hypothesis P_connection : forall t h, P h -> P (transmit t h).
Hypothesis P_finished : forall h, P h -> P (set__finished true h).

Ltac preserve :=
  repeat first
    [ solve [auto]
    | apply preserves_ret | apply preserves_raise | apply preserves_lift
    | apply preserves_get | apply preserves_modify_world
    | apply preserves_bind; [| intros]
    | apply preserves_try_except; [| intros]
    | apply preserves_modify; intros; eauto
    | progress cbv zeta
    | match goal with
      | |- preserves _ (match ?x with _ => _ end) => destruct x
      | |- preserves _ (if ?b then _ else _) => destruct b
      end ].

Lemma preserves_log kwargs : preserves P (RequestHandler.log kwargs).
Proof.
  unfold RequestHandler.log, Logger.log, Logger.log_lines, Logger.traceback,
    Logger.write_record.
  preserve.
Qed.

Lemma preserves_set_status code : preserves P (RequestHandler.set_status code).
Proof. unfold RequestHandler.set_status. preserve. Qed.

Lemma preserves_set_header name v : preserves P (RequestHandler.set_header name v).
Proof. unfold RequestHandler.set_header. preserve. Qed.

Lemma preserves_payloads :
  preserves P RequestHandler.get_log_payload
  /\ preserves P RequestHandler.get_rollbar_payload.
Proof.
  unfold RequestHandler.get_log_payload, RequestHandler.get_rollbar_payload.
  split; preserve.
Qed.

Lemma preserves_set_default_headers : preserves P RequestHandler.set_default_headers.
Proof. unfold RequestHandler.set_default_headers. preserve. Qed.

Lemma preserves_render_string doc kwargs :
  preserves P (RequestHandler.render_string doc kwargs).
Proof.
  unfold RequestHandler.render_string, RequestHandler.type_error. preserve.
Qed.

Lemma preserves_request_log flag : preserves P (RequestHandler.logger_handler flag).
Proof.
  destruct preserves_payloads as [? _].
  unfold RequestHandler.logger_handler, Logger.write_record. preserve.
Qed.

Lemma preserves_response_header name v :
  In name response_header_names -> preserves P (RequestHandler.set_header name v).
Proof.
  intros Hin. unfold RequestHandler.set_header. apply preserves_modify.
  intros h HP. apply (P_response_headers name); [exact Hin | | exact HP].
  intros k Hk. simpl. apply lookup_insert_ne. congruence.
Qed.

Lemma preserves_clear_header name :
  In name response_header_names -> preserves P (RequestHandler.clear_header name).
Proof.
  intros Hin. unfold RequestHandler.clear_header. apply preserves_modify.
  intros h HP. apply (P_response_headers name); [exact Hin | | exact HP].
  intros k Hk. simpl. apply lookup_delete_ne. congruence.
Qed.

Lemma preserves_inject_meta chunk : preserves P (RequestHandler.inject_meta chunk).
Proof.
  pose proof preserves_set_status.
  clear P_response_headers P_headers P_tracebacks P_rollbar_token P_error
    P_write_buffer P_headers_written P_connection P_finished.
  unfold RequestHandler.inject_meta, RequestHandler.inject_into,
    RequestHandler.attribute_error.
  preserve.
Qed.

Ltac response_headers :=
  pose proof (fun v => preserves_response_header "Content-Type" v
                         ltac:(simpl; tauto));
  pose proof (fun v => preserves_response_header "Etag" v ltac:(simpl; tauto));
  pose proof (fun v => preserves_response_header "Content-Length" v
                         ltac:(simpl; tauto));
  pose proof (preserves_clear_header "Content-Encoding" ltac:(simpl; tauto));
  pose proof (preserves_clear_header "Content-Language" ltac:(simpl; tauto));
  pose proof (preserves_clear_header "Content-Type" ltac:(simpl; tauto)).

(** The framework's [finish] assigns the status, the response headers named
    above, the output buffer, the connection and the two flags; through the
    request log it may fix the identifier. *)
Lemma preserves_base_finish chunk : preserves P (RequestHandler.base_finish chunk).
Proof.
  pose proof preserves_set_status. pose proof preserves_request_log.
  response_headers.
  clear P_headers P_tracebacks P_rollbar_token P_error.
  unfold RequestHandler.base_finish, RequestHandler.write,
    RequestHandler.finish_headers, RequestHandler.set_etag_header,
    RequestHandler._clear_representation_headers, RequestHandler.flush,
    RequestHandler.log_request, RequestHandler.type_error.
  preserve.
Qed.

(** [finish] assigns, besides, the identifier and the Content-Type
    header. *)
Lemma preserves_finish chunk : preserves P (RequestHandler.finish chunk).
Proof.
  pose proof preserves_set_status. pose proof preserves_render_string.
  pose proof preserves_inject_meta. pose proof preserves_base_finish.
  response_headers.
  clear P_headers P_tracebacks P_rollbar_token P_error.
  unfold RequestHandler.finish, RequestHandler.shape, RequestHandler.wrap_list,
    RequestHandler.render, RequestHandler.template_path,
    RequestHandler.render_or_fallback, RequestHandler.attribute_error.
  preserve.
Qed.

Lemma preserves_error_data status_code reason exc_info :
  preserves P (RequestHandler.error_data status_code reason exc_info).
Proof.
  pose proof preserves_set_status. pose proof preserves_set_header.
  unfold RequestHandler.error_data, RequestHandler.save_traceback.
  preserve.
Qed.

Lemma preserves_write_error status_code reason exc_info :
  preserves P (RequestHandler.write_error status_code reason exc_info).
Proof.
  pose proof preserves_error_data. pose proof preserves_finish.
  unfold RequestHandler.write_error. preserve.
Qed.

Lemma preserves_log_exception value : preserves P (RequestHandler.log_exception value).
Proof.
  pose proof preserves_write_error. pose proof preserves_log.
  destruct preserves_payloads as [_ ?].
  unfold RequestHandler.log_exception, RequestHandler.call_write_error,
    RequestHandler.report, RequestHandler.super_log_exception,
    RequestHandler.type_error, Logger.traceback.
  preserve.
Qed.

Lemma preserves_run op : preserves P (Lifecycle.run op).
Proof.
  pose proof preserves_log. pose proof preserves_set_status.
  pose proof preserves_set_header. pose proof preserves_set_default_headers.
  pose proof preserves_finish. pose proof preserves_write_error.
  pose proof preserves_log_exception. pose proof preserves_request_log.
  destruct preserves_payloads.
  destruct op; unfold Lifecycle.run, Lifecycle.discard; preserve.
Qed.

(** A preserved property is an invariant of the whole request. *)
Lemma preserves_later s s' :
  Lifecycle.later s s' -> P (fst s) -> P (fst s').
Proof.
  induction 1 as [| s op s' Hlater IH]; intros HP; [exact HP |].
  simpl. apply preserves_run, IH, HP.
Qed.

End Preservation.

(** ** The request identifier *)

Section RequestId.
Context `{Externals}.

(** The identifier has been fixed to [v]. *)
Definition fixed (v : string) (h : Handler) : Prop := _id h = Some v.

Lemma id_when_fixed (v : string) (h : Handler) (w : World) :
  fixed v h -> RequestHandler.id h w = (Ok v, h, w).
Proof. unfold fixed, RequestHandler.id. intros ->. reflexivity. Qed.

Lemma fixed_later (v : string) (s s' : Handler * World) :
  Lifecycle.later s s' -> fixed v (fst s) -> fixed v (fst s').
Proof.
  apply preserves_later; try (intros; assumption).
  intros h w Hv. rewrite (id_when_fixed v h w Hv). exact Hv.
Qed.

Lemma id_fixes (h h1 : Handler) (w w1 : World) (v : string) :
  RequestHandler.id h w = (Ok v, h1, w1) -> fixed v h1.
Proof.
  unfold RequestHandler.id, fixed. destruct (_id h) as [v0 |] eqn:Hid.
  - intros [= <- <- <-]. exact Hid.
  - intros [= <- <- <-]. reflexivity.
Qed.

(** The type of [chunk['meta']] once line 115 has run: that of the
    payload's own mapping when it has one, dict otherwise. *)
Definition meta_type (chunk : gmap string value) : gmap string value -> value :=
  match chunk !! "meta" with
  | Some (VDictSubclass _) => VDictSubclass
  | _ => VDict
  end.

(** C9: the first access of [id] takes the X-Request-Id request header when
    there is one and a fresh UUID otherwise, and stores it; from then on,
    whatever methods run in between, [id] returns that value without
    changing anything, [set_default_headers] puts it in the X-Request-Id
    response header, [finish] puts it under meta.request, and the log and
    error-reporting payloads carry it. *)
Theorem request_id_fixed_on_first_access
    (h h1 h2 : Handler) (w w1 w2 : World) (v : string) :
  RequestHandler.id h w = (Ok v, h1, w1) ->
  Lifecycle.later (h1, w1) (h2, w2) ->
  (_id h = None ->
     (forall x, headers (request h) !! "X-Request-Id" = Some x -> v = x)
     /\ (headers (request h) !! "X-Request-Id" = None ->
         v = uuid4 (uuid_count w) /\ uuid_count w1 = S (uuid_count w)))
  /\ RequestHandler.id h2 w2 = (Ok v, h2, w2)
  /\ (forall h3 w3,
        RequestHandler.set_default_headers h2 w2 = (Ok tt, h3, w3) ->
        _headers h3 !! "X-Request-Id" = Some v)
  /\ (forall chunk chunk' h3 w3,
        RequestHandler.inject_meta chunk h2 w2 = (Ok chunk', h3, w3) ->
        exists meta,
          chunk' !! "meta" = Some (meta_type chunk meta)
          /\ meta !! "request" = Some (VStr v))
  /\ RequestHandler.get_log_payload h2 w2
     = (Ok (VDict (<["id" := VStr v]> {["user" := RequestHandler.user_or_none h2]})),
        h2, w2)
  /\ RequestHandler.get_rollbar_payload h2 w2
     = (Ok (VDict (<["id" := VStr v]> {["user" := RequestHandler.user_or_none h2]})),
        h2, w2).
Proof.
  intros Hfirst Hlater.
  assert (Hv : fixed v h2).
  { apply (fixed_later v _ _ Hlater). simpl. exact (id_fixes _ _ _ _ _ Hfirst). }
  split; [| split; [| split; [| split; [| split]]]].
  - intros Hnone. unfold RequestHandler.id in Hfirst. rewrite Hnone in Hfirst.
    injection Hfirst as Hval _ Hw. split.
    + intros x Hx. rewrite Hx in Hval. simpl in Hval. congruence.
    + intros Hx. rewrite Hx in Hval. simpl in Hval. subst w1. split; [congruence | reflexivity].
  - apply id_when_fixed, Hv.
  - intros h3 w3. unfold RequestHandler.set_default_headers, bind, get, modify.
    destruct (_headers h2 !! "Server"); [| discriminate].
    rewrite (id_when_fixed v) by exact Hv.
    intros [= <- _]. simpl. apply lookup_insert_eq.
  - intros chunk chunk' h3 w3. unfold RequestHandler.inject_meta, meta_type.
    destruct (chunk !! "meta") as [[| | | | | | meta | meta |] |];
      try discriminate;
      change (default (VDict ∅) None) with (VDict ∅);
      change (default (VDict ∅) (Some ?x)) with x;
      cbv iota;
      unfold RequestHandler.inject_into, bind, get, lift,
        RequestHandler.set_status, modify;
      (destruct (RequestHandler.py_int _) as [status | e]; [| discriminate]);
      rewrite (id_when_fixed v) by exact Hv;
      intros [= <- _ _]; eexists;
      (split; [rewrite lookup_insert_eq; reflexivity | apply lookup_insert_eq]).
  - unfold RequestHandler.get_log_payload, bind, get.
    rewrite (id_when_fixed v) by exact Hv. reflexivity.
  - unfold RequestHandler.get_rollbar_payload, bind, get.
    rewrite (id_when_fixed v) by exact Hv. reflexivity.
Qed.

End RequestId.

Module RequestIdSamples.

(** GET /arg with no X-Request-Id header: the first access of [id], then a
    [finish] of an empty dictionary. *)
Definition first : Result string * Handler * World :=
  RequestHandler.id (H := Samples.libs)
    (Samples.fresh Samples.get_arg ∅) Samples.quiet.

Definition finished : Result unit * Handler * World :=
  Lifecycle.run (H := Samples.libs) (Lifecycle.Call_finish (VDict ∅))
    (handler_of first) (world_of first).

End RequestIdSamples.

Lemma request_id_fixed_witness :
  RequestHandler.id (H := Samples.libs)
    (handler_of RequestIdSamples.finished) (world_of RequestIdSamples.finished)
  = (Ok "uuid-0", handler_of RequestIdSamples.finished,
     world_of RequestIdSamples.finished).
Proof.
  refine (proj1 (proj2
    (request_id_fixed_on_first_access (H := Samples.libs)
       (Samples.fresh Samples.get_arg ∅)
       (handler_of RequestIdSamples.first)
       (handler_of RequestIdSamples.finished)
       Samples.quiet
       (world_of RequestIdSamples.first)
       (world_of RequestIdSamples.finished)
       "uuid-0" _ _))).
  - reflexivity.
  - exact (Lifecycle.later_call _ (Lifecycle.Call_finish (VDict ∅)) _
             (Lifecycle.later_now _)).
Defined.

(** ** The exception hook on every other exception *)

(** The exceptions the hook treats as expected client errors: the two it
    answers itself, and an exception whose class is exactly [HTTPError] with
    a status under 500. *)
Definition treated_as_client_error (value : exception) : Prop :=
  match value with
  | MissingArgumentError _ | ValidationError _ _ => True
  | HTTPError code _ => code < 500
  | _ => False
  end.


(** [isinstance(value, HTTPError)] *)
Definition isinstance_HTTPError (value : exception) : bool :=
  match value with
  | MissingArgumentError _ | HTTPError _ _ | HTTPErrorSubclass _ _ => true
  | _ => false
  end.

Section OtherErrors.
Context `{Externals}.


(** What [report] does, spelled out. *)
Lemma report_outcome (value : exception) (h : Handler) (w : World) :
  exists i h1 w1,
    RequestHandler.id h w = (Ok i, h1, w1)
    /\ let payload :=
         VDict (<["id" := VStr i]> {["user" := RequestHandler.user_or_none h]}) in
       RequestHandler.report value h w
       = match report_exc_info value payload with
         | Ok token =>
             (Ok tt, set__rollbar_token (Some token) h1,
              add_report value payload w1)
         | Raise e =>
             (Ok tt, h1,
              emit (Logger.traceback_record e ∅) (add_report value payload w1))
         end.
Proof.
  unfold RequestHandler.report, RequestHandler.get_rollbar_payload,
    try_except, bind, get, lift, modify, modify_world, ret, Logger.traceback.
  destruct (RequestHandler.id h w) as [[[i | e] h1] w1] eqn:Hid.
  - exists i, h1, w1. split; [reflexivity |]. simpl.
    destruct (report_exc_info value _); reflexivity.
  - unfold RequestHandler.id in Hid. destruct (_id h); discriminate.
Qed.

Lemma id_world (h : Handler) (w : World) :
  records (world_of (RequestHandler.id h w)) = records w
  /\ reports (world_of (RequestHandler.id h w)) = reports w.
Proof. unfold RequestHandler.id. destruct (_id h); split; reflexivity. Qed.

Lemma report_returns (value : exception) (h : Handler) (w : World) :
  result_of (RequestHandler.report value h w) = Ok tt.
Proof.
  destruct (report_outcome value h w) as (i & h1 & w1 & _ & ->).
  simpl. destruct (report_exc_info value _); reflexivity.
Qed.

Lemma report_request (value : exception) (h : Handler) (w : World) :
  request (handler_of (RequestHandler.report value h w)) = request h.
Proof.
  destruct (report_outcome value h w) as (i & h1 & w1 & Hid & ->).
  unfold RequestHandler.id in Hid.
  destruct (report_exc_info value _); destruct (_id h);
    injection Hid as <- <- <-; reflexivity.
Qed.

Lemma report_world (value : exception) (h : Handler) (w : World) :
  exists payload extra,
    reports (world_of (RequestHandler.report value h w))
    = (reports w ++ [(value, payload)])%list
    /\ records (world_of (RequestHandler.report value h w))
       = (records w ++ extra)%list
    /\ (forall token, report_exc_info value payload = Ok token ->
          _rollbar_token (handler_of (RequestHandler.report value h w)) = Some token).
Proof.
  destruct (report_outcome value h w) as (i & h1 & w1 & Hid & ->).
  destruct (id_world h w) as [Hrec Hrep]. rewrite Hid in Hrec, Hrep.
  unfold world_of in Hrec, Hrep. simpl in Hrec, Hrep.
  exists (VDict (<["id" := VStr i]> {["user" := RequestHandler.user_or_none h]})).
  simpl. destruct (report_exc_info value _) as [token | e] eqn:Hr.
  - exists []. simpl. rewrite Hrec, Hrep, app_nil_r.
    repeat split. intros token' [= <-]. reflexivity.
  - eexists. simpl. rewrite Hrec, Hrep. repeat split. discriminate.
Qed.

(** The exceptions that reach the last branch of the hook. *)
Definition other_exception (value : exception) : Prop :=
  match value with
  | MissingArgumentError _ | ValidationError _ _ => False
  | _ => True
  end.

Lemma exception_cases (value : exception) :
  (exists arg_name, value = MissingArgumentError arg_name)
  \/ (exists message context, value = ValidationError message context)
  \/ other_exception value.
Proof. destruct value; simpl; eauto. Qed.

(** On them nothing raises inside the hook, so the bare [except] is idle. *)
Lemma log_exception_other (value : exception) (h : Handler) (w : World) :
  other_exception value ->
  let w1 := if RequestHandler.wants_traceback value
            then emit (Logger.traceback_record value ∅) w else w in
  RequestHandler.log_exception value h w
  = if RequestHandler.token_configured h
       && negb (RequestHandler.client_http_error value)
    then (Ok tt, handler_of (RequestHandler.report value h w1),
          base_logged value (request h)
            (world_of (RequestHandler.report value h w1)))
    else (Ok tt, h, base_logged value (request h) w1).
Proof.
  intros Hother w1.
  assert (Hbody :
    RequestHandler.log_exception value h w
    = try_except
        (bind (if RequestHandler.wants_traceback value
               then Logger.traceback value ∅ else ret tt)
           (fun _ => bind get (fun h0 =>
              bind (if RequestHandler.token_configured h0
                       && negb (RequestHandler.client_http_error value)
                    then RequestHandler.report value else ret tt)
                (fun _ => RequestHandler.super_log_exception value))))
        (fun _ => RequestHandler.super_log_exception value) h w).
  { destruct value; try contradiction; reflexivity. }
  rewrite Hbody. unfold try_except, bind at 1.
  assert (Hfirst :
    (if RequestHandler.wants_traceback value
     then Logger.traceback value ∅ else ret tt) h w = (Ok tt, h, w1)).
  { subst w1. destruct (RequestHandler.wants_traceback value); reflexivity. }
  rewrite Hfirst. unfold bind at 1, get at 1.
  destruct (RequestHandler.token_configured h
            && negb (RequestHandler.client_http_error value)).
  - unfold bind at 1.
    pose proof (report_returns value h w1) as Hret.
    pose proof (report_request value h w1) as Hreq.
    destruct (RequestHandler.report value h w1) as [[r h'] w'].
    unfold result_of in Hret. unfold handler_of in Hreq. simpl in Hret, Hreq.
    subst r. rewrite super_log_exception_outcome, Hreq. reflexivity.
  - unfold bind at 1, ret at 1. rewrite super_log_exception_outcome. reflexivity.
Qed.

Lemma wants_traceback_spec (value : exception) :
  other_exception value ->
  (RequestHandler.wants_traceback value = false <-> treated_as_client_error value)
  /\ (RequestHandler.client_http_error value = true <-> treated_as_client_error value).
Proof.
  destruct value; simpl; try contradiction; intros _;
    repeat split; try discriminate; try contradiction; lia.
Qed.



(** A stored token reaches the header and the payload of every error
    response written afterwards. *)
Lemma error_data_rollbar (token : string) (status_code : Z)
    (reason : option string) (exc_info : option exception)
    (h : Handler) (w : World) :
  _rollbar_token h = Some (Some token) -> token <> "" ->
  exists data h',
    RequestHandler.error_data status_code reason exc_info h w = (Ok data, h', w)
    /\ data !! "rollbar" = Some (VStr token)
    /\ _headers h' !! "X-Rollbar-Token" = Some token.
Proof.
  intros Htok Hne.
  assert (Htruthy : RequestHandler.str_truthy (Some token) = true).
  { simpl. destruct (String.eqb_spec token ""); [contradiction | reflexivity]. }
  unfold RequestHandler.error_data, bind, get, RequestHandler.save_traceback,
    RequestHandler.set_status, RequestHandler.set_header, modify, ret.
  destruct exc_info as [[arg_name | message context | text | code msg | code msg | cls text] |];
    simpl; try destruct (code =? 401); simpl;
    rewrite Htok, Htruthy; simpl;
    eexists; eexists; (split; [reflexivity |]);
    (split; apply lookup_insert_eq).
Qed.

(** A header that is none of the response headers the framework manages
    survives [finish]. *)
Lemma finish_keeps_header (name : string) (chunk : value) (h : Handler) (w : World) :
  ~ In name response_header_names ->
  _headers (handler_of (RequestHandler.finish chunk h w)) !! name = _headers h !! name.
Proof.
  intros Hname.
  apply (preserves_finish (fun x => _headers x !! name = _headers h !! name));
    try (intros; assumption); try reflexivity.
  - intros x w0 Hx. unfold RequestHandler.id. destruct (_id x); exact Hx.
  - intros name' hs x Hin Hsame Hx. simpl. rewrite Hsame; [exact Hx |].
    intros ->. contradiction.
Qed.

Lemma write_error_keeps_rollbar_header (token : string) (status_code : Z)
    (reason : option string) (exc_info : option exception)
    (h : Handler) (w : World) :
  _rollbar_token h = Some (Some token) -> token <> "" ->
  _headers (handler_of (RequestHandler.write_error status_code reason exc_info h w))
    !! "X-Rollbar-Token" = Some token.
Proof.
  intros Htok Hne.
  destruct (error_data_rollbar token status_code reason exc_info h w Htok Hne)
    as (data & h' & Hdata & _ & Hheader).
  unfold RequestHandler.write_error, bind at 1. rewrite Hdata.
  pose proof (finish_keeps_header "X-Rollbar-Token"
                (VDict {["error" := VDict data]}) h' w) as Hkeep.
  unfold bind.
  destruct (RequestHandler.finish (VDict {["error" := VDict data]}) h' w)
    as [[[a | e] h2] w2]; unfold handler_of in *; simpl in *;
    (rewrite Hkeep; [exact Hheader | intuition discriminate]).
Qed.

(** C2, amended: with an access token configured, the hook reports the
    exception to the error-reporting service unless the exception is a
    MissingArgumentError, a ValidationError, or an exception whose class is
    exactly HTTPError with a status under 500, for which it reports nothing.
    When the report returns a non-empty token, the hook stores it, and every
    error response written while it is stored carries it in the
    X-Rollbar-Token header and under the 'rollbar' key of the error
    payload. *)
Theorem log_exception_report (value : exception) (h : Handler) (w : World) :
  RequestHandler.token_configured h = true ->
  (treated_as_client_error value ->
     reports (world_of (RequestHandler.log_exception value h w)) = reports w)
  /\ (~ treated_as_client_error value ->
      exists payload,
        reports (world_of (RequestHandler.log_exception value h w))
        = (reports w ++ [(value, payload)])%list
        /\ forall token,
             report_exc_info value payload = Ok (Some token) -> token <> "" ->
             _rollbar_token (handler_of (RequestHandler.log_exception value h w))
             = Some (Some token)
             /\ forall status_code reason exc_info h2 w2,
                  _rollbar_token h2 = Some (Some token) ->
                  exists data h3,
                    RequestHandler.error_data status_code reason exc_info h2 w2
                    = (Ok data, h3, w2)
                    /\ data !! "rollbar" = Some (VStr token)
                    /\ RequestHandler.write_error status_code reason exc_info h2 w2
                       = bind (RequestHandler.finish (VDict {["error" := VDict data]}))
                           (fun _ => ret tt) h3 w2
                    /\ _headers
                         (handler_of
                            (RequestHandler.write_error status_code reason exc_info h2 w2))
                       !! "X-Rollbar-Token" = Some token).
Proof.
  intros Hconf.
  destruct (exception_cases value) as [[arg_name ->] | [[message [context ->]] | Hother]].
  - split; [| intros Hn; exfalso; apply Hn; exact I].
    intros _. rewrite log_exception_missing. unfold world_of. cbn [snd].
    destruct (base_logged_records (MissingArgumentError arg_name) (request h)
                (emit (logged {["missing" := VStr (RequestHandler.str_missing arg_name)]}) w))
      as (_ & -> & _). reflexivity.
  - split; [| intros Hn; exfalso; apply Hn; exact I].
    intros _. rewrite log_exception_invalid. unfold world_of. cbn [snd].
    destruct (base_logged_records (ValidationError message context) (request h)
                (emit (logged {["message" := VStr message]}) w))
      as (_ & -> & _). reflexivity.
  - rewrite (log_exception_other value h w Hother), Hconf.
    destruct (wants_traceback_spec value Hother) as [Hw Hc].
    destruct (RequestHandler.client_http_error value) eqn:Hclient; simpl.
    + assert (Hyes : treated_as_client_error value) by (apply Hc; reflexivity).
      split; [| contradiction].
      intros _. apply Hw in Hyes. rewrite Hyes. unfold world_of. simpl.
      destruct (base_logged_records value (request h) w) as (_ & -> & _).
      reflexivity.
    + assert (Hnot : ~ treated_as_client_error value).
      { intros Ht. apply Hc in Ht. discriminate. }
      split; [contradiction |]. intros _.
      assert (Hwants : RequestHandler.wants_traceback value = true).
      { destruct (RequestHandler.wants_traceback value); [reflexivity |].
        exfalso. apply Hnot, Hw. reflexivity. }
      rewrite Hwants.
      destruct (report_world value h (emit (Logger.traceback_record value ∅) w))
        as (payload & extra & Hrep & _ & Htoken).
      exists payload. unfold world_of, handler_of in *. simpl in *.
      destruct (base_logged_records value (request h)
                  (snd (RequestHandler.report value h
                          (emit (Logger.traceback_record value ∅) w))))
        as (_ & -> & _).
      split; [exact Hrep |].
      intros token Hreport Hne. split; [apply Htoken, Hreport |].
      intros status_code reason exc_info h2 w2 Hstored.
      destruct (error_data_rollbar token status_code reason exc_info h2 w2 Hstored Hne)
        as (data & h3 & Hdata & Hkey & _).
      exists data, h3. split; [exact Hdata | split; [exact Hkey | split]].
      * unfold RequestHandler.write_error, bind at 1. rewrite Hdata. reflexivity.
      * apply (write_error_keeps_rollbar_header token); assumption.
Qed.

End OtherErrors.

Module HookSamples.

(** The validation failure of the repository's tests. *)
Definition invalid : exception :=
  ValidationError "Invalid value 10 (int): must be string (at value)" ["value"].

(** [raise Exception("uncaught")] *)
Definition uncaught : exception := Builtin OtherClass "uncaught".


Definition reporting : Handler := Samples.with_token (Samples.fresh Samples.get_arg ∅).


End HookSamples.


(** C2, as stated, fails on a validation error: a token is configured, the
    exception is not an HTTP error, and nothing is reported. *)
Lemma validation_error_not_reported :
  RequestHandler.token_configured HookSamples.reporting = true
  /\ isinstance_HTTPError HookSamples.invalid = false
  /\ reports
       (world_of
          (RequestHandler.log_exception (H := Samples.libs) HookSamples.invalid
             HookSamples.reporting Samples.quiet))
     = [].
Proof. repeat split. Qed.

Lemma log_exception_report_witness :
  _rollbar_token
    (handler_of
       (RequestHandler.log_exception (H := Samples.libs) HookSamples.uncaught
          HookSamples.reporting Samples.quiet))
  = Some (Some "9f0c").
Proof.
  destruct (proj2 (log_exception_report (H := Samples.libs) HookSamples.uncaught
                     HookSamples.reporting Samples.quiet eq_refl))
    as (payload & Hreports & Htoken).
  - intros Hclient. exact Hclient.
  - apply (Htoken "9f0c"); [reflexivity | discriminate].
Defined.

(** ** The framework's finish *)

(** Reading a field of a handler that has just been assigned to. *)
Ltac fields :=
  cbn [request rollbar_access_token debug log_function extra path_kwargs resource
       current_user _id _headers _status_code _reason tracebacks _rollbar_token
       error _write_buffer _headers_written _finished connection
       set__id set__headers set__status set_tracebacks set__rollbar_token
       set_error set__write_buffer set__headers_written set__finished transmit].

Section FrameworkFinish.
Context `{Externals}.

(** Nothing has been written or flushed yet. *)
Definition fresh_response (h : Handler) : Prop :=
  _finished h = false /\ _headers_written h = false /\ _write_buffer h = [].

(** The request carries no If-None-Match header. *)
Definition unconditional (h : Handler) : Prop :=
  headers (request h) !! "If-None-Match" = None.

(** The request log returns: the framework's access log always does, and
    [logger.handler] does when [json] can serialise the current user. *)
Definition logs (h : Handler) : Prop :=
  log_function h = Unset
  \/ json_serialisable (RequestHandler.user_or_none h) = true.

(** The framework computes an Etag: a 200 answer to a GET or HEAD that has
    none yet. *)
Definition etag_applies (h : Handler) : bool :=
  (_status_code h =? 200)
  && (String.eqb (method (request h)) "GET" || RequestHandler.is_HEAD h)
  && negb (has_key "Etag" (_headers h)).

(** The headers of a response with a body, once the framework has added
    the Etag and the Content-Length that are missing. *)
Definition completed_headers (h : Handler) : gmap string string :=
  let hs := if etag_applies h
            then <["Etag" := RequestHandler.compute_etag h]> (_headers h)
            else _headers h in
  if has_key "Content-Length" hs then hs
  else <["Content-Length" :=
           pretty (RequestHandler.content_length (_write_buffer h))]> hs.

(** The body that goes out for the output buffer: nothing for HEAD. *)
Definition body_on_wire (h : Handler) : string :=
  if RequestHandler.is_HEAD h then "" else String.concat "" (_write_buffer h).

(** The handler after the first flush of a response with a body. *)
Definition delivered (h : Handler) : Handler :=
  transmit
    (Response (_status_code h) (_reason h) (completed_headers h) (body_on_wire h))
    (set__headers_written true
       (set__write_buffer [] (set__headers (completed_headers h) h))).

Lemma set__headers_same (h : Handler) : set__headers (_headers h) h = h.
Proof. destruct h; reflexivity. Qed.

Lemma set__id_same (h : Handler) : set__id (_id h) h = h.
Proof. destruct h; reflexivity. Qed.

Lemma finish_headers_outcome (h : Handler) (w : World) :
  (_status_code h = 200 -> unconditional h) ->
  RequestHandler.bodiless (_status_code h) = false ->
  RequestHandler.finish_headers h w
  = (Ok tt, set__headers (completed_headers h) h, w).
Proof.
  intros Hcond Hbody.
  unfold RequestHandler.finish_headers, completed_headers.
  unfold bind at 1, get at 1.
  change ((_status_code h =? 200)
          && (String.eqb (method (request h)) "GET" || RequestHandler.is_HEAD h)
          && negb (has_key "Etag" (_headers h))) with (etag_applies h).
  destruct (etag_applies h) eqn:Hetag.
  - assert (Hstatus : _status_code h = 200).
    { unfold etag_applies in Hetag. apply andb_true_iff in Hetag as [Ha _].
      apply andb_true_iff in Ha as [Ha _]. apply Z.eqb_eq. exact Ha. }
    specialize (Hcond Hstatus). unfold unconditional in Hcond.
    unfold RequestHandler.set_etag_header, RequestHandler.set_header,
      RequestHandler.check_etag_header, bind, get, modify, ret. fields.
    rewrite Hcond. cbv beta iota. fields. rewrite Hbody. cbv zeta.
    destruct (has_key "Content-Length"
                (<["Etag" := RequestHandler.compute_etag h]> (_headers h)));
      reflexivity.
  - unfold bind, get, ret, RequestHandler.set_header, modify. rewrite Hbody.
    cbv zeta.
    destruct (has_key "Content-Length" (_headers h));
      [rewrite set__headers_same |]; reflexivity.
Qed.

Lemma flush_outcome (h : Handler) (w : World) :
  _headers_written h = false ->
  RequestHandler.flush h w
  = (Ok tt,
     transmit (Response (_status_code h) (_reason h) (_headers h) (body_on_wire h))
       (set__headers_written true (set__write_buffer [] h)),
     w).
Proof.
  intros Hw. unfold RequestHandler.flush, bind, get, modify. simpl.
  rewrite Hw. reflexivity.
Qed.

Lemma map_Forall_union_both {V} (Q : string -> V -> Prop) (m1 m2 : gmap string V) :
  map_Forall Q m1 -> map_Forall Q m2 -> map_Forall Q (m1 ∪ m2).
Proof.
  intros H1 H2 k v Hk. apply lookup_union_Some_raw in Hk as [Hk | [_ Hk]].
  - exact (H1 k v Hk).
  - exact (H2 k v Hk).
Qed.

Lemma serialisable_dict (d : gmap string value) :
  json_serialisable (VDict d) = true
  <-> map_Forall (fun _ x => json_serialisable x = true) d.
Proof.
  simpl. induction d as [| k x d Hk Hfold IH] using map_first_key_ind.
  - rewrite map_fold_empty. split; [intros _; apply map_Forall_empty | reflexivity].
  - rewrite map_fold_insert_first_key by assumption.
    rewrite map_Forall_insert by assumption. rewrite andb_true_iff, IH. reflexivity.
Qed.

Lemma serialisable_basics (h : Handler) :
  map_Forall (fun _ x => json_serialisable x = true) (RequestLog.basics h).
Proof.
  unfold RequestLog.basics.
  assert (Hb : map_Forall (fun (_ : string) x => json_serialisable x = true)
                 (<["ms" := VStr (request_time_ms (request h))]>
                    (<["reason" := VStr (_reason h)]>
                       (<["uri" := VStr (uri (request h))]>
                          (<["method" := VStr (method (request h))]>
                             ({["status" := VInt (_status_code h)]}
                              : gmap string value)))))).
  { repeat (apply map_Forall_insert_2; [reflexivity |]).
    apply map_Forall_empty. }
  destruct (_rollbar_token h) as [[token |] |]; [| | exact Hb];
    (apply map_Forall_insert_2; [reflexivity | exact Hb]).
Qed.

(** The dictionary that [logger.handler] serialises for the identifier
    [i]. *)
Definition request_fields (h : Handler) (i : string) : gmap string value :=
  <["id" := VStr i]> {["user" := RequestHandler.user_or_none h]}
  ∪ RequestLog.basics h.

Lemma serialisable_request_fields (h : Handler) (i : string) :
  json_serialisable (VDict (request_fields h i))
  = json_serialisable (RequestHandler.user_or_none h).
Proof.
  destruct (json_serialisable (RequestHandler.user_or_none h)) eqn:Hu.
  - apply serialisable_dict. apply map_Forall_union_both.
    + apply map_Forall_insert_2; [reflexivity |].
      apply map_Forall_singleton. exact Hu.
    + apply serialisable_basics.
  - destruct (json_serialisable (VDict (request_fields h i))) eqn:Hd; [| reflexivity].
    apply serialisable_dict in Hd.
    specialize (Hd "user" (RequestHandler.user_or_none h)).
    rewrite <- Hu. symmetry. apply Hd. unfold request_fields.
    apply lookup_union_Some_l. rewrite lookup_insert_ne by discriminate.
    apply lookup_singleton_eq.
Qed.

(** The record of [logger.handler]. *)
Definition request_record (h : Handler) (i : string) : LogRecord :=
  {| logger := OwnLog;
     lvl := RequestLog.severity (_status_code h);
     text := RequestLog.add h
             +:+ Logger.scrub (dumps false None (VDict (request_fields h i)));
     exc_info := None |}.

(** [logger.handler] on a handler that is neither a static-file nor a
    redirect handler: one record, unless [json] refuses the current user,
    in which case the TypeError comes out and nothing is logged. *)
Lemma logger_handler_outcome (h : Handler) (w : World) :
  exists i,
    result_of (RequestHandler.id h w) = Ok i
    /\ RequestHandler.logger_handler false h w
       = if json_serialisable (RequestHandler.user_or_none h)
         then (Ok tt, handler_of (RequestHandler.id h w),
               emit (request_record h i) (world_of (RequestHandler.id h w)))
         else (Raise (Builtin TypeError "is not JSON serializable"),
               handler_of (RequestHandler.id h w),
               world_of (RequestHandler.id h w)).
Proof.
  assert (HT : forall i, bool_decide
                 (<["id" := VStr i]>
                    ({["user" := RequestHandler.user_or_none h]} : gmap string value) = ∅)
               = false).
  { intros i. apply bool_decide_eq_false. apply insert_non_empty. }
  unfold RequestHandler.logger_handler, RequestHandler.get_log_payload.
  unfold bind at 1, get at 1. unfold bind at 1. unfold bind at 1, get at 1.
  unfold bind at 1.
  destruct (RequestHandler.id h w) as [[[i | e] h1] w1] eqn:Hid.
  - exists i. split; [reflexivity |].
    unfold ret at 1. cbv beta iota. simpl truthy. rewrite HT. simpl negb. cbv iota.
    fold (request_fields h i).
    unfold bind at 1, lift at 1, Logger.plain_dumps.
    rewrite serialisable_request_fields.
    destruct (json_serialisable (RequestHandler.user_or_none h)); reflexivity.
  - unfold RequestHandler.id in Hid. destruct (_id h); discriminate.
Qed.

Lemma id_keeps (h : Handler) (w : World) :
  handler_of (RequestHandler.id h w)
  = set__id (_id (handler_of (RequestHandler.id h w))) h
  /\ reports (world_of (RequestHandler.id h w)) = reports w.
Proof.
  unfold RequestHandler.id. destruct (_id h) eqn:Hid; unfold handler_of; simpl.
  - rewrite set__id_same. split; reflexivity.
  - split; reflexivity.
Qed.

(** When the request log returns, it leaves one record and changes nothing
    of the handler but, possibly, the identifier it fixes. *)
Lemma log_request_returns (h : Handler) (w : World) :
  logs h ->
  exists h' w' r,
    RequestHandler.log_request h w = (Ok tt, h', w')
    /\ h' = set__id (_id h') h
    /\ records w' = (records w ++ [r])%list
    /\ reports w' = reports w.
Proof.
  intros Hlogs. unfold RequestHandler.log_request, bind, get.
  destruct (log_function h) eqn:Hf.
  - exists h, (emit (RequestHandler.access_record h) w), (RequestHandler.access_record h).
    rewrite set__id_same. repeat split.
  - destruct Hlogs as [Hu | Hu]; [congruence |].
    destruct (logger_handler_outcome h w) as (i & Hi & ->). rewrite Hu.
    destruct (id_keeps h w) as [Hh Hrep].
    destruct (id_world h w) as [Hrec _].
    eexists. eexists. eexists. split; [reflexivity |].
    split; [exact Hh |]. simpl. rewrite Hrep, Hrec. split; reflexivity.
Qed.

(** The lines of the framework's [finish] that follow the write. *)
Definition finish_tail : M unit :=
  h <- get;;
  (if _headers_written h then ret tt else RequestHandler.finish_headers);;
  RequestHandler.flush;;
  RequestHandler.log_request;;
  modify (set__finished true).

Lemma base_finish_unfold (chunk : value) (h : Handler) (w : World) :
  _finished h = false ->
  RequestHandler.base_finish chunk h w
  = bind (match chunk with
          | VNone => ret tt
          | _ => RequestHandler.write chunk
          end) (fun _ => finish_tail) h w.
Proof.
  intros Hfin. unfold RequestHandler.base_finish. unfold bind at 1, get at 1.
  rewrite Hfin. reflexivity.
Qed.

(** A response with a body goes out with the completed headers; the
    request is then logged and marked finished. *)
Lemma finish_tail_delivers (h : Handler) (w : World) :
  _headers_written h = false ->
  (_status_code h = 200 -> unconditional h) ->
  RequestHandler.bodiless (_status_code h) = false ->
  logs h ->
  exists h' w',
    finish_tail h w = (Ok tt, h', w')
    /\ h' = set__finished true (set__id (_id h') (delivered h))
    /\ reports w' = reports w.
Proof.
  intros Hw Hcond Hbody Hlogs.
  unfold finish_tail. unfold bind at 1, get at 1. rewrite Hw.
  unfold bind at 1. rewrite (finish_headers_outcome h w Hcond Hbody).
  unfold bind at 1. rewrite flush_outcome by exact Hw.
  change (transmit _ _) with (delivered h).
  destruct (log_request_returns (delivered h) w Hlogs)
    as (h' & w' & r & Hlog & Hh' & _ & Hrep).
  unfold bind at 1. rewrite Hlog. unfold modify.
  exists (set__finished true h'), w'. split; [reflexivity |].
  split; [| exact Hrep].
  rewrite Hh' at 1. reflexivity.
Qed.

(** The framework's [finish] of a string. *)
Lemma base_finish_str (s : string) (h : Handler) (w : World) :
  _finished h = false ->
  _headers_written h = false ->
  (_status_code h = 200 -> unconditional h) ->
  RequestHandler.bodiless (_status_code h) = false ->
  logs h ->
  exists h' w',
    RequestHandler.base_finish (VStr s) h w = (Ok tt, h', w')
    /\ h' = set__finished true
              (set__id (_id h')
                 (delivered (set__write_buffer (_write_buffer h ++ [s])%list h)))
    /\ reports w' = reports w.
Proof.
  intros Hfin Hw Hcond Hbody Hlogs.
  rewrite base_finish_unfold by exact Hfin.
  unfold bind at 1, RequestHandler.write. unfold bind at 1, get at 1.
  rewrite Hfin. unfold modify at 1.
  apply finish_tail_delivers; assumption.
Qed.

(** The framework's [finish] of a dictionary that [json] serialises. *)
Lemma base_finish_dict (d : gmap string value) (h : Handler) (w : World) :
  _finished h = false ->
  _headers_written h = false ->
  (_status_code h = 200 -> unconditional h) ->
  RequestHandler.bodiless (_status_code h) = false ->
  logs h ->
  json_serialisable (VDict d) = true ->
  exists h' w',
    RequestHandler.base_finish (VDict d) h w = (Ok tt, h', w')
    /\ h' = set__finished true
              (set__id (_id h')
                 (delivered
                    (set__write_buffer
                       (_write_buffer h
                        ++ [escape_slash (dumps false None (VDict d))])%list
                       (set__headers
                          (<["Content-Type" := "application/json; charset=UTF-8"]>
                             (_headers h)) h))))
    /\ reports w' = reports w.
Proof.
  intros Hfin Hw Hcond Hbody Hlogs Hjson.
  rewrite base_finish_unfold by exact Hfin.
  unfold bind at 1, RequestHandler.write. unfold bind at 1, get at 1.
  rewrite Hfin.
  unfold bind at 1, lift at 1, RequestHandler.json_encode, Logger.plain_dumps.
  rewrite Hjson.
  unfold bind at 1, RequestHandler.set_header, modify at 1. unfold modify at 1.
  apply finish_tail_delivers; assumption.
Qed.

(** At a status without a body, a chunk stops the framework's [finish]:
    the assertion fails after the chunk has been buffered, and nothing is
    sent. *)
Lemma base_finish_str_bodiless (s : string) (h : Handler) (w : World) :
  _finished h = false ->
  _headers_written h = false ->
  _status_code h <> 200 ->
  RequestHandler.bodiless (_status_code h) = true ->
  RequestHandler.base_finish (VStr s) h w
  = (Raise (Builtin AssertionError
              ("Cannot send body with " +:+ pretty (_status_code h))),
     set__write_buffer (_write_buffer h ++ [s])%list h, w).
Proof.
  intros Hfin Hw Hstatus Hbody.
  rewrite base_finish_unfold by exact Hfin.
  unfold bind at 1, RequestHandler.write. unfold bind at 1, get at 1.
  rewrite Hfin. unfold modify at 1.
  unfold finish_tail. unfold bind at 1, get at 1. simpl _headers_written.
  rewrite Hw. unfold bind at 1.
  unfold RequestHandler.finish_headers. unfold bind at 1, get at 1.
  simpl _status_code.
  assert (Hne : (_status_code h =? 200) = false) by (apply Z.eqb_neq; exact Hstatus).
  rewrite Hne. simpl andb. cbv iota.
  unfold bind at 1, ret at 1. unfold bind at 1, get at 1. fields.
  rewrite Hbody.
  destruct (_write_buffer h); reflexivity.
Qed.

End FrameworkFinish.

(** ** finish *)

(** The Content-Type that goes with a text format. *)
Definition text_type (export : string) : string :=
  "text/" +:+ (if String.eqb export "txt" then "plain" else "html").

Section Finish.
Context `{Externals}.

Lemma setdefault_lookup {V} (k : string) (v : V) (d : gmap string V) :
  setdefault k v d !! k = Some (default v (d !! k)).
Proof.
  unfold setdefault. destruct (d !! k) eqn:Hk; simpl.
  - exact Hk.
  - apply lookup_insert_eq.
Qed.

Lemma setdefault_lookup_ne {V} (k k' : string) (v : V) (d : gmap string V) :
  k <> k' -> setdefault k v d !! k' = d !! k'.
Proof.
  intros Hne. unfold setdefault. destruct (d !! k); [reflexivity |].
  apply lookup_insert_ne, Hne.
Qed.

(** Reading the identifier in a state that differs from [h] in the status
    line only. *)
Lemma id_after_set_status (code : Z) (reason : string) (h : Handler) (w : World) :
  RequestHandler.id (set__status code reason h) w
  = (result_of (RequestHandler.id h w),
     set__status code reason (handler_of (RequestHandler.id h w)),
     world_of (RequestHandler.id h w)).
Proof. unfold RequestHandler.id. simpl. destruct (_id h); reflexivity. Qed.

Lemma id_returns (h : Handler) (w : World) :
  exists i, result_of (RequestHandler.id h w) = Ok i.
Proof. unfold RequestHandler.id. destruct (_id h); eexists; reflexivity. Qed.

(** Lines 115-117 on a payload whose [meta] entry is missing or a mapping
    ([as_value] tells a dict from an instance of a subclass) and whose
    status converts to an integer. *)
Lemma inject_meta_outcome (as_value : gmap string value -> value)
    (chunk meta : gmap string value) (status : Z) (h : Handler) (w : World) :
  as_value = VDict \/ as_value = VDictSubclass ->
  default (VDict ∅) (chunk !! "meta") = as_value meta ->
  RequestHandler.py_int (default (VInt (RequestHandler.status_or_200 h)) (meta !! "status"))
  = Ok status ->
  exists i,
    result_of (RequestHandler.id h w) = Ok i
    /\ RequestHandler.inject_meta chunk h w
       = (Ok (<["meta" := as_value (<["request" := VStr i]>
                 (setdefault "status" (VInt (RequestHandler.status_or_200 h)) meta))]>
                chunk),
          set__status status (responses status) (handler_of (RequestHandler.id h w)),
          world_of (RequestHandler.id h w)).
Proof.
  intros Hkind Hmeta Hint. destruct (id_returns h w) as [i Hi]. exists i.
  split; [exact Hi |].
  unfold RequestHandler.inject_meta. rewrite Hmeta.
  assert (Hinto :
    RequestHandler.inject_into as_value meta chunk h w
    = (Ok (<["meta" := as_value (<["request" := VStr i]>
              (setdefault "status" (VInt (RequestHandler.status_or_200 h)) meta))]>
             chunk),
       set__status status (responses status) (handler_of (RequestHandler.id h w)),
       world_of (RequestHandler.id h w))).
  { unfold RequestHandler.inject_into, bind, get, lift. cbv zeta.
    rewrite setdefault_lookup. simpl default.
    rewrite Hint. unfold RequestHandler.set_status, modify.
    rewrite id_after_set_status, Hi. reflexivity. }
  destruct Hkind as [-> | ->]; exact Hinto.
Qed.

(** [inject_meta] changes the identifier and the status line, nothing
    else. *)
Lemma inject_meta_keeps (chunk : gmap string value) (h : Handler) (w : World) :
  let h1 := handler_of (RequestHandler.inject_meta chunk h w) in
  h1 = set__status (_status_code h1) (_reason h1) (set__id (_id h1) h).
Proof.
  apply (preserves_inject_meta
           (fun x => x = set__status (_status_code x) (_reason x) (set__id (_id x) h))).
  - intros x w0 Hx. unfold RequestHandler.id.
    destruct (_id x) eqn:Hid; unfold handler_of; simpl.
    + rewrite Hid. exact Hx.
    + match goal with
      | |- set__id ?v x = _ => exact (eq_trans (f_equal (set__id v) Hx) eq_refl)
      end.
  - intros code reason x Hx.
    exact (eq_trans (f_equal (set__status code reason) Hx) eq_refl).
  - destruct h; reflexivity.
Qed.

(** Without a text or HTML format the dictionary itself is the body. *)
Lemma render_json (chunk : gmap string value) (h : Handler) (w : World) :
  RequestHandler.export h <> "txt" -> RequestHandler.export h <> "html" ->
  RequestHandler.render chunk h w = (Ok (VDict chunk), h, w).
Proof.
  intros Htxt Hhtml. unfold RequestHandler.render, bind, get.
  destruct (String.eqb_spec (RequestHandler.export h) "txt"); [contradiction |].
  destruct (String.eqb_spec (RequestHandler.export h) "html"); [contradiction |].
  reflexivity.
Qed.

(** A payload that is neither a list nor a dict reaches the framework's
    [finish] as it is. *)
Lemma finish_unshaped (chunk : value) (h : Handler) (w : World) :
  (forall l, chunk <> VList l) -> (forall d, chunk <> VDict d) ->
  RequestHandler.finish chunk h w
  = bind (RequestHandler.base_finish chunk) (fun _ => ret chunk) h w.
Proof.
  intros Hl Hd. unfold RequestHandler.finish, RequestHandler.shape,
    RequestHandler.wrap_list.
  destruct chunk; try reflexivity.
  - exfalso. exact (Hl _ eq_refl).
  - exfalso. exact (Hd _ eq_refl).
Qed.

Lemma finish_after_inject (chunk chunk' : gmap string value)
    (h h1 : Handler) (w w1 : World) :
  RequestHandler.inject_meta chunk h w = (Ok chunk', h1, w1) ->
  RequestHandler.finish (VDict chunk) h w
  = bind (RequestHandler.render chunk')
      (fun sent => bind (RequestHandler.base_finish sent) (fun _ => ret sent)) h1 w1
  /\ h1 = set__status (_status_code h1) (_reason h1) (set__id (_id h1) h).
Proof.
  intros Hinject. split.
  - unfold RequestHandler.finish, RequestHandler.shape, RequestHandler.wrap_list.
    unfold bind at 1. unfold bind at 1. unfold ret at 1. cbv beta iota.
    unfold bind at 1. rewrite Hinject. reflexivity.
  - pose proof (inject_meta_keeps chunk h w) as Hkeep.
    rewrite Hinject in Hkeep. exact Hkeep.
Qed.

Lemma export_after_inject (h h1 : Handler) :
  h1 = set__status (_status_code h1) (_reason h1) (set__id (_id h1) h) ->
  RequestHandler.export h1 = RequestHandler.export h.
Proof. intros ->. reflexivity. Qed.

(** The payload after lines 115-117, for the identifier [i]. *)
Definition injected (as_value : gmap string value -> value)
    (chunk meta : gmap string value) (h : Handler) (i : string)
  : gmap string value :=
  <["meta" := as_value (<["request" := VStr i]>
                          (setdefault "status" (VInt (RequestHandler.status_or_200 h)) meta))]>
    chunk.

Lemma finish_dict_steps (as_value : gmap string value -> value)
    (chunk meta : gmap string value) (status : Z)
    (h : Handler) (w : World) (i : string) :
  as_value = VDict \/ as_value = VDictSubclass ->
  default (VDict ∅) (chunk !! "meta") = as_value meta ->
  RequestHandler.py_int (default (VInt (RequestHandler.status_or_200 h)) (meta !! "status"))
  = Ok status ->
  result_of (RequestHandler.id h w) = Ok i ->
  RequestHandler.inject_meta chunk h w
  = (Ok (injected as_value chunk meta h i),
     set__status status (responses status) (handler_of (RequestHandler.id h w)),
     world_of (RequestHandler.id h w))
  /\ RequestHandler.finish (VDict chunk) h w
     = bind (RequestHandler.render (injected as_value chunk meta h i))
         (fun sent => bind (RequestHandler.base_finish sent) (fun _ => ret sent))
         (set__status status (responses status) (handler_of (RequestHandler.id h w)))
         (world_of (RequestHandler.id h w)).
Proof.
  intros Hkind Hmeta Hint Hi.
  destruct (inject_meta_outcome as_value chunk meta status h w Hkind Hmeta Hint)
    as (i' & Hi' & Hinject).
  assert (i' = i) as -> by congruence.
  split; [exact Hinject |].
  exact (proj1 (finish_after_inject _ _ _ _ _ _ Hinject)).
Qed.

(** In the JSON format the injected dictionary is what the framework's
    [finish] receives. *)
Lemma finish_dict_json (as_value : gmap string value -> value)
    (chunk meta : gmap string value) (status : Z)
    (h : Handler) (w : World) (i : string) :
  as_value = VDict \/ as_value = VDictSubclass ->
  default (VDict ∅) (chunk !! "meta") = as_value meta ->
  RequestHandler.py_int (default (VInt (RequestHandler.status_or_200 h)) (meta !! "status"))
  = Ok status ->
  result_of (RequestHandler.id h w) = Ok i ->
  RequestHandler.export h <> "txt" -> RequestHandler.export h <> "html" ->
  RequestHandler.finish (VDict chunk) h w
  = bind (RequestHandler.base_finish (VDict (injected as_value chunk meta h i)))
      (fun _ => ret (VDict (injected as_value chunk meta h i)))
      (set__status status (responses status) (handler_of (RequestHandler.id h w)))
      (world_of (RequestHandler.id h w)).
Proof.
  intros Hkind Hmeta Hint Hi Htxt Hhtml.
  destruct (finish_dict_steps as_value chunk meta status h w i Hkind Hmeta Hint Hi)
    as [_ ->].
  unfold bind at 1. rewrite render_json; [reflexivity | |].
  - unfold RequestHandler.export, RequestHandler.id in *. simpl.
    destruct (_id h); exact Htxt.
  - unfold RequestHandler.export, RequestHandler.id in *. simpl.
    destruct (_id h); exact Hhtml.
Qed.

(** C4, amended: for a payload whose type is exactly dict, whose 'meta'
    entry is missing or itself a mapping (a dict or an instance of a
    subclass of dict), and whose meta.status, when present, converts with
    int(), [finish] gives meta.status the current response status when it
    is missing (200 when that status is 0), sets the response status to
    int(meta.status) and meta.request to the request identifier, and only
    then renders the payload and hands it to the framework's [finish] for
    transmission; the other entries of the payload and of meta are kept. A
    mapping of another type, an instance of a subclass of dict, reaches
    the framework's [finish] as it is, without meta. *)
Theorem finish_injects_meta (as_value : gmap string value -> value)
    (chunk meta : gmap string value) (status : Z) (h : Handler) (w : World) :
  as_value = VDict \/ as_value = VDictSubclass ->
  default (VDict ∅) (chunk !! "meta") = as_value meta ->
  RequestHandler.py_int (default (VInt (RequestHandler.status_or_200 h)) (meta !! "status"))
  = Ok status ->
  exists i meta' h1 w1,
    result_of (RequestHandler.id h w) = Ok i
    /\ RequestHandler.inject_meta chunk h w
       = (Ok (<["meta" := as_value meta']> chunk), h1, w1)
    /\ meta' !! "status"
       = Some (default (VInt (RequestHandler.status_or_200 h)) (meta !! "status"))
    /\ meta' !! "request" = Some (VStr i)
    /\ (forall k, k <> "status" -> k <> "request" -> meta' !! k = meta !! k)
    /\ _status_code h1 = status
    /\ RequestHandler.finish (VDict chunk) h w
       = bind (RequestHandler.render (<["meta" := as_value meta']> chunk))
           (fun sent => bind (RequestHandler.base_finish sent) (fun _ => ret sent))
           h1 w1
    /\ (RequestHandler.export h <> "txt" -> RequestHandler.export h <> "html" ->
        RequestHandler.finish (VDict chunk) h w
        = bind (RequestHandler.base_finish (VDict (<["meta" := as_value meta']> chunk)))
            (fun _ => ret (VDict (<["meta" := as_value meta']> chunk))) h1 w1)
    /\ (forall d,
          RequestHandler.finish (VDictSubclass d) h w
          = bind (RequestHandler.base_finish (VDictSubclass d))
              (fun _ => ret (VDictSubclass d)) h w).
Proof.
  intros Hkind Hmeta Hint. destruct (id_returns h w) as [i Hi].
  destruct (finish_dict_steps as_value chunk meta status h w i Hkind Hmeta Hint Hi)
    as [Hinject Hfinish].
  exists i. eexists. eexists. eexists.
  split; [exact Hi |]. split; [exact Hinject |].
  split; [rewrite lookup_insert_ne by discriminate; apply setdefault_lookup |].
  split; [apply lookup_insert_eq |].
  split.
  { intros k Hs Hr. rewrite lookup_insert_ne by congruence.
    apply setdefault_lookup_ne. congruence. }
  split; [reflexivity |]. split; [exact Hfinish |].
  split.
  - intros Htxt Hhtml.
    exact (finish_dict_json as_value chunk meta status h w i Hkind Hmeta Hint Hi
             Htxt Hhtml).
  - intros d. apply finish_unshaped; discriminate.
Qed.

(** A payload whose [meta] entry is not a mapping stops [finish] before
    anything is set or sent. *)
Lemma finish_meta_not_a_mapping (chunk : gmap string value) (h : Handler) (w : World) :
  (forall meta, default (VDict ∅) (chunk !! "meta") <> VDict meta) ->
  (forall meta, default (VDict ∅) (chunk !! "meta") <> VDictSubclass meta) ->
  RequestHandler.finish (VDict chunk) h w
  = (Raise (Builtin AttributeError "setdefault"), h, w).
Proof.
  intros Hmeta Hsub. unfold RequestHandler.finish, RequestHandler.shape,
    RequestHandler.wrap_list.
  unfold bind at 1. unfold bind at 1. unfold ret at 1. cbv beta iota.
  unfold bind at 1. unfold RequestHandler.inject_meta.
  destruct (default (VDict ∅) (chunk !! "meta")) as [| | | | | | meta | meta |];
    try reflexivity.
  - exfalso. apply (Hmeta meta). reflexivity.
  - exfalso. apply (Hsub meta). reflexivity.
Qed.

(** C5, amended: a payload whose type is exactly list, on a handler that
    defines [resource], is replaced by
    [{resource: list, "meta": {"total": n}}], [n] the length of the list,
    before anything else happens to it: [finish] on the list is [finish] on
    that mapping. In particular, when the mapping itself goes out (no text
    or HTML format), what the framework's [finish] receives binds the
    resource name to the list, unless that name is "meta", and meta.total
    to [n]. A sequence of another type, a tuple, reaches the framework's
    [finish] as it is. *)
Theorem finish_wraps_list (l : list value) (r : string) (h : Handler) (w : World) :
  resource h = Some r ->
  RequestHandler.finish (VList l) h w
  = RequestHandler.finish
      (VDict (<["meta" := VDict {["total" := VInt (Z.of_nat (length l))]}]>
                {[r := VList l]})) h w
  /\ (RequestHandler.export h <> "txt" -> RequestHandler.export h <> "html" ->
      exists sent meta h1 w1,
        RequestHandler.finish (VList l) h w
        = bind (RequestHandler.base_finish (VDict sent)) (fun _ => ret (VDict sent))
            h1 w1
        /\ (r <> "meta" -> sent !! r = Some (VList l))
        /\ sent !! "meta" = Some (VDict meta)
        /\ meta !! "total" = Some (VInt (Z.of_nat (length l)))
        /\ (forall k, k <> r -> k <> "meta" -> sent !! k = None))
  /\ RequestHandler.finish (VTuple l) h w
     = bind (RequestHandler.base_finish (VTuple l)) (fun _ => ret (VTuple l)) h w.
Proof.
  intros Hres.
  assert (Hwrap :
    RequestHandler.finish (VList l) h w
    = RequestHandler.finish
        (VDict (<["meta" := VDict {["total" := VInt (Z.of_nat (length l))]}]>
                  {[r := VList l]})) h w).
  { unfold RequestHandler.finish, RequestHandler.shape, RequestHandler.wrap_list.
    unfold bind at 1. unfold bind at 1. unfold bind at 1. unfold get at 1.
    rewrite Hres. reflexivity. }
  split; [exact Hwrap |]. split; [| apply finish_unshaped; discriminate].
  intros Htxt Hhtml. rewrite Hwrap.
  destruct (id_returns h w) as [i Hi].
  rewrite (finish_dict_json VDict _ {["total" := VInt (Z.of_nat (length l))]}
             (RequestHandler.status_or_200 h) h w i); try assumption.
  - eexists. eexists. eexists. eexists. split; [reflexivity |]. unfold injected.
    split; [| split; [apply lookup_insert_eq | split]].
    + intros Hne. rewrite !lookup_insert_ne by congruence.
      apply lookup_singleton_eq.
    + rewrite lookup_insert_ne by discriminate.
      rewrite setdefault_lookup_ne by discriminate. apply lookup_singleton_eq.
    + intros k Hr Hm. rewrite !lookup_insert_ne by congruence.
      apply lookup_singleton_ne. congruence.
  - left. reflexivity.
  - rewrite lookup_insert_eq. reflexivity.
  - rewrite lookup_singleton_ne by discriminate. reflexivity.
Qed.

(** ** The template fallback *)

Lemma template_path_outcome (export : string) (h : Handler) (w : World) :
  RequestHandler.template_path export h w
  = (result_of (RequestHandler.template_path export h w), h, w).
Proof.
  unfold RequestHandler.template_path, bind, get.
  destruct ((_status_code h =? 200) || (_status_code h =? 201));
    [destruct (resource h) |]; reflexivity.
Qed.

Lemma render_string_outcome (doc : string) (kwargs : gmap string value)
    (h : Handler) (w : World) :
  RequestHandler.render_string doc kwargs h w
  = (result_of (RequestHandler.render_string doc kwargs h w), h, w).
Proof.
  unfold RequestHandler.render_string, bind, get, lift.
  destruct (has_key "template" kwargs || has_key "self" kwargs); [reflexivity |].
  destruct (_ || _ || _); reflexivity.
Qed.

(** Neither depends on the response headers. *)
Lemma template_path_headers (export : string) (hs : gmap string string)
    (h : Handler) (w : World) :
  result_of (RequestHandler.template_path export (set__headers hs h) w)
  = result_of (RequestHandler.template_path export h w).
Proof.
  unfold RequestHandler.template_path, bind, get. simpl.
  destruct ((_status_code h =? 200) || (_status_code h =? 201));
    [destruct (resource h) |]; reflexivity.
Qed.

Lemma render_string_headers (doc : string) (kwargs : gmap string value)
    (hs : gmap string string) (h : Handler) (w : World) :
  result_of (RequestHandler.render_string doc kwargs (set__headers hs h) w)
  = result_of (RequestHandler.render_string doc kwargs h w).
Proof.
  unfold RequestHandler.render_string, bind, get, lift.
  destruct (has_key "template" kwargs || has_key "self" kwargs); [reflexivity |].
  unfold RequestHandler.template_data. simpl.
  destruct (_ || _ || _); reflexivity.
Qed.

(** [render] in a text format, once the template path is known: the header
    is set, then the template is rendered, an IOError becoming the
    fallback string. *)
Lemma render_text (chunk : gmap string value) (doc : string)
    (h : Handler) (w : World) :
  RequestHandler.export h = "txt" \/ RequestHandler.export h = "html" ->
  result_of (RequestHandler.template_path (RequestHandler.export h) h w) = Ok doc ->
  RequestHandler.render chunk h w
  = (match result_of (RequestHandler.render_string doc chunk h w) with
     | Ok page => Ok (VStr page)
     | Raise e =>
         if RequestHandler.is_IOError e
         then Ok (VStr ("template not found at " +:+ doc))
         else Raise e
     end,
     set__headers
       (<["Content-Type" := text_type (RequestHandler.export h)]> (_headers h)) h,
     w).
Proof.
  intros Hexport Hdoc.
  unfold RequestHandler.render, bind at 1, get at 1.
  assert (Hcond : (String.eqb (RequestHandler.export h) "txt"
                   || String.eqb (RequestHandler.export h) "html") = true).
  { destruct Hexport as [-> | ->]; reflexivity. }
  rewrite Hcond. unfold bind at 1.
  unfold RequestHandler.set_header, modify. fold (text_type (RequestHandler.export h)).
  unfold bind at 1. rewrite template_path_outcome, template_path_headers, Hdoc.
  unfold RequestHandler.render_or_fallback, try_except.
  unfold bind at 1. rewrite render_string_outcome, render_string_headers.
  destruct (result_of (RequestHandler.render_string doc chunk h w)) as [page | e];
    [reflexivity |].
  destruct (RequestHandler.is_IOError e); reflexivity.
Qed.

Lemma completed_headers_other (k : string) (h : Handler) :
  k <> "Etag" -> k <> "Content-Length" ->
  completed_headers h !! k = _headers h !! k.
Proof.
  intros He Hl. unfold completed_headers.
  destruct (etag_applies h); cbv zeta;
    match goal with |- context [has_key ?a ?b] => destruct (has_key a b) end;
    rewrite ?lookup_insert_ne by congruence; reflexivity.
Qed.

(** A string that [finish] has produced in a text format goes out as the
    body of the response, under the Content-Type of that format. *)
Lemma finish_text_delivers (chunk chunk' : gmap string value) (text : string)
    (h h1 : Handler) (w w1 : World) :
  fresh_response h -> unconditional h -> logs h ->
  RequestHandler.inject_meta chunk h w = (Ok chunk', h1, w1) ->
  RequestHandler.render chunk' h1 w1
  = (Ok (VStr text),
     set__headers
       (<["Content-Type" := text_type (RequestHandler.export h)]> (_headers h1)) h1,
     w1) ->
  RequestHandler.bodiless (_status_code h1) = false ->
  let out := RequestHandler.finish (VDict chunk) h w in
  result_of out = Ok (VStr text)
  /\ _finished (handler_of out) = true
  /\ exists hs,
       connection (handler_of out)
       = (connection h
          ++ [Response (_status_code h1) (_reason h1) hs
                (if RequestHandler.is_HEAD h then "" else text)])%list
       /\ hs !! "Content-Type" = Some (text_type (RequestHandler.export h)).
Proof.
  intros (Hfin & Hwritten & Hbuffer) Huncond Hlogs Hinject Hrender Hbody out.
  subst out.
  destruct (finish_after_inject chunk chunk' h h1 w w1 Hinject) as (Hsteps & Hkeep).
  set (h2 := set__headers
               (<["Content-Type" := text_type (RequestHandler.export h)]> (_headers h1))
               h1) in *.
  assert (Hfields : _finished h2 = false /\ _headers_written h2 = false
                    /\ _write_buffer h2 = [] /\ unconditional h2 /\ logs h2
                    /\ connection h2 = connection h
                    /\ RequestHandler.is_HEAD h2 = RequestHandler.is_HEAD h).
  { subst h2. rewrite Hkeep. unfold unconditional, logs, RequestHandler.is_HEAD,
      RequestHandler.user_or_none in *. fields. auto 10. }
  destruct Hfields as (Hfin2 & Hwritten2 & Hbuffer2 & Huncond2 & Hlogs2 & Hconn2 & Hhead2).
  destruct (base_finish_str text h2 w1 Hfin2 Hwritten2 (fun _ => Huncond2) Hbody Hlogs2)
    as (h' & w' & Hout & Hh' & _).
  assert (Hfinal : RequestHandler.finish (VDict chunk) h w = (Ok (VStr text), h', w')).
  { rewrite Hsteps. unfold bind at 1. rewrite Hrender.
    unfold bind at 1. rewrite Hout. reflexivity. }
  rewrite Hfinal. unfold result_of, handler_of. simpl.
  split; [reflexivity |].
  split; [rewrite Hh'; reflexivity |].
  exists (completed_headers (set__write_buffer (_write_buffer h2 ++ [text])%list h2)).
  split.
  - rewrite Hh'. unfold delivered, body_on_wire. fields.
    rewrite Hconn2, Hbuffer2.
    change (RequestHandler.is_HEAD (set__write_buffer ([] ++ [text]) h2))
      with (RequestHandler.is_HEAD h2).
    rewrite Hhead2. simpl. reflexivity.
  - rewrite completed_headers_other by discriminate. subst h2. fields.
    apply lookup_insert_eq.
Qed.


End Finish.

Module FinishSamples.

(** The payload of the repository's test handler. *)
Definition person : gmap string value :=
  {["person" := VDict {["name" := VStr "joe"]}]}.

(** A payload whose [meta] entry is a number. *)
Definition numbered : gmap string value := {["meta" := VInt 1]}.

Definition api : Handler := Samples.fresh Samples.get_arg ∅.

(** The same request on a route that captured the extension [.html]. *)
Definition page : Handler :=
  Samples.fresh Samples.get_arg {["export" := Some ".html"]}.


Definition page_injected : Result (gmap string value) * Handler * World :=
  RequestHandler.inject_meta (H := Samples.libs) person page Samples.quiet.

Definition page_payload : gmap string value :=
  match result_of page_injected with
  | Ok d => d
  | Raise _ => ∅
  end.

End FinishSamples.

(** C4, as stated, fails on a mapping whose 'meta' entry is not a mapping:
    [finish] raises AttributeError; no status is set and nothing is sent. *)
Lemma finish_numbered_meta_raises :
  RequestHandler.finish (H := Samples.libs) (VDict FinishSamples.numbered)
    FinishSamples.api Samples.quiet
  = (Raise (Builtin AttributeError "setdefault"), FinishSamples.api, Samples.quiet)
  /\ connection FinishSamples.api = [].
Proof. split; reflexivity. Qed.

Lemma finish_injects_meta_witness :
  exists meta' h1 w1,
    RequestHandler.finish (H := Samples.libs) (VDict FinishSamples.person)
      FinishSamples.api Samples.quiet
    = bind (RequestHandler.base_finish (H := Samples.libs)
              (VDict (<["meta" := VDict meta']> FinishSamples.person)))
        (fun _ => ret (VDict (<["meta" := VDict meta']> FinishSamples.person))) h1 w1
    /\ meta' !! "status" = Some (VInt 200)
    /\ meta' !! "request" = Some (VStr "uuid-0")
    /\ _status_code h1 = 200.
Proof.
  destruct (finish_injects_meta (H := Samples.libs) VDict FinishSamples.person ∅ 200
              FinishSamples.api Samples.quiet (or_introl eq_refl) eq_refl eq_refl)
    as (i & meta' & h1 & w1 & Hi & _ & Hstatus & Hrequest & _ & Hcode & _ & Hjson & _).
  exists meta', h1, w1. split; [| split; [| split]].
  - apply Hjson; discriminate.
  - exact Hstatus.
  - injection Hi as <-. exact Hrequest.
  - exact Hcode.
Defined.

(** C5, as stated, fails on a sequence that is not a list: a tuple is not
    wrapped, although the handler defines [resource]; it reaches the
    framework's [finish], which refuses it, and nothing is sent. *)
Lemma finish_tuple_not_wrapped :
  resource FinishSamples.api = Some "customers"
  /\ RequestHandler.finish (H := Samples.libs) (VTuple [VInt 1; VInt 2])
       FinishSamples.api Samples.quiet
     = (Raise (Builtin TypeError
                 "write() only accepts bytes, unicode, and dict objects"),
        FinishSamples.api, Samples.quiet)
  /\ connection FinishSamples.api = [].
Proof. repeat split. Qed.

Lemma finish_wraps_list_witness :
  RequestHandler.finish (H := Samples.libs) (VList [VInt 1; VInt 2])
    FinishSamples.api Samples.quiet
  = RequestHandler.finish (H := Samples.libs)
      (VDict (<["meta" := VDict {["total" := VInt 2]}]>
                {["customers" := VList [VInt 1; VInt 2]]}))
      FinishSamples.api Samples.quiet.
Proof.
  exact (proj1 (finish_wraps_list (H := Samples.libs) [VInt 1; VInt 2] "customers"
                  FinishSamples.api Samples.quiet eq_refl)).
Defined.



(** ** Redaction *)

Section Redaction.

Lemma star_greedy_all {R} (p : ascii -> bool) (v : list ascii)
    (k : list ascii -> option R) (r : R) :
  Forall (fun c => p c = true) v -> k [] = Some r ->
  Logger.star_greedy p v k = Some r.
Proof.
  intros Hall Hk. induction Hall as [| c v Hc Hall IH]; simpl.
  - exact Hk.
  - rewrite Hc, IH. reflexivity.
Qed.

(** A value in the sense of the pattern: characters other than [&] and
    white space. *)
Definition value_chars (v : list ascii) : Prop :=
  Forall (fun c => Logger.not_amp_space c = true) v.

(** On [password=VALUE] the first three branches of [key] fail and the
    fourth takes the [=] into the key. *)
Lemma match_password (v : list ascii) :
  v <> [] -> value_chars v ->
  Logger.match_at Logger.FILTER_SECRETS (Logger.chars "password=" ++ v)%list
  = Some ([("secret", v); ("key", Logger.chars "password=")], []).
Proof.
  intros Hne Hall. destruct v as [| c v]; [contradiction |].
  inversion Hall as [| ? ? Hc Hv]; subst.
  unfold Logger.match_at, Logger.FILTER_SECRETS. simpl.
  rewrite Hc. erewrite star_greedy_all; [| exact Hv | reflexivity].
  simpl. rewrite firstn_all.
  replace (S (S (S (S (S (S (S (S (S (length v))))))))) - length v)%nat
    with 9%nat by lia.
  reflexivity.
Qed.

(** On [token=VALUE], [auth=VALUE] and [secret=VALUE] the key stops before
    the [=], which becomes the first character of the secret. *)
Lemma match_token (v : list ascii) :
  value_chars v ->
  Logger.match_at Logger.FILTER_SECRETS (Logger.chars "token=" ++ v)%list
  = Some ([("secret", ("="%char :: v)); ("key", Logger.chars "token")], []).
Proof.
  intros Hv. unfold Logger.match_at, Logger.FILTER_SECRETS. simpl.
  erewrite star_greedy_all; [| exact Hv | reflexivity].
  simpl. rewrite firstn_all.
  replace (S (S (S (S (S (length v))))) - length v)%nat with 5%nat by lia.
  reflexivity.
Qed.

Lemma match_auth (v : list ascii) :
  value_chars v ->
  Logger.match_at Logger.FILTER_SECRETS (Logger.chars "auth=" ++ v)%list
  = Some ([("secret", ("="%char :: v)); ("key", Logger.chars "auth")], []).
Proof.
  intros Hv. unfold Logger.match_at, Logger.FILTER_SECRETS. simpl.
  erewrite star_greedy_all; [| exact Hv | reflexivity].
  simpl. rewrite firstn_all.
  replace (S (S (S (S (length v)))) - length v)%nat with 4%nat by lia.
  reflexivity.
Qed.

Lemma match_secret (v : list ascii) :
  value_chars v ->
  Logger.match_at Logger.FILTER_SECRETS (Logger.chars "secret=" ++ v)%list
  = Some ([("secret", ("="%char :: v)); ("key", Logger.chars "secret")], []).
Proof.
  intros Hv. unfold Logger.match_at, Logger.FILTER_SECRETS. simpl.
  erewrite star_greedy_all; [| exact Hv | reflexivity].
  simpl. rewrite firstn_all.
  replace (S (S (S (S (S (S (length v)))))) - length v)%nat with 6%nat by lia.
  reflexivity.
Qed.

Lemma app_cons_not_nil' (c : ascii) (l v : list ascii) : ((c :: l) ++ v)%list <> [].
Proof. discriminate. Qed.

(** One match that runs to the end of the data. *)
Lemma sub_single_match (s key secret : list ascii) :
  s <> [] ->
  Logger.match_at Logger.FILTER_SECRETS s
  = Some ([("secret", secret); ("key", key)], []) ->
  Logger.scrub_chars s = (key ++ Logger.chars "=secret")%list.
Proof.
  intros Hne Hmatch. unfold Logger.scrub_chars, Logger.sub.
  cbn [Logger.sub_go]. rewrite Hmatch.
  destruct s as [| c s]; [contradiction |].
  simpl. rewrite !app_nil_r. reflexivity.
Qed.

(** For the keys [token], [auth] and [secret] the pair comes out as
    [key=secret]. *)
Lemma scrub_plain_keys (v : string) :
  value_chars (Logger.chars v) ->
  Logger.scrub ("token=" +:+ v) = "token=secret"
  /\ Logger.scrub ("auth=" +:+ v) = "auth=secret"
  /\ Logger.scrub ("secret=" +:+ v) = "secret=secret".
Proof.
  intros Hv. unfold Logger.scrub. repeat split.
  - exact (f_equal string_of_list_ascii
             (sub_single_match _ _ _ (app_cons_not_nil' _ _ _) (match_token _ Hv))).
  - exact (f_equal string_of_list_ascii
             (sub_single_match _ _ _ (app_cons_not_nil' _ _ _) (match_auth _ Hv))).
  - exact (f_equal string_of_list_ascii
             (sub_single_match _ _ _ (app_cons_not_nil' _ _ _) (match_secret _ Hv))).
Qed.

(** C7 on the code: for the key [password] the pair [password=VALUE] comes
    out as [password==secret], for every non-empty value: the [=] that only
    the fourth branch of [key] consumes is written a second time by the
    replacement, so the value of the pair becomes [=secret] instead of
    [secret]. *)
Theorem scrub_password_pair (v : string) :
  v <> "" -> value_chars (Logger.chars v) ->
  Logger.scrub ("password=" +:+ v) = "password==secret".
Proof.
  intros Hne Hv. unfold Logger.scrub.
  assert (Hne' : Logger.chars v <> []).
  { destruct v; [contradiction | discriminate]. }
  exact (f_equal string_of_list_ascii
           (sub_single_match _ _ _ (app_cons_not_nil' _ _ _)
              (match_password _ Hne' Hv))).
Qed.

(** A pair that has been scrubbed once is left as it is by a second pass,
    whichever of the four keys it has. *)
Lemma scrub_pair_stable :
  Logger.scrub "token=secret" = "token=secret"
  /\ Logger.scrub "auth=secret" = "auth=secret"
  /\ Logger.scrub "secret=secret" = "secret=secret"
  /\ Logger.scrub "password==secret" = "password==secret".
Proof. vm_compute. repeat split. Qed.

End Redaction.

Lemma scrub_password_pair_witness :
  Logger.scrub "password=hunter2" = "password==secret".
Proof.
  apply (scrub_password_pair "hunter2").
  - discriminate.
  - unfold value_chars. vm_compute. repeat constructor.
Defined.

(** Inside a query string the neighbours are scrubbed as intended and the
    password pair is not. *)
Example scrub_query_string :
  Logger.scrub "/login?token=abc&password=hunter2&next=/"
  = "/login?token=secret&password==secret&next=/".
Proof. vm_compute. reflexivity. Qed.

(** C10 on the code: scrubbing the output of [scrub] once more changes it.
    The first pass finds the key [token] in [passwordtoken!x] and writes
    [passwordtoken=secret]; the [=] it writes lets the fourth branch of
    [key] match in the second pass, which writes [passwordtoken==secret]. *)
Theorem scrub_not_idempotent :
  Logger.scrub "passwordtoken!x" = "passwordtoken=secret"
  /\ Logger.scrub (Logger.scrub "passwordtoken!x") = "passwordtoken==secret"
  /\ Logger.scrub (Logger.scrub "passwordtoken!x") <> Logger.scrub "passwordtoken!x".
Proof. vm_compute. repeat split. discriminate. Qed.


(** ** How scrub treats separators *)

(** [avoids c r]: no literal of [r] contains [c] and no class of [r]
    accepts it. *)
Fixpoint avoids (c : ascii) (r : Logger.regex) : Prop :=
  match r with
  | Logger.Lit l => ~ In c l
  | Logger.ClassStar p | Logger.ClassPlus p => p c = false
  | Logger.Seq r1 r2 | Logger.Alt r1 r2 => avoids c r1 /\ avoids c r2
  | Logger.Group _ r1 => avoids c r1
  end.

Section Separators.

Lemma star_greedy_ext {R} (p : ascii -> bool) (s : list ascii)
    (k1 k2 : list ascii -> option R) :
  (forall s', k1 s' = k2 s') ->
  Logger.star_greedy p s k1 = Logger.star_greedy p s k2.
Proof.
  intros Hk. induction s as [| c s IH]; simpl; [apply Hk |].
  rewrite IH, Hk. reflexivity.
Qed.

Lemma rmatch_ext {R} (r : Logger.regex) :
  forall (s : list ascii) (caps : Logger.captures)
         (k1 k2 : list ascii -> Logger.captures -> option R),
    (forall s' caps', k1 s' caps' = k2 s' caps') ->
    Logger.rmatch r s caps k1 = Logger.rmatch r s caps k2.
Proof.
  induction r as [l | p | p | r1 IH1 r2 IH2 | r1 IH1 r2 IH2 | name r1 IH1];
    intros s caps k1 k2 Hk; simpl.
  - destruct (Logger.strip_prefix l s); [apply Hk | reflexivity].
  - apply star_greedy_ext. intros s'. apply Hk.
  - destruct s as [| c s]; [reflexivity |].
    destruct (p c); [| reflexivity].
    apply star_greedy_ext. intros s'. apply Hk.
  - apply IH1. intros s' caps'. apply IH2, Hk.
  - rewrite (IH1 s caps k1 k2 Hk), (IH2 s caps k1 k2 Hk). reflexivity.
  - apply IH1. intros s' caps'. apply Hk.
Qed.

Lemma star_greedy_map {R S} (f : R -> S) (p : ascii -> bool) (s : list ascii)
    (k : list ascii -> option R) :
  Logger.star_greedy p s (fun s' => f <$> k s') = f <$> Logger.star_greedy p s k.
Proof.
  induction s as [| b s IH]; simpl; [reflexivity |].
  destruct (p b); [| reflexivity]. rewrite IH.
  destruct (Logger.star_greedy p s k); reflexivity.
Qed.

(** Post-processing the result of the continuation post-processes the
    result of the match. *)
Lemma rmatch_map {R S} (f : R -> S) (r : Logger.regex) :
  forall (s : list ascii) (caps : Logger.captures)
         (k : list ascii -> Logger.captures -> option R),
    Logger.rmatch r s caps (fun s' caps' => f <$> k s' caps')
    = f <$> Logger.rmatch r s caps k.
Proof.
  induction r as [l | p | p | r1 IH1 r2 IH2 | r1 IH1 r2 IH2 | name r1 IH1];
    intros s caps k; simpl.
  - destruct (Logger.strip_prefix l s); reflexivity.
  - apply (star_greedy_map f p s (fun s' => k s' caps)).
  - destruct s as [| b s]; [reflexivity |].
    destruct (p b); [| reflexivity].
    apply (star_greedy_map f p s (fun s' => k s' caps)).
  - rewrite <- IH1. apply rmatch_ext. intros s' caps'. apply IH2.
  - rewrite IH1, IH2. destruct (Logger.rmatch r1 s caps k); reflexivity.
  - apply (IH1 s caps
             (fun s' caps' =>
                k s' ((name, take (length s - length s') s) :: caps'))).
Qed.

Variable c : ascii.
Variable t : list ascii.

Lemma strip_prefix_separator (l : list ascii) :
  ~ In c l ->
  forall s,
    Logger.strip_prefix l (s ++ c :: t)
    = (fun s' => s' ++ c :: t)%list <$> Logger.strip_prefix l s.
Proof.
  induction l as [| a l IH]; intros Hl s; simpl; [reflexivity |].
  destruct s as [| b s]; simpl.
  - destruct (Ascii.eqb_spec a c) as [-> | Hne]; [| reflexivity].
    exfalso. apply Hl. left. reflexivity.
  - destruct (Ascii.eqb a b); [| reflexivity].
    apply IH. intros Hin. apply Hl. right. exact Hin.
Qed.

Lemma star_greedy_separator {R} (p : ascii -> bool) (k : list ascii -> option R) :
  p c = false ->
  forall s,
    Logger.star_greedy p (s ++ c :: t) k
    = Logger.star_greedy p s (fun s' => k (s' ++ c :: t)%list).
Proof.
  intros Hc s. induction s as [| b s IH]; simpl.
  - rewrite Hc. reflexivity.
  - rewrite IH. reflexivity.
Qed.

Lemma capture_separator (s s' : list ascii) :
  take (length (s ++ c :: t) - length (s' ++ c :: t)) (s ++ c :: t)
  = take (length s - length s') s.
Proof.
  rewrite !length_app.
  replace (length s + length (c :: t) - (length s' + length (c :: t)))%nat
    with (length s - length s')%nat by lia.
  apply take_app_le. lia.
Qed.

(** A match over data that continues with such a character is the match
    over the data before it. *)
Lemma rmatch_separator {R} (r : Logger.regex) :
  avoids c r ->
  forall (s : list ascii) (caps : Logger.captures)
         (k : list ascii -> Logger.captures -> option R),
    Logger.rmatch r (s ++ c :: t) caps k
    = Logger.rmatch r s caps (fun s' caps' => k (s' ++ c :: t)%list caps').
Proof.
  induction r as [l | p | p | r1 IH1 r2 IH2 | r1 IH1 r2 IH2 | name r1 IH1];
    simpl; intros Hr s caps k.
  - rewrite (strip_prefix_separator l Hr).
    destruct (Logger.strip_prefix l s); reflexivity.
  - apply star_greedy_separator, Hr.
  - destruct s as [| b s]; simpl.
    + rewrite Hr. reflexivity.
    + destruct (p b); [| reflexivity]. apply star_greedy_separator, Hr.
  - destruct Hr as [Hr1 Hr2]. rewrite (IH1 Hr1).
    apply rmatch_ext. intros s' caps'. apply (IH2 Hr2).
  - destruct Hr as [Hr1 Hr2]. rewrite (IH1 Hr1), (IH2 Hr2). reflexivity.
  - rewrite (IH1 Hr). apply rmatch_ext. intros s' caps'.
    rewrite capture_separator. reflexivity.
Qed.

Lemma match_at_separator (r : Logger.regex) (s : list ascii) :
  avoids c r ->
  Logger.match_at r (s ++ c :: t)
  = (fun m => (fst m, (snd m ++ c :: t)%list)) <$> Logger.match_at r s.
Proof.
  intros Hr. unfold Logger.match_at. rewrite (rmatch_separator r Hr).
  rewrite <- rmatch_map. apply rmatch_ext. reflexivity.
Qed.

End Separators.

Section Substitution.

Variable r : Logger.regex.
Variable repl : list Logger.template_item.

(** More fuel than there are characters is as good as any other such
    amount. *)
Lemma sub_go_fuel (n : nat) :
  forall (m : nat) (s : list ascii),
    (length s < n)%nat -> (length s < m)%nat ->
    Logger.sub_go n r repl s = Logger.sub_go m r repl s.
Proof.
  induction n as [| n IH]; intros m s Hn Hm; [lia |].
  destruct m as [| m]; [lia |]. simpl.
  destruct (Logger.match_at r s) as [[caps rest] |].
  - destruct (Nat.ltb_spec (length rest) (length s)).
    + rewrite (IH m rest) by lia. reflexivity.
    + destruct s as [| b s]; [reflexivity |]. simpl in *.
      rewrite (IH m s) by lia. reflexivity.
  - destruct s as [| b s]; [reflexivity |]. simpl in *.
    rewrite (IH m s) by lia. reflexivity.
Qed.

Lemma sub_go_sub (n : nat) (s : list ascii) :
  (length s < n)%nat -> Logger.sub_go n r repl s = Logger.sub r repl s.
Proof. intros Hn. apply sub_go_fuel; [exact Hn | lia]. Qed.

(** Substitution works on either side of a character that the pattern
    avoids, and copies that character. *)
Lemma sub_separator (c : ascii) (t : list ascii) :
  avoids c r ->
  forall s,
    Logger.sub r repl (s ++ c :: t)
    = (Logger.sub r repl s ++ c :: Logger.sub r repl t)%list.
Proof.
  intros Hr.
  assert (Hgo : forall n s,
    (length (s ++ c :: t) < n)%nat ->
    Logger.sub_go n r repl (s ++ c :: t)
    = (Logger.sub r repl s ++ c :: Logger.sub r repl t)%list).
  { induction n as [| n IH]; intros s Hn; [lia |].
    rewrite length_app in Hn. simpl in Hn.
    rewrite <- (sub_go_sub (S n) s) by lia.
    cbn [Logger.sub_go]. rewrite (match_at_separator c t r s Hr).
    destruct (Logger.match_at r s) as [[caps rest] |]; simpl.
    - rewrite length_app, (length_app s). simpl.
      destruct (Nat.ltb_spec (length rest) (length s)) as [Hlt | Hge].
      + assert (Hlt' : (length rest + S (length t) <? length s + S (length t))%nat = true)
          by (apply Nat.ltb_lt; lia).
        rewrite Hlt'. rewrite IH by (rewrite length_app; simpl; lia).
        rewrite (sub_go_sub n rest) by lia. rewrite <- app_assoc. reflexivity.
      + assert (Hge' : (length rest + S (length t) <? length s + S (length t))%nat = false)
          by (apply Nat.ltb_ge; lia).
        rewrite Hge'. destruct s as [| b s]; simpl.
        * rewrite (sub_go_sub n t) by lia. reflexivity.
        * simpl in Hn. rewrite IH by (rewrite length_app; simpl; lia).
          rewrite (sub_go_sub n s) by lia.
          rewrite <- app_assoc. reflexivity.
    - destruct s as [| b s]; simpl.
      + rewrite (sub_go_sub n t) by lia. reflexivity.
      + simpl in Hn. rewrite IH by (rewrite length_app; simpl; lia).
        rewrite (sub_go_sub n s) by lia. reflexivity. }
  intros s. unfold Logger.sub at 1. apply Hgo. lia.
Qed.

End Substitution.

Section ScrubStructure.

(** The characters that end a secret: [&] and white space. *)
Definition separator (c : ascii) : Prop := Logger.not_amp_space c = false.

Lemma separator_avoided (c : ascii) : separator c -> avoids c Logger.FILTER_SECRETS.
Proof.
  unfold separator.
  destruct c as [[] [] [] [] [] [] [] []]; intros Hc; try discriminate Hc;
    vm_compute; intuition discriminate.
Qed.

Lemma chars_app (a b : string) :
  Logger.chars (a +:+ b) = (Logger.chars a ++ Logger.chars b)%list.
Proof. induction a as [| x a IH]; simpl; [reflexivity | rewrite <- IH; reflexivity]. Qed.

Lemma string_of_chars_app (l1 l2 : list ascii) :
  string_of_list_ascii (l1 ++ l2)
  = string_of_list_ascii l1 +:+ string_of_list_ascii l2.
Proof. induction l1 as [| x l1 IH]; simpl; [reflexivity | rewrite IH; reflexivity]. Qed.

Lemma scrub_chars_separator (c : ascii) (a b : list ascii) :
  separator c ->
  Logger.scrub_chars (a ++ c :: b)
  = (Logger.scrub_chars a ++ c :: Logger.scrub_chars b)%list.
Proof.
  intros Hc. unfold Logger.scrub_chars.
  apply sub_separator, separator_avoided, Hc.
Qed.

Lemma scrub_split (c : ascii) (a b : string) :
  separator c ->
  Logger.scrub (a +:+ String c b) = Logger.scrub a +:+ String c (Logger.scrub b).
Proof.
  intros Hc. unfold Logger.scrub.
  rewrite chars_app. simpl.
  rewrite (scrub_chars_separator c _ _ Hc), string_of_chars_app. reflexivity.
Qed.

(** X15: scrub works field by field. Around an [&] or a white-space
    character the two sides are scrubbed independently and the character
    itself is kept: no match ever runs across it. *)
Theorem scrub_separator (c : ascii) (a b : string) :
  separator c ->
  Logger.scrub (a +:+ String c b) = Logger.scrub a +:+ String c (Logger.scrub b).
Proof. apply scrub_split. Qed.

(** X16: inside a query string, whatever stands before and after it, a
    [token], [auth] or [secret] field delimited by [&] comes out as
    [key=secret], and a [password] field as [password==secret]. *)
Theorem scrub_query_field (a b v : string) :
  v <> "" -> value_chars (Logger.chars v) ->
  Logger.scrub (a +:+ "&token=" +:+ v +:+ "&" +:+ b)
  = Logger.scrub a +:+ "&token=secret&" +:+ Logger.scrub b
  /\ Logger.scrub (a +:+ "&auth=" +:+ v +:+ "&" +:+ b)
     = Logger.scrub a +:+ "&auth=secret&" +:+ Logger.scrub b
  /\ Logger.scrub (a +:+ "&secret=" +:+ v +:+ "&" +:+ b)
     = Logger.scrub a +:+ "&secret=secret&" +:+ Logger.scrub b
  /\ Logger.scrub (a +:+ "&password=" +:+ v +:+ "&" +:+ b)
     = Logger.scrub a +:+ "&password==secret&" +:+ Logger.scrub b.
Proof.
  intros Hne Hv.
  assert (Hamp : separator "&"%char) by reflexivity.
  assert (Hne' : Logger.chars v <> []).
  { destruct v; [contradiction | discriminate]. }
  destruct (scrub_plain_keys v Hv) as (Htoken & Hauth & Hsecret).
  assert (Hpassword : Logger.scrub ("password=" +:+ v) = "password==secret").
  { exact (f_equal string_of_list_ascii
             (sub_single_match _ _ _ (app_cons_not_nil' _ _ _)
                (match_password _ Hne' Hv))). }
  assert (Hfield : forall key out,
    Logger.scrub (key +:+ v) = out ->
    Logger.scrub (a +:+ String "&"%char ((key +:+ v) +:+ String "&"%char b))
    = Logger.scrub a +:+ String "&"%char (out +:+ String "&"%char (Logger.scrub b))).
  { intros key out Hkey.
    rewrite (scrub_split "&"%char a _ Hamp).
    rewrite (scrub_split "&"%char (key +:+ v) b Hamp), Hkey. reflexivity. }
  repeat split.
  - exact (Hfield "token=" _ Htoken).
  - exact (Hfield "auth=" _ Hauth).
  - exact (Hfield "secret=" _ Hsecret).
  - exact (Hfield "password=" _ Hpassword).
Qed.

End ScrubStructure.

Section ScrubUntouched.

(** [l] occurs somewhere in [s]. *)
Definition occurs (l s : list ascii) : Prop := exists a b, s = (a ++ l ++ b)%list.

Lemma occurs_cons (l s : list ascii) (x : ascii) : occurs l s -> occurs l (x :: s).
Proof. intros (a & b & ->). exists (x :: a), b. reflexivity. Qed.

Lemma strip_prefix_some (l s s' : list ascii) :
  Logger.strip_prefix l s = Some s' -> s = (l ++ s')%list.
Proof.
  revert s. induction l as [| a l IH]; intros s; simpl.
  - intros [= ->]. reflexivity.
  - destruct s as [| b s]; [discriminate |].
    destruct (Ascii.eqb_spec a b) as [-> | _]; [| discriminate].
    intros Hs. rewrite (IH s Hs). reflexivity.
Qed.

Lemma star_greedy_some {R} (p : ascii -> bool) (s : list ascii)
    (k : list ascii -> option R) (x : R) :
  Logger.star_greedy p s k = Some x ->
  exists pre s1, s = (pre ++ s1)%list /\ k s1 = Some x.
Proof.
  induction s as [| b s IH]; simpl.
  - intros Hk. exists [], []. split; [reflexivity | exact Hk].
  - destruct (p b).
    + destruct (Logger.star_greedy p s k) as [y |] eqn:Hs.
      * intros [= <-]. destruct (IH eq_refl) as (pre & s1 & -> & Hk).
        exists (b :: pre), s1. split; [reflexivity | exact Hk].
      * intros Hk. exists [], (b :: s). split; [reflexivity | exact Hk].
    + intros Hk. exists [], (b :: s). split; [reflexivity | exact Hk].
Qed.

(** A match of the pattern starts with one of its four key words or, for
    the first branch, has [secret] after some word characters. *)
Lemma match_needs_keyword (s : list ascii) (m : Logger.captures * list ascii) :
  Logger.match_at Logger.FILTER_SECRETS s = Some m ->
  occurs (Logger.chars "secret") s \/ occurs (Logger.chars "token") s
  \/ occurs (Logger.chars "auth") s \/ occurs (Logger.chars "password") s.
Proof.
  unfold Logger.match_at, Logger.FILTER_SECRETS.
  cbn [Logger.rmatch].
  destruct (Logger.star_greedy Logger.is_word s _) as [x |] eqn:H1.
  { intros _. left.
    destruct (star_greedy_some _ _ _ _ H1) as (pre & s1 & -> & Hk).
    destruct (Logger.strip_prefix (Logger.chars "secret") s1) as [s2 |] eqn:Hs;
      [| discriminate].
    rewrite (strip_prefix_some _ _ _ Hs). exists pre, s2. reflexivity. }
  destruct (Logger.strip_prefix (Logger.chars "token") s) as [s2 |] eqn:H2.
  { intros _. right. left. rewrite (strip_prefix_some _ _ _ H2).
    exists [], s2. reflexivity. }
  destruct (Logger.strip_prefix (Logger.chars "auth") s) as [s3 |] eqn:H3.
  { intros _. right. right. left. rewrite (strip_prefix_some _ _ _ H3).
    exists [], s3. reflexivity. }
  destruct (Logger.strip_prefix (Logger.chars "password") s) as [s4 |] eqn:H4;
    [| discriminate].
  intros _. right. right. right. rewrite (strip_prefix_some _ _ _ H4).
  exists [], s4. reflexivity.
Qed.

Lemma scrub_chars_untouched (s : list ascii) :
  ~ occurs (Logger.chars "secret") s -> ~ occurs (Logger.chars "token") s ->
  ~ occurs (Logger.chars "auth") s -> ~ occurs (Logger.chars "password") s ->
  Logger.scrub_chars s = s.
Proof.
  unfold Logger.scrub_chars, Logger.sub.
  generalize (S (length s)). intros n. revert n.
  induction s as [| x s IH]; intros n H1 H2 H3 H4.
  - destruct n; [reflexivity |]. simpl. reflexivity.
  - destruct n; [reflexivity |]. cbn [Logger.sub_go].
    destruct (Logger.match_at Logger.FILTER_SECRETS (x :: s)) as [m |] eqn:Hm.
    + destruct (match_needs_keyword _ _ Hm) as [? | [? | [? | ?]]]; contradiction.
    + rewrite IH; [reflexivity | | | |];
        intros Ho; [apply H1 | apply H2 | apply H3 | apply H4];
        apply occurs_cons, Ho.
Qed.

Lemma prefix_app (k b : string) : String.prefix k (k +:+ b) = true.
Proof.
  induction k as [| x k IH].
  - change ("" +:+ b) with b. destruct b; reflexivity.
  - change (String x k +:+ b) with (String x (k +:+ b)). simpl.
    destruct (ascii_dec x x); [exact IH | contradiction].
Qed.

Lemma contains_prefix (k hay : string) :
  String.prefix k hay = true -> contains k hay = true.
Proof. intros Hp. destruct hay; cbn [contains]; rewrite Hp; reflexivity. Qed.

Lemma contains_app (k a b : string) : contains k (a +:+ k +:+ b) = true.
Proof.
  induction a as [| x a IH].
  - change ("" +:+ k +:+ b) with (k +:+ b). apply contains_prefix, prefix_app.
  - change (String x a +:+ k +:+ b) with (String x (a +:+ k +:+ b)).
    cbn [contains]. rewrite IH. apply orb_true_r.
Qed.

Lemma occurs_contains (k data : string) :
  occurs (Logger.chars k) (Logger.chars data) -> contains k data = true.
Proof.
  intros (a & b & Hs).
  assert (Hdata : data = string_of_list_ascii a +:+ k +:+ string_of_list_ascii b).
  { rewrite <- (string_of_list_ascii_of_string data).
    unfold Logger.chars in Hs. rewrite Hs.
    rewrite !string_of_chars_app, string_of_list_ascii_of_string. reflexivity. }
  rewrite Hdata. apply contains_app.
Qed.

Lemma scrub_no_keyword (data : string) :
  contains "secret" data = false -> contains "token" data = false ->
  contains "auth" data = false -> contains "password" data = false ->
  Logger.scrub data = data.
Proof.
  intros H1 H2 H3 H4. unfold Logger.scrub.
  rewrite scrub_chars_untouched.
  - apply string_of_list_ascii_of_string.
  - intros Ho. apply occurs_contains in Ho. congruence.
  - intros Ho. apply occurs_contains in Ho. congruence.
  - intros Ho. apply occurs_contains in Ho. congruence.
  - intros Ho. apply occurs_contains in Ho. congruence.
Qed.

(** X17: data that contains none of the words secret, token, auth and
    password is returned unchanged. *)
Theorem scrub_untouched (data : string) :
  contains "secret" data = false -> contains "token" data = false ->
  contains "auth" data = false -> contains "password" data = false ->
  Logger.scrub data = data.
Proof. apply scrub_no_keyword. Qed.

(** X18: in a serialised dictionary the value of a sensitive key is not
    redacted. After the key [token] the pattern takes the closing quote and
    the colon for the secret and stops at the space, so what follows, the
    value included, is left as it is; an entry whose key is [password] is
    not matched at all. *)
Theorem scrub_json_entry (rest : string) :
  contains "secret" rest = false -> contains "token" rest = false ->
  contains "auth" rest = false -> contains "password" rest = false ->
  Logger.scrub (DQ +:+ "token" +:+ DQ +:+ ": " +:+ rest)
  = DQ +:+ "token=secret " +:+ rest
  /\ Logger.scrub (DQ +:+ "password" +:+ DQ +:+ ": " +:+ rest)
     = DQ +:+ "password" +:+ DQ +:+ ": " +:+ rest.
Proof.
  intros H1 H2 H3 H4.
  assert (Hspace : separator " "%char) by reflexivity.
  pose proof (scrub_no_keyword rest H1 H2 H3 H4) as Hrest.
  split.
  - change (DQ +:+ "token" +:+ DQ +:+ ": " +:+ rest)
      with ((DQ +:+ "token" +:+ DQ +:+ ":") +:+ String " "%char rest).
    rewrite (scrub_split " "%char _ rest Hspace), Hrest. reflexivity.
  - change (DQ +:+ "password" +:+ DQ +:+ ": " +:+ rest)
      with ((DQ +:+ "password" +:+ DQ +:+ ":") +:+ String " "%char rest).
    rewrite (scrub_split " "%char _ rest Hspace), Hrest. reflexivity.
Qed.

End ScrubUntouched.

(** * Further properties of the handler *)

Section HookTotality.
Context `{Externals}.


(** X2: when the reporting service itself raises, the hook writes a second
    traceback record for that failure, leaves the stored token as it was and
    still hands the original exception to the framework's [log_exception],
    whose records come last. *)
Theorem log_exception_report_failure (value failure : exception)
    (h : Handler) (w : World) :
  other_exception value ->
  RequestHandler.token_configured h = true ->
  RequestHandler.client_http_error value = false ->
  (forall payload, report_exc_info value payload = Raise failure) ->
  records (world_of (RequestHandler.log_exception value h w))
  = (records w ++ [Logger.traceback_record value ∅;
                   Logger.traceback_record failure ∅]
     ++ RequestHandler.base_log_records value (request h))%list
  /\ _rollbar_token (handler_of (RequestHandler.log_exception value h w))
     = _rollbar_token h
  /\ base_log_exception (world_of (RequestHandler.log_exception value h w))
     = (base_log_exception w ++ [value])%list.
Proof.
  intros Hother Hconf Hclient Hfail.
  rewrite (log_exception_other value h w Hother), Hconf, Hclient.
  cbn [negb andb].
  assert (Hwants : RequestHandler.wants_traceback value = true).
  { destruct value; try reflexivity; simpl in *.
    destruct (Z.ltb_spec status_code 500); [discriminate |].
    apply Z.leb_le. lia. }
  rewrite Hwants.
  destruct (report_outcome value h (emit (Logger.traceback_record value ∅) w))
    as (i & h1 & w1 & Hid & Hreport).
  cbv zeta in Hreport. rewrite Hfail in Hreport. rewrite Hreport.
  unfold world_of, handler_of. cbn [fst snd].
  match goal with
  | |- context [base_logged value (request h) ?w0] =>
      destruct (base_logged_records value (request h) w0) as (-> & _ & ->)
  end.
  unfold RequestHandler.id in Hid.
  destruct (_id h); injection Hid as <- <- <-; simpl;
    rewrite <- !app_assoc; repeat split.
Qed.

End HookTotality.

(** ** Error responses *)

(** The status [write_error] applies: 400 for a validation error, the
    status it was called with otherwise. *)
Definition applied_status (status_code : Z) (exc_info : option exception) : Z :=
  match exc_info with
  | Some (ValidationError _ _) => 400
  | _ => status_code
  end.

Section ErrorResponses.
Context `{Externals}.

Ltac error_data_cases exc_info h :=
  unfold RequestHandler.error_data, bind, get, RequestHandler.save_traceback,
    RequestHandler.set_status, RequestHandler.set_header, modify, ret;
  destruct exc_info as [[arg_name | message context | text | code msg | code msg | cls text] |];
  simpl; try destruct (code =? 401); simpl;
  destruct (_rollbar_token h) as [[token |] |]; simpl;
  try destruct (String.eqb token ""); simpl.

(** Building the error dictionary always succeeds, touches neither the
    world nor the parts of the handler that [finish] reads, and leaves the
    applied status. *)
Lemma error_data_returns (status_code : Z) (reason : option string)
    (exc_info : option exception) (h : Handler) (w : World) :
  exists data h1,
    RequestHandler.error_data status_code reason exc_info h w = (Ok data, h1, w)
    /\ _status_code h1 = applied_status status_code exc_info
    /\ _reason h1 = responses (applied_status status_code exc_info)
    /\ _finished h1 = _finished h
    /\ _headers_written h1 = _headers_written h
    /\ _write_buffer h1 = _write_buffer h
    /\ connection h1 = connection h
    /\ RequestHandler.export h1 = RequestHandler.export h
    /\ _id h1 = _id h
    /\ request h1 = request h
    /\ log_function h1 = log_function h
    /\ current_user h1 = current_user h.
Proof.
  error_data_cases exc_info h; eexists; eexists; repeat split.
Qed.

Lemma serialisable_strings (l : list string) :
  json_serialisable (VList (VStr <$> l)) = true.
Proof. simpl. induction l as [| s l IH]; [reflexivity | exact IH]. Qed.

Lemma serialisable_kwarg (v : option string) :
  json_serialisable (value_of_kwarg v) = true.
Proof. destruct v; reflexivity. Qed.

(** [json] serialises every error dictionary. *)
Lemma error_data_serialisable (status_code : Z) (reason : option string)
    (exc_info : option exception) (h h1 : Handler) (w : World)
    (data : gmap string value) :
  RequestHandler.error_data status_code reason exc_info h w = (Ok data, h1, w) ->
  map_Forall (fun _ x => json_serialisable x = true) data.
Proof.
  pose proof serialisable_strings. pose proof serialisable_kwarg.
  revert h1 data. error_data_cases exc_info h; intros h1 data [= <- _];
    repeat (apply map_Forall_insert_2; [solve [auto] |]);
    apply map_Forall_empty.
Qed.

(** The body of an error response when the dictionary itself is sent. *)
Definition error_body (data : gmap string value) (status : Z) (i : string)
  : gmap string value :=
  <["meta" := VDict (<["request" := VStr i]> {["status" := VInt status]})]>
    {["error" := VDict data]}.

Lemma error_body_serialisable (data : gmap string value) (status : Z) (i : string) :
  map_Forall (fun _ x => json_serialisable x = true) data ->
  json_serialisable (VDict (error_body data status i)) = true.
Proof.
  intros Hdata. apply serialisable_dict. unfold error_body.
  apply map_Forall_insert_2.
  - apply serialisable_dict.
    repeat (apply map_Forall_insert_2; [reflexivity |]). apply map_Forall_empty.
  - apply map_Forall_singleton. apply serialisable_dict. exact Hdata.
Qed.

(** In the JSON format, [write_error] ends in the framework's [finish] of
    the error body, with the applied status already set. *)
Lemma write_error_json (status_code : Z) (reason : option string)
    (exc_info : option exception) (h : Handler) (w : World) :
  RequestHandler.export h <> "txt" -> RequestHandler.export h <> "html" ->
  exists data h1 i,
    RequestHandler.error_data status_code reason exc_info h w = (Ok data, h1, w)
    /\ result_of (RequestHandler.id h w) = Ok i
    /\ RequestHandler.write_error status_code reason exc_info h w
       = bind (RequestHandler.base_finish
                 (VDict (error_body data (RequestHandler.status_or_200 h1) i)))
           (fun _ => ret tt)
           (set__status (RequestHandler.status_or_200 h1)
              (responses (RequestHandler.status_or_200 h1))
              (handler_of (RequestHandler.id h1 w)))
           (world_of (RequestHandler.id h1 w)).
Proof.
  intros Htxt Hhtml.
  destruct (error_data_returns status_code reason exc_info h w)
    as (data & h1 & Hdata & Hstatus & _ & _ & _ & _ & _ & Hexp1 & Hid1 & Hreq1 & _).
  destruct (id_returns h1 w) as [i Hi].
  exists data, h1, i. split; [exact Hdata |]. split.
  { unfold RequestHandler.id, result_of in *. rewrite Hid1, Hreq1 in Hi.
    destruct (_id h); simpl in *; exact Hi. }
  unfold RequestHandler.write_error, bind at 1. rewrite Hdata.
  unfold bind at 1.
  rewrite (finish_dict_json VDict {["error" := VDict data]} ∅
             (RequestHandler.status_or_200 h1) h1 w i).
  - unfold injected, error_body, setdefault. rewrite lookup_empty.
    rewrite insert_empty. unfold bind.
    destruct (RequestHandler.base_finish _ _ _) as [[[a | e] h2] w2]; reflexivity.
  - left. reflexivity.
  - rewrite lookup_singleton_ne by discriminate. reflexivity.
  - rewrite lookup_empty. reflexivity.
  - exact Hi.
  - rewrite Hexp1. exact Htxt.
  - rewrite Hexp1. exact Hhtml.
Qed.

(** The status that goes out: the applied one, 200 standing in for 0. *)
Definition sent_status (status_code : Z) (exc_info : option exception) : Z :=
  if applied_status status_code exc_info =? 0 then 200
  else applied_status status_code exc_info.

(** On a response on which nothing has been written, at a status that
    allows a body, the error body goes out as JSON under the applied
    status, and the response is finished. *)
Lemma write_error_delivers (status_code : Z) (reason : option string)
    (exc_info : option exception) (h : Handler) (w : World) :
  RequestHandler.export h <> "txt" -> RequestHandler.export h <> "html" ->
  fresh_response h -> logs h ->
  RequestHandler.bodiless (sent_status status_code exc_info) = false ->
  (sent_status status_code exc_info = 200 -> unconditional h) ->
  exists data h1 i hs h' w',
    RequestHandler.error_data status_code reason exc_info h w = (Ok data, h1, w)
    /\ result_of (RequestHandler.id h w) = Ok i
    /\ RequestHandler.write_error status_code reason exc_info h w = (Ok tt, h', w')
    /\ _status_code h' = sent_status status_code exc_info
    /\ _reason h' = responses (sent_status status_code exc_info)
    /\ _finished h' = true
    /\ connection h'
       = (connection h
          ++ [Response (sent_status status_code exc_info)
                (responses (sent_status status_code exc_info)) hs
                (if RequestHandler.is_HEAD h then ""
                 else escape_slash
                        (dumps false None
                           (VDict (error_body data
                                     (sent_status status_code exc_info) i))))])%list
    /\ hs !! "Content-Type" = Some "application/json; charset=UTF-8".
Proof.
  intros Htxt Hhtml (Hfin & Hwritten & Hbuffer) Hlogs Hbody Hcond.
  destruct (write_error_json status_code reason exc_info h w Htxt Hhtml)
    as (data & h1 & i & Hdata & Hi & Hout).
  destruct (error_data_returns status_code reason exc_info h w)
    as (data' & h1' & Hdata' & Hstatus & _ & Hfin1 & Hwritten1 & Hbuffer1 & Hconn1
        & _ & Hid1 & Hreq1 & Hlog1 & Huser1).
  rewrite Hdata in Hdata'. injection Hdata' as <- <-.
  assert (Hsent : RequestHandler.status_or_200 h1 = sent_status status_code exc_info).
  { unfold RequestHandler.status_or_200, sent_status. rewrite Hstatus. reflexivity. }
  rewrite Hsent in Hout.
  set (sent := sent_status status_code exc_info) in *.
  set (h2 := set__status sent (responses sent) (handler_of (RequestHandler.id h1 w)))
    in *.
  destruct (id_keeps h1 w) as [Hkeep _].
  assert (Hfields : _finished h2 = false /\ _headers_written h2 = false
                    /\ _write_buffer h2 = [] /\ connection h2 = connection h
                    /\ RequestHandler.is_HEAD h2 = RequestHandler.is_HEAD h
                    /\ logs h2 /\ (sent = 200 -> unconditional h2)).
  { subst h2. rewrite Hkeep.
    unfold logs, unconditional, RequestHandler.is_HEAD, RequestHandler.user_or_none
      in *.
    fields. rewrite Hfin1, Hwritten1, Hbuffer1, Hconn1, Hreq1, Hlog1, Huser1.
    auto 10. }
  destruct Hfields as (Hfin2 & Hwritten2 & Hbuffer2 & Hconn2 & Hhead2 & Hlogs2 & Hcond2).
  pose proof (error_body_serialisable data sent i
                (error_data_serialisable _ _ _ _ _ _ _ Hdata)) as Hjson.
  destruct (base_finish_dict (error_body data sent i) h2
              (world_of (RequestHandler.id h1 w)) Hfin2 Hwritten2 Hcond2 Hbody
              Hlogs2 Hjson)
    as (h' & w' & Hfinish & Hh' & _).
  exists data, h1, i. eexists. exists h', w'.
  split; [exact Hdata |]. split; [exact Hi |].
  split; [rewrite Hout; unfold bind; rewrite Hfinish; reflexivity |].
  rewrite Hh'. unfold delivered, body_on_wire. fields.
  split; [reflexivity |]. split; [reflexivity |]. split; [reflexivity |].
  split.
  - rewrite Hconn2, Hbuffer2.
    change (RequestHandler.is_HEAD (set__write_buffer _ _))
      with (RequestHandler.is_HEAD h2).
    rewrite Hhead2. simpl. reflexivity.
  - rewrite completed_headers_other by discriminate. fields.
    apply lookup_insert_eq.
Qed.

End ErrorResponses.

Section ErrorResponseProperties.
Context `{Externals}.

(** A header that the framework does not manage is, after [write_error],
    what [error_data] left. *)
Lemma write_error_header (name : string) (status_code : Z) (reason : option string)
    (exc_info : option exception) (h h1 : Handler) (w : World)
    (data : gmap string value) :
  ~ In name response_header_names ->
  RequestHandler.error_data status_code reason exc_info h w = (Ok data, h1, w) ->
  _headers (handler_of (RequestHandler.write_error status_code reason exc_info h w))
    !! name
  = _headers h1 !! name.
Proof.
  intros Hname Hdata.
  unfold RequestHandler.write_error, bind at 1. rewrite Hdata.
  pose proof (finish_keeps_header name (VDict {["error" := VDict data]}) h1 w Hname)
    as Hkeep.
  unfold bind.
  destruct (RequestHandler.finish (VDict {["error" := VDict data]}) h1 w)
    as [[[a | e] h2] w2]; exact Hkeep.
Qed.

(** X3: a validation error is always answered with status 400, whatever
    status [write_error] is called with; the payload lists the failing
    fields in [for_human] and [context] and carries the validator's message
    in [for_robot]. In the JSON format, on a response on which nothing has
    been written and with a request log that returns, that payload goes out
    as the JSON body of a 400 response (no body for a HEAD request), which
    is then finished. *)
Theorem write_error_validation (status_code : Z) (reason : option string)
    (message : string) (context : list string) (h : Handler) (w : World) :
  RequestHandler.export h <> "txt" -> RequestHandler.export h <> "html" ->
  fresh_response h -> logs h ->
  let out := RequestHandler.write_error status_code reason
               (Some (ValidationError message context)) h w in
  exists data i hs,
    result_of (RequestHandler.id h w) = Ok i
    /\ result_of out = Ok tt
    /\ _status_code (handler_of out) = 400
    /\ _finished (handler_of out) = true
    /\ connection (handler_of out)
       = (connection h
          ++ [Response 400 (responses 400) hs
                (if RequestHandler.is_HEAD h then ""
                 else escape_slash
                        (dumps false None (VDict (error_body data 400 i))))])%list
    /\ hs !! "Content-Type" = Some "application/json; charset=UTF-8"
    /\ data !! "for_human"
       = Some (VStr ("Please review the following fields: "
                     +:+ String.concat ", " context))
    /\ data !! "context" = Some (VList (VStr <$> context))
    /\ data !! "for_robot" = Some (VStr message).
Proof.
  intros Htxt Hhtml Hfresh Hlogs out. subst out.
  destruct (write_error_delivers status_code reason
              (Some (ValidationError message context)) h w Htxt Hhtml Hfresh Hlogs
              eq_refl)
    as (data & h1 & i & hs & h' & w' & Hdata & Hi & Hout & Hstatus & _ & Hfin
        & Hconn & Htype).
  { discriminate. }
  exists data, i, hs. rewrite Hout. unfold result_of, handler_of. cbn [fst snd].
  split; [exact Hi |]. split; [reflexivity |]. split; [exact Hstatus |].
  split; [exact Hfin |]. split; [exact Hconn |]. split; [exact Htype |].
  clear Hout. revert Hdata.
  unfold RequestHandler.error_data, bind, get, RequestHandler.save_traceback,
    RequestHandler.set_status, RequestHandler.set_header, modify, ret. simpl.
  destruct (_rollbar_token h) as [[token |] |]; simpl;
    try destruct (String.eqb token ""); simpl;
    intros [= <- _];
    repeat (rewrite lookup_insert_eq || (rewrite lookup_insert_ne by discriminate));
    repeat split.
Qed.

(** X4: the status [write_error] sets before it hands the error body to the
    framework's [finish], the reason phrase that goes with it and the
    [meta.status] of that body are the status [write_error] was called
    with, 400 for a validation error, and 200 for a status of 0. When that
    status allows a body (it is not 204, 304 or 1xx; and, for 200, the
    request carries no If-None-Match), nothing has been written yet and the
    request log returns, it is the status of the response that goes out,
    and the response is finished. *)
Theorem write_error_status (status_code : Z) (reason : option string)
    (exc_info : option exception) (h : Handler) (w : World) :
  RequestHandler.export h <> "txt" -> RequestHandler.export h <> "html" ->
  let sent := sent_status status_code exc_info in
  let out := RequestHandler.write_error status_code reason exc_info h w in
  (exists data i h2 w2,
     out = bind (RequestHandler.base_finish (VDict (error_body data sent i)))
             (fun _ => ret tt) h2 w2
     /\ _status_code h2 = sent
     /\ _reason h2 = responses sent)
  /\ (fresh_response h -> logs h ->
      RequestHandler.bodiless sent = false -> (sent = 200 -> unconditional h) ->
      exists hs body,
        result_of out = Ok tt
        /\ _status_code (handler_of out) = sent
        /\ _reason (handler_of out) = responses sent
        /\ _finished (handler_of out) = true
        /\ connection (handler_of out)
           = (connection h ++ [Response sent (responses sent) hs body])%list).
Proof.
  intros Htxt Hhtml sent out. subst out. split.
  - destruct (write_error_json status_code reason exc_info h w Htxt Hhtml)
      as (data & h1 & i & Hdata & Hi & Hout).
    destruct (error_data_returns status_code reason exc_info h w)
      as (data' & h1' & Hdata' & Hstatus & _).
    rewrite Hdata in Hdata'. injection Hdata' as <- <-.
    assert (Hsent : RequestHandler.status_or_200 h1 = sent).
    { unfold RequestHandler.status_or_200, sent, sent_status. rewrite Hstatus.
      reflexivity. }
    rewrite Hsent in Hout.
    exists data, i. eexists. eexists. split; [exact Hout |]. split; reflexivity.
  - intros Hfresh Hlogs Hbody Hcond.
    destruct (write_error_delivers status_code reason exc_info h w Htxt Hhtml
                Hfresh Hlogs Hbody Hcond)
      as (data & h1 & i & hs & h' & w' & _ & _ & Hout & Hstatus & Hreason & Hfin
          & Hconn & _).
    exists hs. eexists. rewrite Hout. unfold result_of, handler_of. cbn [fst snd].
    split; [reflexivity |]. split; [exact Hstatus |]. split; [exact Hreason |].
    split; [exact Hfin |]. exact Hconn.
Qed.

(** X5: the WWW-Authenticate challenge is added exactly when the exception
    is an HTTP error whose own status is 401; the status [write_error] is
    called with plays no part, and no other exception touches the header. *)
Theorem write_error_challenge (status_code : Z) (reason : option string)
    (exc_info : option exception) (h : Handler) (w : World) :
  let challenged :=
    match exc_info with
    | Some (HTTPError code _) | Some (HTTPErrorSubclass code _) => code =? 401
    | _ => false
    end in
  _headers (handler_of (RequestHandler.write_error status_code reason exc_info h w))
    !! "WWW-Authenticate"
  = if challenged then Some "Basic realm=Restricted"
    else _headers h !! "WWW-Authenticate".
Proof.
  intros challenged.
  destruct (error_data_returns status_code reason exc_info h w)
    as (data & h1 & Hdata & _).
  rewrite (write_error_header "WWW-Authenticate" status_code reason exc_info h h1 w
             data) by (simpl; intuition discriminate || exact Hdata).
  clear - Hdata. subst challenged. revert Hdata.
  unfold RequestHandler.error_data, bind, get, RequestHandler.save_traceback,
    RequestHandler.set_status, RequestHandler.set_header, modify, ret.
  destruct exc_info as [[arg_name | message context | text | code msg | code msg | cls text] |];
    simpl; try destruct (code =? 401); simpl;
    destruct (_rollbar_token h) as [[token |] |]; simpl;
    try destruct (String.eqb token ""); simpl;
    intros [= _ <-]; simpl;
    repeat (rewrite lookup_insert_eq || (rewrite lookup_insert_ne by discriminate));
    reflexivity.
Qed.

(** X6: a rejected SQL statement is kept on the handler ([self.error]); the
    payload of the response says "rejected sql query" in [for_robot] and has
    no entry besides [for_human], [for_robot] and [rollbar], so the
    statement is not sent. *)
Theorem write_error_data_error (status_code : Z) (reason : option string)
    (text : string) (h : Handler) (w : World) :
  error (handler_of (RequestHandler.write_error status_code reason
                       (Some (DataError text)) h w))
  = Some {["sql" := VStr text]}
  /\ exists data h1,
       RequestHandler.error_data status_code reason (Some (DataError text)) h w
       = (Ok data, h1, w)
       /\ data !! "for_robot" = Some (VStr "rejected sql query")
       /\ (forall k, is_Some (data !! k) ->
           k = "for_human" \/ k = "for_robot" \/ k = "rollbar").
Proof.
  destruct (error_data_returns status_code reason (Some (DataError text)) h w)
    as (data & h1 & Hdata & _).
  split.
  - assert (Herror : error h1 = Some {["sql" := VStr text]}).
    { clear - Hdata. revert Hdata.
      unfold RequestHandler.error_data, bind, get, RequestHandler.save_traceback,
        RequestHandler.set_status, RequestHandler.set_header, modify, ret. simpl.
      destruct (_rollbar_token h) as [[token |] |]; simpl;
        try destruct (String.eqb token ""); simpl;
        intros [= _ <-]; reflexivity. }
    unfold RequestHandler.write_error, bind at 1. rewrite Hdata.
    refine (preserves_bind (fun x => error x = Some {["sql" := VStr text]})
              _ _ _ _ h1 w Herror).
    + apply preserves_finish; try (intros; assumption).
      intros x w0 Hx. unfold RequestHandler.id. destruct (_id x); exact Hx.
    + intros a. apply preserves_ret.
  - exists data, h1. split; [exact Hdata |]. revert Hdata.
    unfold RequestHandler.error_data, bind, get, RequestHandler.save_traceback,
      RequestHandler.set_status, RequestHandler.set_header, modify, ret. simpl.
    destruct (_rollbar_token h) as [[token |] |]; simpl;
      try destruct (String.eqb token ""); simpl;
      intros [= <- _];
      (split; [rewrite ?lookup_insert_eq;
               repeat (rewrite lookup_insert_ne by discriminate);
               rewrite ?lookup_insert_eq; reflexivity |]);
      intros k [v Hk];
      repeat (rewrite lookup_insert in Hk; case_decide; [subst; auto |]);
      rewrite lookup_singleton in Hk; case_decide; subst; auto; discriminate.
Qed.

End ErrorResponseProperties.

Section MoreHandlerProperties.
Context `{Externals}.

(** X7: unless the exception is a validation error, the human-facing text
    of an error response is the [reason] given to [write_error] when that is
    a non-empty string, else the reason phrase of the current status line
    when that is non-empty, else "unknown". *)
Theorem error_data_for_human (status_code : Z) (reason : option string)
    (exc_info : option exception) (h : Handler) (w : World) :
  (forall message context, exc_info <> Some (ValidationError message context)) ->
  exists data h1,
    RequestHandler.error_data status_code reason exc_info h w = (Ok data, h1, w)
    /\ (forall r, reason = Some r -> r <> "" -> data !! "for_human" = Some (VStr r))
    /\ (reason = None \/ reason = Some "" ->
        (_reason h <> "" -> data !! "for_human" = Some (VStr (_reason h)))
        /\ (_reason h = "" -> data !! "for_human" = Some (VStr "unknown"))).
Proof.
  intros Hnot.
  assert (Hhuman : forall r : string,
    RequestHandler.str_or reason (RequestHandler.str_or (Some (_reason h)) "unknown") = r ->
    exists data h1,
      RequestHandler.error_data status_code reason exc_info h w = (Ok data, h1, w)
      /\ data !! "for_human" = Some (VStr r)).
  { intros r <-.
    unfold RequestHandler.error_data, bind, get, RequestHandler.save_traceback,
      RequestHandler.set_status, RequestHandler.set_header, modify, ret.
    destruct exc_info as [[arg_name | message context | text | code msg | code msg | cls text] |];
      try (exfalso; eapply Hnot; reflexivity);
      simpl; try destruct (code =? 401); simpl;
      destruct (_rollbar_token h) as [[token |] |]; simpl;
      try destruct (String.eqb token ""); simpl;
      eexists; eexists; (split; [reflexivity |]);
      repeat (rewrite lookup_insert_ne by discriminate);
      apply lookup_singleton_eq. }
  destruct (Hhuman _ eq_refl) as (data & h1 & Hdata & Hlookup).
  exists data, h1. split; [exact Hdata |]. rewrite Hlookup. split.
  - intros r -> Hne. unfold RequestHandler.str_or at 1. simpl.
    destruct (String.eqb_spec r ""); [contradiction | reflexivity].
  - intros Hreason.
    assert (Hfall : RequestHandler.str_or reason
                      (RequestHandler.str_or (Some (_reason h)) "unknown")
                    = RequestHandler.str_or (Some (_reason h)) "unknown").
    { destruct Hreason as [-> | ->]; reflexivity. }
    rewrite Hfall. unfold RequestHandler.str_or. simpl. split.
    + intros Hne. destruct (String.eqb_spec (_reason h) ""); [contradiction | reflexivity].
    + intros ->. reflexivity.
Qed.

(** X8: what a template sees. [debug] is always the application's debug
    flag, even when the payload has a [debug] entry; otherwise an entry of
    the payload wins over a path parameter of the same name, which wins over
    the application's [extra], which wins over the defaults [owner], [repo]
    and [file_name] (None). *)
Theorem template_data_precedence (h : Handler) (kwargs : gmap string value) (k : string) :
  RequestHandler.template_data h kwargs !! "debug" = Some (VBool (debug h))
  /\ (k <> "debug" ->
      RequestHandler.template_data h kwargs !! k
      = match kwargs !! k with
        | Some v => Some v
        | None =>
            match path_kwargs h !! k with
            | Some p => Some (value_of_kwarg p)
            | None =>
                match extra h !! k with
                | Some v => Some v
                | None =>
                    if bool_decide (k = "owner" \/ k = "repo" \/ k = "file_name")
                    then Some VNone else None
                end
            end
        end).
Proof.
  unfold RequestHandler.template_data. split; [apply lookup_insert_eq |].
  intros Hk. rewrite lookup_insert_ne by congruence.
  rewrite lookup_union. destruct (kwargs !! k) as [v |] eqn:Hkw.
  { rewrite union_Some_l. reflexivity. }
  rewrite (left_id None _). rewrite lookup_union, lookup_fmap.
  destruct (path_kwargs h !! k) as [p |] eqn:Hpath; simpl.
  { rewrite union_Some_l. reflexivity. }
  rewrite (left_id None _). rewrite lookup_union.
  destruct (extra h !! k) as [v |] eqn:Hextra.
  { rewrite union_Some_l. reflexivity. }
  rewrite (left_id None _).
  case_bool_decide as Hd.
  - destruct Hd as [-> | [-> | ->]]; reflexivity.
  - rewrite !lookup_insert_ne by (intros <-; apply Hd; auto).
    apply lookup_singleton_ne. intros <-. apply Hd. auto.
Qed.

(** X9: the negotiated format never contains a dot. *)
Theorem export_has_no_dot (h : Handler) :
  ~ In "."%char (Logger.chars (RequestHandler.export h)).
Proof.
  unfold RequestHandler.export.
  generalize (RequestHandler.str_or (mjoin (path_kwargs h !! "export"))
                (if contains "text/html" (default "" (headers (request h) !! "Accept"))
                 then "html" else "json")).
  intros s. induction s as [| a s IH]; simpl; [tauto |].
  destruct (Ascii.eqb_spec a "."%char) as [-> | Hne]; [exact IH |].
  simpl. intros [Heq | Hin]; [congruence | exact (IH Hin)].
Qed.

(** X10: [set_default_headers] removes the Server header, stores the
    request identifier under X-Request-Id and leaves the other headers as
    they are; when there is no Server header to remove it raises KeyError
    and changes nothing, so no X-Request-Id is set and no identifier is
    fixed. *)
Theorem set_default_headers_outcome (h : Handler) (w : World) :
  (is_Some (_headers h !! "Server") ->
   exists i,
     result_of (RequestHandler.id h w) = Ok i
     /\ result_of (RequestHandler.set_default_headers h w) = Ok tt
     /\ _headers (handler_of (RequestHandler.set_default_headers h w))
        = <["X-Request-Id" := i]> (delete "Server" (_headers h))
     /\ _id (handler_of (RequestHandler.set_default_headers h w)) = Some i)
  /\ (_headers h !! "Server" = None ->
      RequestHandler.set_default_headers h w = (Raise (Builtin KeyError "Server"), h, w)).
Proof.
  unfold RequestHandler.set_default_headers, bind, get, modify. split.
  - intros [v Hv]. rewrite Hv. unfold RequestHandler.id. simpl.
    destruct (_id h) as [i |] eqn:Hid; eexists; repeat split.
    simpl. exact Hid.
  - intros ->. reflexivity.
Qed.

(** X11: without a [resource] attribute a list payload cannot be wrapped:
    [finish] raises AttributeError before it touches the handler, and
    nothing is sent. *)
Theorem finish_list_without_resource (l : list value) (h : Handler) (w : World) :
  resource h = None ->
  RequestHandler.finish (VList l) h w = (Raise (Builtin AttributeError "resource"), h, w).
Proof.
  intros Hres. unfold RequestHandler.finish, RequestHandler.shape,
    RequestHandler.wrap_list.
  unfold bind at 1. unfold bind at 1. unfold bind at 1. unfold get at 1.
  rewrite Hres. reflexivity.
Qed.

End MoreHandlerProperties.

(** ** Rendering *)

Section Rendering.
Context `{Externals}.

(** X12: in a text format, when the template chosen by convention renders
    and the status of the response allows a body, [finish] returns the
    rendered page and that page goes out as the body of the response
    (nothing, for a HEAD request) under the Content-Type text/plain for
    'txt' and text/html for 'html'; the response is then finished. This is
    stated for a response on which nothing has been written yet, a request
    without If-None-Match, and a request log that returns. *)
Theorem finish_renders_template (chunk chunk' : gmap string value)
    (doc page : string) (h h1 : Handler) (w w1 : World) :
  fresh_response h -> unconditional h -> logs h ->
  RequestHandler.export h = "txt" \/ RequestHandler.export h = "html" ->
  RequestHandler.inject_meta chunk h w = (Ok chunk', h1, w1) ->
  result_of (RequestHandler.template_path (RequestHandler.export h) h1 w1) = Ok doc ->
  result_of (RequestHandler.render_string doc chunk' h1 w1) = Ok page ->
  RequestHandler.bodiless (_status_code h1) = false ->
  let out := RequestHandler.finish (VDict chunk) h w in
  result_of out = Ok (VStr page)
  /\ _finished (handler_of out) = true
  /\ exists hs,
       connection (handler_of out)
       = (connection h
          ++ [Response (_status_code h1) (_reason h1) hs
                (if RequestHandler.is_HEAD h then "" else page)])%list
       /\ hs !! "Content-Type" = Some (text_type (RequestHandler.export h)).
Proof.
  intros Hfresh Huncond Hlogs Hexport Hinject Hdoc Hpage Hbody.
  apply (finish_text_delivers chunk chunk' _ h h1 w w1); try assumption.
  destruct (finish_after_inject chunk chunk' h h1 w w1 Hinject) as (_ & Hkeep).
  pose proof (export_after_inject h h1 Hkeep) as Hexp1.
  rewrite <- Hexp1 in Hexport, Hdoc |- *.
  rewrite (render_text chunk' doc h1 w1 Hexport Hdoc), Hpage. reflexivity.
Qed.

(** X13: only IOError is turned into the fallback string. Any other
    exception of the template engine leaves [finish] as it is: nothing is
    written or sent and the response is not finished, although the status
    and the Content-Type have already been set. *)
Theorem finish_render_failure (chunk chunk' : gmap string value)
    (doc : string) (e : exception) (h h1 : Handler) (w w1 : World) :
  RequestHandler.export h = "txt" \/ RequestHandler.export h = "html" ->
  RequestHandler.inject_meta chunk h w = (Ok chunk', h1, w1) ->
  result_of (RequestHandler.template_path (RequestHandler.export h) h1 w1) = Ok doc ->
  result_of (RequestHandler.render_string doc chunk' h1 w1) = Raise e ->
  RequestHandler.is_IOError e = false ->
  result_of (RequestHandler.finish (VDict chunk) h w) = Raise e
  /\ connection (handler_of (RequestHandler.finish (VDict chunk) h w)) = connection h
  /\ _write_buffer (handler_of (RequestHandler.finish (VDict chunk) h w))
     = _write_buffer h
  /\ _finished (handler_of (RequestHandler.finish (VDict chunk) h w)) = _finished h
  /\ _headers (handler_of (RequestHandler.finish (VDict chunk) h w)) !! "Content-Type"
     = Some (text_type (RequestHandler.export h))
  /\ _status_code (handler_of (RequestHandler.finish (VDict chunk) h w))
     = _status_code h1.
Proof.
  intros Hexport Hinject Hdoc Hraise Hother.
  destruct (finish_after_inject chunk chunk' h h1 w w1 Hinject) as (Hsteps & Hkeep).
  pose proof (export_after_inject h h1 Hkeep) as Hexp1.
  rewrite <- Hexp1 in Hexport, Hdoc.
  assert (Hout :
    RequestHandler.finish (VDict chunk) h w
    = (Raise e,
       set__headers
         (<["Content-Type" := text_type (RequestHandler.export h1)]> (_headers h1)) h1,
       w1)).
  { rewrite Hsteps. unfold bind at 1.
    rewrite (render_text chunk' doc h1 w1 Hexport Hdoc), Hraise, Hother.
    reflexivity. }
  rewrite Hout, <- Hexp1. unfold result_of, handler_of. cbn [fst snd]. fields.
  split; [reflexivity |].
  split; [rewrite Hkeep; reflexivity |].
  split; [rewrite Hkeep; reflexivity |].
  split; [rewrite Hkeep; reflexivity |].
  split; [apply lookup_insert_eq | reflexivity].
Qed.

End Rendering.

(** ** Request logging *)

Section RequestLogging.
Context `{Externals}.

(** X14: a static-file or redirect handler is not logged at all. For any
    other handler [logger.handler] serialises the dictionary of status,
    method, uri, reason, ms, the rollbar token if the attribute exists, and
    the handler's [user] and [id]. When [json] can serialise the current
    user it writes exactly one record and returns: fatal for a status of
    500 or more, warning for 400 to 499, info below 400; the text is the
    scrubbed serialisation, preceded by a colour prefix only when the DEBUG
    environment variable is exactly 'TRUE'. When [json] cannot, the
    TypeError of [dumps] comes out of [logger.handler] and nothing is
    logged. *)
Theorem request_log_routing (h : Handler) (w : World) :
  RequestHandler.logger_handler true h w = (Ok tt, h, w)
  /\ exists i,
       result_of (RequestHandler.id h w) = Ok i
       /\ (json_serialisable (RequestHandler.user_or_none h) = true ->
           exists r,
             RequestHandler.logger_handler false h w
             = (Ok tt, handler_of (RequestHandler.id h w),
                emit r (world_of (RequestHandler.id h w)))
             /\ records (world_of (RequestHandler.logger_handler false h w))
                = (records w ++ [r])%list
             /\ logger r = OwnLog
             /\ (500 <= _status_code h -> lvl r = Fatal)
             /\ (400 <= _status_code h < 500 -> lvl r = Warn)
             /\ (_status_code h < 400 -> lvl r = Info)
             /\ text r
                = RequestLog.add h
                  +:+ Logger.scrub
                        (dumps false None
                           (VDict (<["id" := VStr i]>
                                     {["user" := RequestHandler.user_or_none h]}
                                   ∪ RequestLog.basics h))))
       /\ (json_serialisable (RequestHandler.user_or_none h) = false ->
           result_of (RequestHandler.logger_handler false h w)
           = Raise (Builtin TypeError "is not JSON serializable")
           /\ records (world_of (RequestHandler.logger_handler false h w))
              = records w)
       /\ (getenv_DEBUG <> Some "TRUE" -> RequestLog.add h = "").
Proof.
  split; [reflexivity |].
  destruct (logger_handler_outcome h w) as (i & Hi & Hout).
  destruct (id_world h w) as [Hrec _].
  exists i. split; [exact Hi |]. split; [| split].
  - intros Hu. rewrite Hu in Hout. exists (request_record h i).
    split; [exact Hout |].
    split; [rewrite Hout; unfold world_of at 1; cbn [snd records emit];
            rewrite Hrec; reflexivity |].
    split; [reflexivity |].
    unfold request_record, RequestLog.severity. cbn [lvl text].
    split; [| split; [| split]].
    + intros Hs. destruct (Z.ltb_spec 499 (_status_code h)); [reflexivity | lia].
    + intros Hs. destruct (Z.ltb_spec 499 (_status_code h)); [lia |].
      destruct (Z.ltb_spec 399 (_status_code h)); [reflexivity | lia].
    + intros Hs. destruct (Z.ltb_spec 499 (_status_code h)); [lia |].
      destruct (Z.ltb_spec 399 (_status_code h)); [lia | reflexivity].
    + reflexivity.
  - intros Hu. rewrite Hu in Hout. rewrite Hout.
    split; [reflexivity | exact Hrec].
  - intros Henv. unfold RequestLog.add.
    case_bool_decide; [contradiction | reflexivity].
Qed.

End RequestLogging.

(** ** Saved tracebacks *)

Section SavedTracebacks.
Context `{Externals}.

(** The list behind [self.tracebacks], empty while the attribute is not
    set. *)
Definition saved (h : Handler) : list (list string) := default [] (tracebacks h).

(** [old] is an initial part of what is saved. *)
Definition keeps_saved (old : list (list string)) (h : Handler) : Prop :=
  exists more, saved h = (old ++ more)%list.

Lemma id_keeps_tracebacks (h : Handler) (w : World) :
  tracebacks (handler_of (RequestHandler.id h w)) = tracebacks h.
Proof. unfold RequestHandler.id. destruct (_id h); reflexivity. Qed.

Lemma finish_keeps_tracebacks (chunk : value) (h : Handler) (w : World) :
  tracebacks (handler_of (RequestHandler.finish chunk h w)) = tracebacks h.
Proof.
  apply (preserves_finish (fun x => tracebacks x = tracebacks h));
    try (intros; assumption); try reflexivity.
  intros x w0 Hx. rewrite id_keeps_tracebacks. exact Hx.
Qed.

Lemma error_data_tracebacks (status_code : Z) (reason : option string)
    (exc_info : option exception) (h : Handler) (w : World) :
  exists data h1,
    RequestHandler.error_data status_code reason exc_info h w = (Ok data, h1, w)
    /\ tracebacks h1
       = match exc_info with
         | Some e => Some (saved h ++ [format_exception e])%list
         | None => tracebacks h
         end.
Proof.
  unfold RequestHandler.error_data, bind, get, RequestHandler.save_traceback,
    RequestHandler.set_status, RequestHandler.set_header, modify, ret, saved.
  destruct exc_info as [[arg_name | message context | text | code msg | code msg | cls text] |];
    simpl; try destruct (code =? 401); simpl;
    destruct (_rollbar_token h) as [[token |] |]; simpl;
    try destruct (String.eqb token ""); simpl;
    eexists; eexists; split; reflexivity.
Qed.

Lemma write_error_tracebacks (status_code : Z) (reason : option string)
    (exc_info : option exception) (h : Handler) (w : World) :
  tracebacks (handler_of (RequestHandler.write_error status_code reason exc_info h w))
  = match exc_info with
    | Some e => Some (saved h ++ [format_exception e])%list
    | None => tracebacks h
    end.
Proof.
  destruct (error_data_tracebacks status_code reason exc_info h w)
    as (data & h1 & Hdata & Htb).
  unfold RequestHandler.write_error, bind at 1. rewrite Hdata.
  unfold bind.
  pose proof (finish_keeps_tracebacks (VDict {["error" := VDict data]}) h1 w) as Hfin.
  destruct (RequestHandler.finish (VDict {["error" := VDict data]}) h1 w)
    as [[[a | e] h2] w2]; unfold handler_of in *; simpl in *; congruence.
Qed.

(** X19: every call of [write_error] with an exception appends the
    formatted exception to [self.tracebacks], after what was saved before,
    whether or not the response can then be finished; a call without an
    exception saves nothing. *)
Theorem write_error_saves_traceback (status_code : Z) (reason : option string)
    (exc_info : option exception) (h : Handler) (w : World) :
  tracebacks (handler_of (RequestHandler.write_error status_code reason exc_info h w))
  = match exc_info with
    | Some e => Some (saved h ++ [format_exception e])%list
    | None => tracebacks h
    end.
Proof. apply write_error_tracebacks. Qed.

Lemma log_exception_keeps_tracebacks (value : exception) (h : Handler) (w : World) :
  tracebacks (handler_of (RequestHandler.log_exception value h w)) = tracebacks h.
Proof.
  destruct (exception_cases value) as [[arg_name ->] | [[message [context ->]] | Hother]].
  - rewrite log_exception_missing. reflexivity.
  - rewrite log_exception_invalid. reflexivity.
  - rewrite (log_exception_other value h w Hother).
    destruct (_ && _); [| reflexivity].
    unfold handler_of. simpl.
    destruct (report_outcome value h
                (if RequestHandler.wants_traceback value
                 then emit (Logger.traceback_record value ∅) w else w))
      as (i & h1 & w1 & Hid & ->).
    unfold RequestHandler.id in Hid.
    destruct (report_exc_info value _); destruct (_id h);
      injection Hid as <- <- <-; reflexivity.
Qed.

Lemma run_keeps_saved (old : list (list string)) (op : Lifecycle.operation) :
  preserves (keeps_saved old) (Lifecycle.run op).
Proof.
  assert (Hsame : forall A (m : M A),
    (forall h w, tracebacks (handler_of (m h w)) = tracebacks h) ->
    preserves (keeps_saved old) m).
  { intros A m Hm h w [more Hh]. exists more. unfold saved in *.
    rewrite Hm. exact Hh. }
  assert (Hid : preserves (keeps_saved old) RequestHandler.id).
  { apply Hsame, id_keeps_tracebacks. }
  assert (Hdiscard : forall A (m : M A),
    preserves (keeps_saved old) m ->
    preserves (keeps_saved old) (Lifecycle.discard m)).
  { intros A m Hm. unfold Lifecycle.discard. apply preserves_bind; [exact Hm |].
    intros a. apply preserves_ret. }
  destruct op as [| | | | kwargs | code | name v | chunk | code reason exc_info
                  | value | flag]; simpl.
  - apply Hdiscard, Hid.
  - apply preserves_set_default_headers; [exact Hid |].
    intros hs h Hh. exact Hh.
  - apply Hdiscard. apply preserves_payloads. exact Hid.
  - apply Hdiscard. apply preserves_payloads. exact Hid.
  - apply preserves_log.
  - apply Hsame. intros h w. reflexivity.
  - apply Hsame. intros h w. reflexivity.
  - apply Hdiscard. apply Hsame. apply finish_keeps_tracebacks.
  - intros h w [more Hh]. unfold keeps_saved, saved.
    rewrite write_error_tracebacks. destruct exc_info as [e |]; simpl.
    + exists (more ++ [format_exception e])%list. rewrite Hh, app_assoc. reflexivity.
    + exists more. exact Hh.
  - apply Hsame. apply log_exception_keeps_tracebacks.
  - apply preserves_request_log. exact Hid.
Qed.

(** X20: saved tracebacks are never dropped or reordered: whatever methods
    run during the request, what was saved at some point stays an initial
    part of what is saved later. *)
Theorem tracebacks_only_grow (s s' : Handler * World) :
  Lifecycle.later s s' ->
  exists more, saved (fst s') = (saved (fst s) ++ more)%list.
Proof.
  intros Hlater. induction Hlater as [s | s op s' Hlater IH].
  - exists []. rewrite app_nil_r. reflexivity.
  - simpl. apply (run_keeps_saved (saved (fst s)) op (fst s') (snd s')). exact IH.
Qed.

End SavedTracebacks.

(** * More sample requests *)

Module MoreSamples.

(** The deployment of [Samples.libs] with an unreachable reporting
    service. *)
Definition unreachable : Externals := {|
  dumps := @dumps Samples.libs;
  format_exception := @format_exception Samples.libs;
  pygments_highlight := @pygments_highlight Samples.libs;
  uuid4 := @uuid4 Samples.libs;
  report_exc_info := fun _ _ => Raise (Builtin OtherClass "connection refused");
  template_render := @template_render Samples.libs;
  int_of_str := @int_of_str Samples.libs;
  responses := @responses Samples.libs;
  getenv_DEBUG := @getenv_DEBUG Samples.libs;
  sha1_hexdigest := @sha1_hexdigest Samples.libs;
  etag_match := @etag_match Samples.libs;
  repr_request := @repr_request Samples.libs
|}.

(** The same deployment with every template on disk. *)
Definition with_templates : Externals := {|
  dumps := @dumps Samples.libs;
  format_exception := @format_exception Samples.libs;
  pygments_highlight := @pygments_highlight Samples.libs;
  uuid4 := @uuid4 Samples.libs;
  report_exc_info := @report_exc_info Samples.libs;
  template_render := fun doc _ => Ok ("<!-- " +:+ doc +:+ " -->");
  int_of_str := @int_of_str Samples.libs;
  responses := @responses Samples.libs;
  getenv_DEBUG := @getenv_DEBUG Samples.libs;
  sha1_hexdigest := @sha1_hexdigest Samples.libs;
  etag_match := @etag_match Samples.libs;
  repr_request := @repr_request Samples.libs
|}.

(** The same deployment with templates that do not parse. *)
Definition broken_templates : Externals := {|
  dumps := @dumps Samples.libs;
  format_exception := @format_exception Samples.libs;
  pygments_highlight := @pygments_highlight Samples.libs;
  uuid4 := @uuid4 Samples.libs;
  report_exc_info := @report_exc_info Samples.libs;
  template_render := fun _ _ => Raise (Builtin OtherClass "ParseError");
  int_of_str := @int_of_str Samples.libs;
  responses := @responses Samples.libs;
  getenv_DEBUG := @getenv_DEBUG Samples.libs;
  sha1_hexdigest := @sha1_hexdigest Samples.libs;
  etag_match := @etag_match Samples.libs;
  repr_request := @repr_request Samples.libs
|}.

Definition page_injected (libs : Externals)
  : Result (gmap string value) * Handler * World :=
  RequestHandler.inject_meta (H := libs) FinishSamples.person FinishSamples.page
    Samples.quiet.

Definition page_payload (libs : Externals) : gmap string value :=
  match result_of (page_injected libs) with
  | Ok d => d
  | Raise _ => ∅
  end.

(** A handler without the [resource] attribute. *)
Definition bare : Handler :=
  {| request := Samples.get_arg; rollbar_access_token := None; debug := false;
     log_function := Unset;
     extra := ∅; path_kwargs := ∅; resource := None; current_user := None;
     _id := None; _headers := {["Server" := "TornadoServer"]};
     _status_code := 200; _reason := "OK"; tracebacks := None;
     _rollbar_token := None; error := None; _write_buffer := [];
     _headers_written := false; _finished := false; connection := [] |}.

(** The handler and the log after a first error response, for the
    validation failure, and after a second one, for an uncaught exception. *)
Definition answered : Handler * World :=
  (handler_of
     (Lifecycle.run (H := Samples.libs)
        (Lifecycle.Call_write_error 500 None (Some HookSamples.invalid))
        FinishSamples.api Samples.quiet),
   world_of
     (Lifecycle.run (H := Samples.libs)
        (Lifecycle.Call_write_error 500 None (Some HookSamples.invalid))
        FinishSamples.api Samples.quiet)).

Definition answered_twice : Handler * World :=
  (handler_of
     (Lifecycle.run (H := Samples.libs)
        (Lifecycle.Call_write_error 500 None (Some HookSamples.uncaught))
        (fst answered) (snd answered)),
   world_of
     (Lifecycle.run (H := Samples.libs)
        (Lifecycle.Call_write_error 500 None (Some HookSamples.uncaught))
        (fst answered) (snd answered))).

End MoreSamples.

Lemma log_exception_report_failure_witness :
  records
    (world_of
       (RequestHandler.log_exception (H := MoreSamples.unreachable)
          HookSamples.uncaught HookSamples.reporting Samples.quiet))
  = ([Logger.traceback_record (H := MoreSamples.unreachable) HookSamples.uncaught ∅;
      Logger.traceback_record (H := MoreSamples.unreachable)
        (Builtin OtherClass "connection refused") ∅]
     ++ RequestHandler.base_log_records (H := MoreSamples.unreachable)
          HookSamples.uncaught Samples.get_arg)%list.
Proof.
  refine (proj1 (log_exception_report_failure (H := MoreSamples.unreachable)
                   HookSamples.uncaught (Builtin OtherClass "connection refused")
                   HookSamples.reporting Samples.quiet _ _ _ _)).
  - exact I.
  - reflexivity.
  - reflexivity.
  - intros payload. reflexivity.
Defined.

Lemma write_error_validation_witness :
  exists data i hs,
    connection
      (handler_of
         (RequestHandler.write_error (H := Samples.libs) 500 None
            (Some HookSamples.invalid) FinishSamples.api Samples.quiet))
    = [Response 400 "Bad Request" hs
         (escape_slash
            (dumps (Externals := Samples.libs) false None
               (VDict (error_body data 400 i))))].
Proof.
  destruct (write_error_validation (H := Samples.libs) 500 None
              "Invalid value 10 (int): must be string (at value)" ["value"]
              FinishSamples.api Samples.quiet)
    as (data & i & hs & _ & _ & _ & _ & Hconn & _).
  - discriminate.
  - discriminate.
  - repeat split.
  - left. reflexivity.
  - exists data, i, hs. exact Hconn.
Defined.

Lemma write_error_status_witness :
  exists hs body,
    connection
      (handler_of
         (RequestHandler.write_error (H := Samples.libs) 404 None
            (Some (HTTPError 404 None)) FinishSamples.api Samples.quiet))
    = [Response 404 "Not Found" hs body].
Proof.
  destruct (proj2 (write_error_status (H := Samples.libs) 404 None
                     (Some (HTTPError 404 None)) FinishSamples.api Samples.quiet
                     ltac:(discriminate) ltac:(discriminate)))
    as (hs & body & _ & _ & _ & _ & Hconn).
  - repeat split.
  - left. reflexivity.
  - reflexivity.
  - discriminate.
  - exists hs, body. exact Hconn.
Defined.

Lemma error_data_for_human_witness :
  exists data h1,
    RequestHandler.error_data (H := Samples.libs) 404 None
      (Some (HTTPError 404 None)) FinishSamples.api Samples.quiet
    = (Ok data, h1, Samples.quiet)
    /\ data !! "for_human" = Some (VStr "OK").
Proof.
  destruct (error_data_for_human (H := Samples.libs) 404 None
              (Some (HTTPError 404 None)) FinishSamples.api Samples.quiet)
    as (data & h1 & Hdata & _ & Hdefault).
  - intros message context. discriminate.
  - exists data, h1. split; [exact Hdata |].
    apply (proj1 (Hdefault (or_introl eq_refl))). discriminate.
Defined.

Lemma finish_list_without_resource_witness :
  RequestHandler.finish (H := Samples.libs) (VList [VInt 1]) MoreSamples.bare
    Samples.quiet
  = (Raise (Builtin AttributeError "resource"), MoreSamples.bare, Samples.quiet).
Proof.
  exact (finish_list_without_resource (H := Samples.libs) [VInt 1] MoreSamples.bare
           Samples.quiet eq_refl).
Defined.

Lemma finish_renders_template_witness :
  result_of
    (RequestHandler.finish (H := MoreSamples.with_templates)
       (VDict FinishSamples.person) FinishSamples.page Samples.quiet)
  = Ok (VStr "<!-- html/customers_get_many.html -->")
  /\ exists hs,
       connection
         (handler_of
            (RequestHandler.finish (H := MoreSamples.with_templates)
               (VDict FinishSamples.person) FinishSamples.page Samples.quiet))
       = [Response 200 "OK" hs "<!-- html/customers_get_many.html -->"]
       /\ hs !! "Content-Type" = Some "text/html".
Proof.
  destruct (finish_renders_template (H := MoreSamples.with_templates)
              FinishSamples.person (MoreSamples.page_payload MoreSamples.with_templates)
              "html/customers_get_many.html" "<!-- html/customers_get_many.html -->"
              FinishSamples.page
              (handler_of (MoreSamples.page_injected MoreSamples.with_templates))
              Samples.quiet
              (world_of (MoreSamples.page_injected MoreSamples.with_templates)))
    as (Hresult & _ & hs & Hconn & Htype).
  - repeat split.
  - reflexivity.
  - left. reflexivity.
  - right. reflexivity.
  - vm_compute. reflexivity.
  - vm_compute. reflexivity.
  - vm_compute. reflexivity.
  - reflexivity.
  - split; [exact Hresult |]. exists hs. split; [exact Hconn | exact Htype].
Defined.

Lemma finish_render_failure_witness :
  result_of
    (RequestHandler.finish (H := MoreSamples.broken_templates)
       (VDict FinishSamples.person) FinishSamples.page Samples.quiet)
  = Raise (Builtin OtherClass "ParseError").
Proof.
  refine (proj1
    (finish_render_failure (H := MoreSamples.broken_templates)
       FinishSamples.person (MoreSamples.page_payload MoreSamples.broken_templates)
       "html/customers_get_many.html" (Builtin OtherClass "ParseError")
       FinishSamples.page
       (handler_of (MoreSamples.page_injected MoreSamples.broken_templates))
       Samples.quiet
       (world_of (MoreSamples.page_injected MoreSamples.broken_templates))
       _ _ _ _ _)).
  - right. reflexivity.
  - vm_compute. reflexivity.
  - vm_compute. reflexivity.
  - vm_compute. reflexivity.
  - reflexivity.
Defined.

Lemma scrub_separator_witness :
  Logger.scrub "token=abc&user=bob" = Logger.scrub "token=abc" +:+ "&" +:+ Logger.scrub "user=bob".
Proof. exact (scrub_separator "&"%char "token=abc" "user=bob" eq_refl). Defined.

Lemma scrub_query_field_witness :
  Logger.scrub "/login?user=bob&password=hunter2&next=/"
  = Logger.scrub "/login?user=bob" +:+ "&password==secret&" +:+ Logger.scrub "next=/".
Proof.
  refine (proj2 (proj2 (proj2
    (scrub_query_field "/login?user=bob" "next=/" "hunter2" _ _)))).
  - discriminate.
  - unfold value_chars. vm_compute. repeat constructor.
Defined.

Lemma scrub_untouched_witness :
  Logger.scrub "GET /customers/12?page=2 200" = "GET /customers/12?page=2 200".
Proof.
  apply (scrub_untouched "GET /customers/12?page=2 200"); reflexivity.
Defined.

Lemma scrub_json_entry_witness :
  Logger.scrub (DQ +:+ "token" +:+ DQ +:+ ": " +:+ DQ +:+ "abc" +:+ DQ)
  = DQ +:+ "token=secret " +:+ DQ +:+ "abc" +:+ DQ.
Proof.
  refine (proj1 (scrub_json_entry (DQ +:+ "abc" +:+ DQ) _ _ _ _)); reflexivity.
Defined.

Lemma tracebacks_only_grow_witness :
  exists more,
    saved (fst MoreSamples.answered_twice)
    = (saved (fst MoreSamples.answered) ++ more)%list.
Proof.
  apply (tracebacks_only_grow (H := Samples.libs) MoreSamples.answered
           MoreSamples.answered_twice).
  exact (Lifecycle.later_call MoreSamples.answered
           (Lifecycle.Call_write_error 500 None (Some HookSamples.uncaught))
           MoreSamples.answered (Lifecycle.later_now MoreSamples.answered)).
Defined.

(** ** Payloads that [finish] does not shape *)

Section UnshapedPayloads.
Context `{Externals}.

(** X21: a payload whose meta.status does not convert with int() stops
    [finish] with the conversion's exception; the handler and the log are
    as before, and nothing is sent. *)
Theorem finish_status_not_convertible (chunk meta : gmap string value)
    (st : value) (e : exception) (h : Handler) (w : World) :
  chunk !! "meta" = Some (VDict meta) ->
  meta !! "status" = Some st ->
  RequestHandler.py_int st = Raise e ->
  RequestHandler.finish (VDict chunk) h w = (Raise e, h, w).
Proof.
  intros Hmeta Hstatus Hint.
  unfold RequestHandler.finish, RequestHandler.shape, RequestHandler.wrap_list.
  unfold bind at 1. unfold bind at 1. unfold ret at 1. cbv beta iota.
  unfold bind at 1.
  unfold RequestHandler.inject_meta. rewrite Hmeta.
  change (default (VDict ∅) (Some (VDict meta))) with (VDict meta). cbv iota.
  unfold RequestHandler.inject_into, bind, get, lift. cbv zeta.
  assert (Hkept : setdefault "status" (VInt (RequestHandler.status_or_200 h)) meta
                  !! "status" = Some st).
  { unfold setdefault. rewrite Hstatus. exact Hstatus. }
  rewrite Hkept. change (default VNone (Some st)) with st.
  rewrite Hint. reflexivity.
Qed.

(** With the framework's access log, the lines that follow the write leave
    the handler as the flush made it, marked finished. *)
Lemma finish_tail_access_log (h : Handler) (w : World) :
  _headers_written h = false ->
  (_status_code h = 200 -> unconditional h) ->
  RequestHandler.bodiless (_status_code h) = false ->
  log_function h = Unset ->
  finish_tail h w
  = (Ok tt, set__finished true (delivered h),
     emit (RequestHandler.access_record (delivered h)) w).
Proof.
  intros Hw Hcond Hbody Hlog.
  unfold finish_tail. unfold bind at 1, get at 1. rewrite Hw.
  unfold bind at 1. rewrite (finish_headers_outcome h w Hcond Hbody).
  unfold bind at 1. rewrite flush_outcome by exact Hw.
  change (transmit _ _) with (delivered h).
  unfold bind at 1. unfold RequestHandler.log_request. unfold bind at 1, get at 1.
  change (log_function (delivered h)) with (log_function h). rewrite Hlog.
  reflexivity.
Qed.

(** X22: a string and None pass lines 111-133 as they are: no meta is
    added, no template is looked up and the status stays. On a response on
    which nothing has been written yet, whose status allows a body, with a
    request log that returns and, at status 200, a request without
    If-None-Match, [finish] returns the payload and the framework sends
    one response with the status of the handler, the headers completed by
    the framework (Etag, Content-Length) and the string as its body
    (nothing for None or for a HEAD request), then marks the handler
    finished. The request identifier is fixed on that account only by the
    request log of [logger.handler]; with the framework's access log it
    stays as it was. *)
Theorem finish_plain_payload (text : string) (h : Handler) (w : World) :
  fresh_response h ->
  (_status_code h = 200 -> unconditional h) ->
  RequestHandler.bodiless (_status_code h) = false ->
  logs h ->
  let out := RequestHandler.finish (VStr text) h w in
  let none := RequestHandler.finish VNone h w in
  (result_of out = Ok (VStr text)
   /\ handler_of out
      = set__finished true
          (set__id (_id (handler_of out)) (delivered (set__write_buffer [text] h)))
   /\ connection (handler_of out)
      = (connection h
         ++ [Response (_status_code h) (_reason h)
               (completed_headers (set__write_buffer [text] h))
               (if RequestHandler.is_HEAD h then "" else text)])%list
   /\ (log_function h = Unset -> _id (handler_of out) = _id h))
  /\ (result_of none = Ok VNone
      /\ handler_of none
         = set__finished true (set__id (_id (handler_of none)) (delivered h))
      /\ connection (handler_of none)
         = (connection h
            ++ [Response (_status_code h) (_reason h) (completed_headers h) ""])%list
      /\ (log_function h = Unset -> _id (handler_of none) = _id h)).
Proof.
  intros (Hfin & Hwritten & Hbuffer) Hcond Hbody Hlogs out none. subst out none.
  split.
  - rewrite finish_unshaped by discriminate.
    destruct (base_finish_str text h w Hfin Hwritten Hcond Hbody Hlogs)
      as (h' & w' & Hout & Hh' & _).
    rewrite Hbuffer in Hh'. simpl in Hh'.
    assert (Hfinal : bind (RequestHandler.base_finish (VStr text))
                       (fun _ => ret (VStr text)) h w = (Ok (VStr text), h', w')).
    { unfold bind at 1. rewrite Hout. reflexivity. }
    rewrite Hfinal. unfold result_of, handler_of. cbn [fst snd].
    split; [reflexivity |]. split; [exact Hh' |]. split.
    + rewrite Hh'. unfold delivered, body_on_wire. fields.
      change (RequestHandler.is_HEAD (set__write_buffer [text] h))
        with (RequestHandler.is_HEAD h).
      destruct (RequestHandler.is_HEAD h); reflexivity.
    + intros Hunset.
      assert (Hexplicit : RequestHandler.base_finish (VStr text) h w
                = (Ok tt, set__finished true (delivered (set__write_buffer [text] h)),
                   emit (RequestHandler.access_record
                           (delivered (set__write_buffer [text] h))) w)).
      { rewrite base_finish_unfold by exact Hfin.
        unfold bind at 1, RequestHandler.write. unfold bind at 1, get at 1.
        rewrite Hfin. unfold modify at 1. rewrite Hbuffer. simpl app.
        apply finish_tail_access_log; assumption. }
      rewrite Hexplicit in Hout. injection Hout as <- _. reflexivity.
  - rewrite finish_unshaped by discriminate.
    destruct (finish_tail_delivers h w Hwritten Hcond Hbody Hlogs)
      as (h' & w' & Hout & Hh' & _).
    assert (Hfinal : bind (RequestHandler.base_finish VNone)
                       (fun _ => ret VNone) h w = (Ok VNone, h', w')).
    { unfold bind at 1. rewrite base_finish_unfold by exact Hfin.
      unfold bind at 1, ret at 1. rewrite Hout. reflexivity. }
    rewrite Hfinal. unfold result_of, handler_of. cbn [fst snd].
    split; [reflexivity |]. split; [exact Hh' |]. split.
    + rewrite Hh'. unfold delivered, body_on_wire. fields. rewrite Hbuffer.
      destruct (RequestHandler.is_HEAD h); reflexivity.
    + intros Hunset.
      rewrite (finish_tail_access_log h w Hwritten Hcond Hbody Hunset) in Hout.
      injection Hout as <- _. reflexivity.
Qed.

End UnshapedPayloads.

Lemma finish_status_not_convertible_witness :
  RequestHandler.finish (H := Samples.libs)
    (VDict {["meta" := VDict {["status" := VNone]}]}) FinishSamples.api Samples.quiet
  = (Raise (Builtin TypeError "int() argument must be a string or a number"),
     FinishSamples.api, Samples.quiet).
Proof.
  apply (finish_status_not_convertible (H := Samples.libs)
           {["meta" := VDict {["status" := VNone]}]} {["status" := VNone]} VNone);
    reflexivity.
Defined.

Lemma finish_plain_payload_witness :
  connection
    (handler_of
       (RequestHandler.finish (H := Samples.libs) (VStr "pong") FinishSamples.api
          Samples.quiet))
  = [Response 200 "OK"
       (completed_headers (H := Samples.libs)
          (set__write_buffer ["pong"] FinishSamples.api))
       "pong"].
Proof.
  refine (proj1 (proj2 (proj2 (proj1
    (finish_plain_payload (H := Samples.libs) "pong" FinishSamples.api
       Samples.quiet _ _ _ _))))).
  - repeat split.
  - intros _. reflexivity.
  - reflexivity.
  - left. reflexivity.
Defined.

(** * handler.py: the traceback method *)

Module TracebackMethod.

Section Traceback.
Context `{Externals}.

(** [rollbar.report_exc_info(extra_data=..., payload_data=...)]: the report
    of the exception being handled, with extra data. *)
Variable report_current :
  exception -> gmap string value -> value -> Result (option string).

(** [logger.traceback(exc_info=v)] for a truthy [v] that a caller passed
    among the keywords; what the logger makes of such a value is left
    open. *)
Variable traceback_given : value -> gmap string value -> M unit.

(** [logger.traceback] called with the keywords: one named [exc_info] binds the
    first parameter; a falsy one is replaced by [sys.exc_info()], which
    the model passes as [handled]. *)
Definition logger_traceback_kwargs (handled : exception)
    (kwargs : gmap string value) : M unit :=
  match kwargs !! "exc_info" with
  | None => Logger.traceback handled kwargs
  | Some v =>
      if truthy v then traceback_given v (delete "exc_info" kwargs)
      else Logger.traceback handled (delete "exc_info" kwargs)
  end.

(** Lines 65-71, called while [current] is being handled: the keywords for
    line 72, and the exception that [sys.exc_info()] reports there. Under
    Python 2 an except clause that has run leaves its exception as the one
    [sys.exc_info()] reports until the function returns, so that after a
    failed report line 72 sees the failure of the report and no longer
    [current]. *)
Definition report_with_keywords (current : exception) (kwargs : gmap string value)
  : M (exception * gmap string value) :=
  h <- get;;
  if RequestHandler.token_configured h then
    try_except
      (payload <- RequestHandler.get_rollbar_payload;;
       modify_world (add_report current payload);;
       token <- lift (report_current current kwargs payload);;
       modify (set__rollbar_token (Some token));;
       ret (current, <["rollbar" := value_of_kwarg token]> kwargs))
      (fun e => Logger.traceback e ∅;; ret (e, kwargs))
  else ret (current, kwargs).

(** [def traceback(self, **kwargs)], called while [current] is being
    handled. *)
Definition traceback (current : exception) (kwargs : gmap string value) : M unit :=
  RequestHandler.save_traceback current;;
  r <- report_with_keywords current kwargs;;
  logger_traceback_kwargs (fst r) (snd r).

(** X23: [self.traceback] with keywords first saves the exception being
    handled. Called without an [exc_info] keyword it never raises and ends
    with one traceback record carrying the keywords: with no access
    token, exactly that record, for the exception being handled; with a
    token and a report that returns, the token is stored and the record,
    for the exception being handled, carries it under [rollbar]; with a
    report that raises, the stored token is untouched, a record for that
    failure comes first, and the record that carries the keywords is for
    that failure too, since it is then the exception that
    [sys.exc_info()] reports. *)
Theorem traceback_outcome (current : exception) (kwargs : gmap string value)
    (h : Handler) (w : World) :
  kwargs !! "exc_info" = None ->
  let out := traceback current kwargs h w in
  result_of out = Ok tt
  /\ tracebacks (handler_of out)
     = Some (default [] (tracebacks h) ++ [format_exception current])%list
  /\ (RequestHandler.token_configured h = false ->
      records (world_of out)
      = (records w ++ [Logger.traceback_record current kwargs])%list
      /\ reports (world_of out) = reports w
      /\ _rollbar_token (handler_of out) = _rollbar_token h)
  /\ (RequestHandler.token_configured h = true ->
      exists payload,
        reports (world_of out) = (reports w ++ [(current, payload)])%list
        /\ (forall token,
              report_current current kwargs payload = Ok token ->
              _rollbar_token (handler_of out) = Some token
              /\ records (world_of out)
                 = (records w
                    ++ [Logger.traceback_record current
                          (<["rollbar" := value_of_kwarg token]> kwargs)])%list)
        /\ (forall e,
              report_current current kwargs payload = Raise e ->
              _rollbar_token (handler_of out) = _rollbar_token h
              /\ records (world_of out)
                 = (records w ++ [Logger.traceback_record e ∅;
                                  Logger.traceback_record e kwargs])%list)).
Proof.
  intros Hexc out. subst out.
  set (h0 := set_tracebacks
               (Some (default [] (tracebacks h) ++ [format_exception current])%list) h).
  destruct (report_outcome current h0 w) as (i & h1 & w1 & Hid & _).
  set (payload := VDict (<["id" := VStr i]> {["user" := RequestHandler.user_or_none h]})).
  assert (Hstate : tracebacks h1 = tracebacks h0 /\ _rollbar_token h1 = _rollbar_token h
                   /\ records w1 = records w /\ reports w1 = reports w).
  { unfold RequestHandler.id in Hid. simpl in Hid.
    destruct (_id h); injection Hid as <- <- <-; repeat split. }
  destruct Hstate as (Htb & Htok & Hrec & Hrep).
  assert (Hout :
    traceback current kwargs h w
    = if RequestHandler.token_configured h then
        match report_current current kwargs payload with
        | Ok token =>
            (Ok tt, set__rollbar_token (Some token) h1,
             emit (Logger.traceback_record current
                     (<["rollbar" := value_of_kwarg token]> kwargs))
               (add_report current payload w1))
        | Raise e =>
            (Ok tt, h1,
             emit (Logger.traceback_record e kwargs)
               (emit (Logger.traceback_record e ∅) (add_report current payload w1)))
        end
      else (Ok tt, h0, emit (Logger.traceback_record current kwargs) w)).
  { unfold traceback, RequestHandler.save_traceback, bind at 1, modify at 1.
    fold h0. unfold report_with_keywords. unfold bind at 1. unfold bind at 1, get at 1.
    change (RequestHandler.token_configured h0) with (RequestHandler.token_configured h).
    destruct (RequestHandler.token_configured h).
    - unfold try_except, RequestHandler.get_rollbar_payload, bind, get,
        modify_world, lift, modify, ret, logger_traceback_kwargs, Logger.traceback.
      cbv beta. rewrite Hid. cbv beta iota.
      change (RequestHandler.user_or_none h0) with (RequestHandler.user_or_none h).
      fold payload.
      destruct (report_current current kwargs payload) as [token | e];
        unfold modify_world; cbv beta iota; cbn [fst snd].
      + rewrite lookup_insert_ne by discriminate. rewrite Hexc. reflexivity.
      + rewrite Hexc. reflexivity.
    - unfold ret at 1. cbn [fst snd]. unfold logger_traceback_kwargs. rewrite Hexc.
      reflexivity. }
  rewrite Hout. clear Hout.
  destruct (RequestHandler.token_configured h).
  - destruct (report_current current kwargs payload) as [token | e] eqn:Hreport;
      unfold result_of, handler_of, world_of; simpl;
      (split; [reflexivity |]); (split; [rewrite ?Htb; reflexivity |]);
      (split; [discriminate |]); intros _; exists payload;
      rewrite Hrep, Hrec; (split; [reflexivity |]); split.
    + intros token' Ht. rewrite Hreport in Ht. injection Ht as <-.
      split; reflexivity.
    + intros e' He. rewrite Hreport in He. discriminate He.
    + intros token' Ht. rewrite Hreport in Ht. discriminate Ht.
    + intros e' He. rewrite Hreport in He. injection He as <-.
      split; [exact Htok |]. rewrite <- app_assoc. reflexivity.
  - unfold result_of, handler_of, world_of. simpl.
    split; [reflexivity |]. split; [reflexivity |].
    split; [intros _; repeat split | discriminate].
Qed.

End Traceback.

End TracebackMethod.

Lemma traceback_outcome_witness :
  records
    (world_of
       (TracebackMethod.traceback (H := Samples.libs)
          (fun _ _ _ => Raise (Builtin OtherClass "connection refused"))
          (fun _ _ => ret tt)
          HookSamples.uncaught {["job" := VStr "import"]}
          HookSamples.reporting Samples.quiet))
  = [Logger.traceback_record (H := Samples.libs)
       (Builtin OtherClass "connection refused") ∅;
     Logger.traceback_record (H := Samples.libs)
       (Builtin OtherClass "connection refused") {["job" := VStr "import"]}].
Proof.
  assert (Hkeywords : ({["job" := VStr "import"]} : gmap string value) !! "exc_info"
                      = None) by reflexivity.
  assert (Htoken : RequestHandler.token_configured HookSamples.reporting = true)
    by reflexivity.
  destruct (proj2 (proj2 (proj2
    (TracebackMethod.traceback_outcome (H := Samples.libs)
       (fun _ _ _ => Raise (Builtin OtherClass "connection refused"))
       (fun _ _ => ret tt)
       HookSamples.uncaught {["job" := VStr "import"]}
       HookSamples.reporting Samples.quiet Hkeywords))) Htoken)
    as (payload & _ & _ & Hfailure).
  exact (proj2 (Hfailure (Builtin OtherClass "connection refused") eq_refl)).
Defined.
